(** * The live-video pose-detection demo: detector lifecycle and render loop

    A shallow embedding of [demos/live_video/src/index.js].  The module-level
    variables of the script and the part of the browser it talks to form one
    [World]; every [async] function is a computation in a state/exception
    monad whose [await] consumes the next settlement delivered by the event
    loop, together with the control-panel events that fired while the function
    was suspended.  Every call to a collaborator is appended to a trace with a
    snapshot of what is observable at that instant. *)

From stdpp Require Import gmap strings list fin_maps.
From Stdlib Require Import Ascii QArith Floats.

Set Warnings "-clear-no-such-hyp".
Set Warnings "-inexact-float".

Close Scope Q_scope.
Open Scope string_scope.
Open Scope list_scope.

(** ** JavaScript values *)

(** [posedetection.movenet.modelType]: three distinct constants. *)
Inductive MoveNetModelType : Type :=
| SINGLEPOSE_LIGHTNING
| SINGLEPOSE_THUNDER
| MULTIPOSE.

(** The primitive values and plain object literals the script handles.  A
    property that is absent and a property that holds [undefined] are
    different objects: the first has no key, the second maps it to
    [JUndefined]. *)
#[warnings="-register-all"]
Inductive JSVal : Type :=
| JUndefined
| JBool (b : bool)
| JNum (q : Q)
| JStr (s : string)
| JModelType (t : MoveNetModelType)
| JObj (fields : gmap string JSVal).

Definition JInt (z : Z) : JSVal := JNum (inject_Z z).

(** Property read [o.k]: [undefined] when the key is absent. *)
Definition prop (o : gmap string JSVal) (k : string) : JSVal :=
  default JUndefined (o !! k).

(** [v == lit] for a string literal [lit] that is not the text of a number
    (the only use is with "lightning", "thunder" and "multipose"): a string
    compares by content; [undefined] equals only [null]/[undefined]; a number
    or a boolean is compared with [ToNumber lit], which is NaN. *)
Definition loose_eq_word (v : JSVal) (lit : string) : bool :=
  match v with
  | JStr s => String.eqb s lit
  | _ => false
  end.

(** [v !== lit] for a string literal. *)
Definition strict_ne_str (v : JSVal) (lit : string) : bool :=
  match v with
  | JStr s => negb (String.eqb s lit)
  | _ => true
  end.

(** [s.split("-")[0]]: the text before the first dash, all of [s] when it has
    none. *)
Fixpoint split_dash_0 (s : string) : string :=
  match s with
  | EmptyString => EmptyString
  | String c rest =>
      if Ascii.eqb c "-"%char then EmptyString else String c (split_dash_0 rest)
  end.

(** ** Shared configuration: [STATE] of params.js *)

(** [posedetection.SupportedModels]; [STATE.model] comes from the query string
    and the [switch] of [createDetector] has no [default], so a fourth case
    stands for any other value. *)
Inductive SupportedModels : Type :=
| PoseNet
| BlazePose
| MoveNet
| OtherModel (name : string).

Record CameraConfig : Type := { targetFPS : Z; sizeOption : string }.

Record State : Type := {
  model : SupportedModels;
  backend : string;
  flags : gmap string JSVal;
  modelConfig : gmap string JSVal;
  STATE_camera : CameraConfig;
  isModelChanged : bool;
  isFlagChanged : bool;
  isBackendChanged : bool;
  isTargetFPSChanged : bool;
  isSizeOptionChanged : bool
}.

Definition set_model (v : SupportedModels) (s : State) : State :=
  {| model := v; backend := backend s; flags := flags s; modelConfig := modelConfig s;
     STATE_camera := STATE_camera s; isModelChanged := isModelChanged s;
     isFlagChanged := isFlagChanged s; isBackendChanged := isBackendChanged s;
     isTargetFPSChanged := isTargetFPSChanged s;
     isSizeOptionChanged := isSizeOptionChanged s |}.
Definition set_backend (v : string) (s : State) : State :=
  {| model := model s; backend := v; flags := flags s; modelConfig := modelConfig s;
     STATE_camera := STATE_camera s; isModelChanged := isModelChanged s;
     isFlagChanged := isFlagChanged s; isBackendChanged := isBackendChanged s;
     isTargetFPSChanged := isTargetFPSChanged s;
     isSizeOptionChanged := isSizeOptionChanged s |}.
Definition set_flags (v : gmap string JSVal) (s : State) : State :=
  {| model := model s; backend := backend s; flags := v; modelConfig := modelConfig s;
     STATE_camera := STATE_camera s; isModelChanged := isModelChanged s;
     isFlagChanged := isFlagChanged s; isBackendChanged := isBackendChanged s;
     isTargetFPSChanged := isTargetFPSChanged s;
     isSizeOptionChanged := isSizeOptionChanged s |}.
Definition set_modelConfig (v : gmap string JSVal) (s : State) : State :=
  {| model := model s; backend := backend s; flags := flags s; modelConfig := v;
     STATE_camera := STATE_camera s; isModelChanged := isModelChanged s;
     isFlagChanged := isFlagChanged s; isBackendChanged := isBackendChanged s;
     isTargetFPSChanged := isTargetFPSChanged s;
     isSizeOptionChanged := isSizeOptionChanged s |}.
Definition set_STATE_camera (v : CameraConfig) (s : State) : State :=
  {| model := model s; backend := backend s; flags := flags s;
     modelConfig := modelConfig s; STATE_camera := v;
     isModelChanged := isModelChanged s; isFlagChanged := isFlagChanged s;
     isBackendChanged := isBackendChanged s;
     isTargetFPSChanged := isTargetFPSChanged s;
     isSizeOptionChanged := isSizeOptionChanged s |}.
Definition set_isModelChanged (v : bool) (s : State) : State :=
  {| model := model s; backend := backend s; flags := flags s;
     modelConfig := modelConfig s; STATE_camera := STATE_camera s; isModelChanged := v;
     isFlagChanged := isFlagChanged s; isBackendChanged := isBackendChanged s;
     isTargetFPSChanged := isTargetFPSChanged s;
     isSizeOptionChanged := isSizeOptionChanged s |}.
Definition set_isFlagChanged (v : bool) (s : State) : State :=
  {| model := model s; backend := backend s; flags := flags s;
     modelConfig := modelConfig s; STATE_camera := STATE_camera s;
     isModelChanged := isModelChanged s; isFlagChanged := v;
     isBackendChanged := isBackendChanged s;
     isTargetFPSChanged := isTargetFPSChanged s;
     isSizeOptionChanged := isSizeOptionChanged s |}.
Definition set_isBackendChanged (v : bool) (s : State) : State :=
  {| model := model s; backend := backend s; flags := flags s;
     modelConfig := modelConfig s; STATE_camera := STATE_camera s;
     isModelChanged := isModelChanged s; isFlagChanged := isFlagChanged s;
     isBackendChanged := v; isTargetFPSChanged := isTargetFPSChanged s;
     isSizeOptionChanged := isSizeOptionChanged s |}.
Definition set_isTargetFPSChanged (v : bool) (s : State) : State :=
  {| model := model s; backend := backend s; flags := flags s;
     modelConfig := modelConfig s; STATE_camera := STATE_camera s;
     isModelChanged := isModelChanged s; isFlagChanged := isFlagChanged s;
     isBackendChanged := isBackendChanged s; isTargetFPSChanged := v;
     isSizeOptionChanged := isSizeOptionChanged s |}.
Definition set_isSizeOptionChanged (v : bool) (s : State) : State :=
  {| model := model s; backend := backend s; flags := flags s;
     modelConfig := modelConfig s; STATE_camera := STATE_camera s;
     isModelChanged := isModelChanged s; isFlagChanged := isFlagChanged s;
     isBackendChanged := isBackendChanged s;
     isTargetFPSChanged := isTargetFPSChanged s; isSizeOptionChanged := v |}.

(** Modelled from the spec: the control panel (option_panel.js) is not part of
    the sources at hand.  The spec makes it the writer of the configuration
    values and has it raise the change flags, which only the reconciliation
    step clears.  An action writes one value and raises the flag that goes
    with it; a model parameter may be written without raising a flag. *)
Inductive PanelAction : Type :=
| SelectModel (m : SupportedModels)
| SelectBackend (b : string)
| SetFlags (f : gmap string JSVal)
| SetModelParam (k : string) (v : JSVal) (raise : bool)
| SetTargetFPS (fps : Z)
| SetSizeOption (size : string).

Definition applyPanel (s : State) (a : PanelAction) : State :=
  match a with
  | SelectModel m => set_isModelChanged true (set_model m s)
  | SelectBackend b => set_isBackendChanged true (set_backend b s)
  | SetFlags f => set_isFlagChanged true (set_flags f s)
  | SetModelParam k v raise =>
      set_isModelChanged (isModelChanged s || raise)
        (set_modelConfig (<[k := v]> (modelConfig s)) s)
  | SetTargetFPS fps =>
      set_isTargetFPSChanged true
        (set_STATE_camera {| targetFPS := fps; sizeOption := sizeOption (STATE_camera s) |} s)
  | SetSizeOption size =>
      set_isSizeOptionChanged true
        (set_STATE_camera {| targetFPS := targetFPS (STATE_camera s); sizeOption := size |} s)
  end.

Definition applyPanels (s : State) (acts : list PanelAction) : State :=
  foldl applyPanel s acts.

(** ** The world of the script *)

(** Detector objects are told apart by identity. *)
Definition Handle : Type := nat.
Definition Pose : Type := nat.
Definition Error : Type := string.

(** The [Camera] object of camera.js, opaque but for its identity. *)
Record Camera : Type := { cam_id : nat }.

(** What the event loop hands back when a suspended function resumes: the
    panel events that ran in between, whether the awaited promise rejected,
    the value it resolved with (read according to what was awaited), and the
    [readyState] the video element has by then. *)
Record Response : Type := {
  r_panel : list PanelAction;
  r_error : option Error;
  r_camera : Camera;
  r_poses : option (list Pose);
  r_readyState : nat
}.

Inductive Event : Type :=
| EvAlert (msg : Error)
| EvSetupDatGui
| EvSetupCamera (cfg : CameraConfig)
| EvSetBackendAndEnvFlags (fl : gmap string JSVal) (be : string)
| EvCreateDetector (m : SupportedModels) (opts : gmap string JSVal)
| EvDispose (h : Handle)
| EvEstimatePoses (h : Handle) (video : Camera) (opts : gmap string JSVal)
| EvCancelAnimationFrame (id : option nat)
| EvRequestAnimationFrame (id : nat)
| EvDrawCtx
| EvDrawResults (poses : list Pose)
| EvDrawIdeal
| EvDrawIndicators
| EvUnhandledRejection (e : Error).

(** What can be observed at the instant of a call: the in-progress gate
    ([STATE.isModelChanged]), the detector the script refers to, and the
    detectors that have been constructed and not disposed. *)
Record Snapshot : Type := {
  snap_gate : bool;
  snap_detector : option Handle;
  snap_alive : gset Handle
}.

Record World : Type := {
  (* module variables of index.js *)
  STATE : State;
  detector : option Handle;      (* [None]: null or undefined *)
  camera : option Camera;
  rafId : option nat;
  (* the browser *)
  window_cam : option Camera;
  location_search : gmap string string;
  readyState : nat;              (* camera.video.readyState *)
  pendingFrame : option nat;     (* the animation-frame callback not yet run *)
  nextFrameId : nat;
  alive : gset Handle;
  nextHandle : nat;
  inbox : list Response;
  trace : list (Event * Snapshot)
}.

Definition set_STATE (v : State) (w : World) : World :=
  {| STATE := v; detector := detector w; camera := camera w; rafId := rafId w;
     window_cam := window_cam w; location_search := location_search w;
     readyState := readyState w; pendingFrame := pendingFrame w;
     nextFrameId := nextFrameId w; alive := alive w; nextHandle := nextHandle w;
     inbox := inbox w; trace := trace w |}.
Definition set_detector (v : option Handle) (w : World) : World :=
  {| STATE := STATE w; detector := v; camera := camera w; rafId := rafId w;
     window_cam := window_cam w; location_search := location_search w;
     readyState := readyState w; pendingFrame := pendingFrame w;
     nextFrameId := nextFrameId w; alive := alive w; nextHandle := nextHandle w;
     inbox := inbox w; trace := trace w |}.
Definition set_camera (v : option Camera) (w : World) : World :=
  {| STATE := STATE w; detector := detector w; camera := v; rafId := rafId w;
     window_cam := window_cam w; location_search := location_search w;
     readyState := readyState w; pendingFrame := pendingFrame w;
     nextFrameId := nextFrameId w; alive := alive w; nextHandle := nextHandle w;
     inbox := inbox w; trace := trace w |}.
Definition set_rafId (v : option nat) (w : World) : World :=
  {| STATE := STATE w; detector := detector w; camera := camera w; rafId := v;
     window_cam := window_cam w; location_search := location_search w;
     readyState := readyState w; pendingFrame := pendingFrame w;
     nextFrameId := nextFrameId w; alive := alive w; nextHandle := nextHandle w;
     inbox := inbox w; trace := trace w |}.
Definition set_window_cam (v : option Camera) (w : World) : World :=
  {| STATE := STATE w; detector := detector w; camera := camera w; rafId := rafId w;
     window_cam := v; location_search := location_search w; readyState := readyState w;
     pendingFrame := pendingFrame w; nextFrameId := nextFrameId w; alive := alive w;
     nextHandle := nextHandle w; inbox := inbox w; trace := trace w |}.
Definition set_location_search (v : gmap string string) (w : World) : World :=
  {| STATE := STATE w; detector := detector w; camera := camera w; rafId := rafId w;
     window_cam := window_cam w; location_search := v; readyState := readyState w;
     pendingFrame := pendingFrame w; nextFrameId := nextFrameId w; alive := alive w;
     nextHandle := nextHandle w; inbox := inbox w; trace := trace w |}.
Definition set_readyState (v : nat) (w : World) : World :=
  {| STATE := STATE w; detector := detector w; camera := camera w; rafId := rafId w;
     window_cam := window_cam w; location_search := location_search w; readyState := v;
     pendingFrame := pendingFrame w; nextFrameId := nextFrameId w; alive := alive w;
     nextHandle := nextHandle w; inbox := inbox w; trace := trace w |}.
Definition set_pendingFrame (v : option nat) (w : World) : World :=
  {| STATE := STATE w; detector := detector w; camera := camera w; rafId := rafId w;
     window_cam := window_cam w; location_search := location_search w;
     readyState := readyState w; pendingFrame := v; nextFrameId := nextFrameId w;
     alive := alive w; nextHandle := nextHandle w; inbox := inbox w; trace := trace w |}.
Definition set_nextFrameId (v : nat) (w : World) : World :=
  {| STATE := STATE w; detector := detector w; camera := camera w; rafId := rafId w;
     window_cam := window_cam w; location_search := location_search w;
     readyState := readyState w; pendingFrame := pendingFrame w; nextFrameId := v;
     alive := alive w; nextHandle := nextHandle w; inbox := inbox w; trace := trace w |}.
Definition set_alive (v : gset Handle) (w : World) : World :=
  {| STATE := STATE w; detector := detector w; camera := camera w; rafId := rafId w;
     window_cam := window_cam w; location_search := location_search w;
     readyState := readyState w; pendingFrame := pendingFrame w;
     nextFrameId := nextFrameId w; alive := v; nextHandle := nextHandle w;
     inbox := inbox w; trace := trace w |}.
Definition set_nextHandle (v : nat) (w : World) : World :=
  {| STATE := STATE w; detector := detector w; camera := camera w; rafId := rafId w;
     window_cam := window_cam w; location_search := location_search w;
     readyState := readyState w; pendingFrame := pendingFrame w;
     nextFrameId := nextFrameId w; alive := alive w; nextHandle := v; inbox := inbox w;
     trace := trace w |}.
Definition set_inbox (v : list Response) (w : World) : World :=
  {| STATE := STATE w; detector := detector w; camera := camera w; rafId := rafId w;
     window_cam := window_cam w; location_search := location_search w;
     readyState := readyState w; pendingFrame := pendingFrame w;
     nextFrameId := nextFrameId w; alive := alive w; nextHandle := nextHandle w;
     inbox := v; trace := trace w |}.
Definition set_trace (v : list (Event * Snapshot)) (w : World) : World :=
  {| STATE := STATE w; detector := detector w; camera := camera w; rafId := rafId w;
     window_cam := window_cam w; location_search := location_search w;
     readyState := readyState w; pendingFrame := pendingFrame w;
     nextFrameId := nextFrameId w; alive := alive w; nextHandle := nextHandle w;
     inbox := inbox w; trace := v |}.

Definition observe (w : World) : Snapshot :=
  {| snap_gate := isModelChanged (STATE w);
     snap_detector := detector w;
     snap_alive := alive w |}.

(** ** Suspendable computations *)

(** How a call of a function of the script ends: it returns, it throws (for an
    [async] function: its promise rejects), or it stays suspended at an
    [await] whose promise the event loop never settles. *)
Inductive Outcome (A : Type) : Type :=
| Done (a : A)
| Thrown (e : Error)
| Pending.
Arguments Done {A} a.
Arguments Thrown {A} e.
Arguments Pending {A}.

Definition M (A : Type) : Type := World -> Outcome A * World.

#[global] Instance M_ret : MRet M := fun A a w => (Done a, w).

#[global] Instance M_bind : MBind M := fun A B f m w =>
  match m w with
  | (Done a, w') => f a w'
  | (Thrown e, w') => (Thrown e, w')
  | (Pending, w') => (Pending, w')
  end.

Definition get : M World := fun w => (Done w, w).
Definition getSTATE : M State := fun w => (Done (STATE w), w).
Definition modify (f : World -> World) : M unit := fun w => (Done tt, f w).
Definition modSTATE (f : State -> State) : M unit :=
  modify (fun w => set_STATE (f (STATE w)) w).
Definition throw {A : Type} (e : Error) : M A := fun w => (Thrown e, w).

(** [try { body } catch (error) { handler }] *)
Definition try_catch {A : Type} (body : M A) (handler : Error -> M A) : M A :=
  fun w =>
    match body w with
    | (Thrown e, w') => handler e w'
    | r => r
    end.

(** A call of a collaborator: logged with what is observable as it is made. *)
Definition emit (e : Event) : M unit :=
  modify (fun w => set_trace (trace w ++ [(e, observe w)]) w).

(** Suspension until the event loop resumes the function.  The panel events
    that ran meanwhile have changed [STATE]. *)
Definition suspend : M Response := fun w =>
  match inbox w with
  | [] => (Pending, w)
  | r :: rest =>
      (Done r,
       set_inbox rest
         (set_readyState (r_readyState r)
            (set_STATE (applyPanels (STATE w) (r_panel r)) w)))
  end.

(** [await p] for a promise that may reject. *)
Definition await : M Response :=
  r ← suspend;
  match r_error r with
  | Some e => throw e
  | None => mret r
  end.

(** Calling an [async] function without awaiting it: a rejection is nobody's
    to handle, and a suspension that never ends leaves the caller running. *)
Definition spawn (m : M unit) : M unit := fun w =>
  match m w with
  | (Done _, w') => (Done tt, w')
  | (Thrown e, w') => emit (EvUnhandledRejection e) w'
  | (Pending, w') => (Done tt, w')
  end.

(** ** Collaborators *)

(** [window.alert]: the user-visible channel. *)
Definition alert (msg : Error) : M unit := emit (EvAlert msg).

(** Modelled from the spec: option_panel.js is not part of the sources at
    hand; the set-up of the panel is an asynchronous call that writes the
    configuration, here through the panel events of its response. *)
Definition setupDatGui : M unit :=
  emit EvSetupDatGui;; _ ← await; mret tt.

(** Modelled from the spec: camera.js is not part of the sources at hand;
    [setup(captureParameters) -> Source | fails(DeviceError)], asynchronous. *)
Definition Camera_setupCamera (cfg : CameraConfig) : M Camera :=
  emit (EvSetupCamera cfg);; r ← await; mret (r_camera r).

(** Modelled from the spec: util.js is not part of the sources at hand;
    applying backend and flags is an asynchronous call that may fail. *)
Definition setBackendAndEnvFlags (fl : gmap string JSVal) (be : string) : M unit :=
  emit (EvSetBackendAndEnvFlags fl be);; _ ← await; mret tt.

(** Modelled from the spec: the factory [posedetection.createDetector] is not
    part of the sources at hand;
    [create(modelKind, modelParameters) -> Detector | fails(LoadError)],
    asynchronous.  When it resolves, a detector object that did not exist
    before is alive. *)
Definition posedetection_createDetector (m : SupportedModels)
    (opts : gmap string JSVal) : M Handle :=
  emit (EvCreateDetector m opts);;
  _ ← await;
  w ← get;
  modify (fun w => set_nextHandle (S (nextHandle w))
                     (set_alive ({[nextHandle w]} ∪ alive w) w));;
  mret (nextHandle w).

(** Modelled from the spec: the detector's [dispose() -> void]. *)
Definition detector_dispose (h : Handle) : M unit :=
  emit (EvDispose h);;
  modify (fun w => set_alive (alive w ∖ {[h]}) w).

(** Modelled from the spec: the detector's
    [estimate(frame, {maxPoses, flipHorizontal}) -> PoseResult[] |
    fails(InferenceError)], asynchronous. *)
Definition detector_estimatePoses (h : Handle) (video : Camera)
    (opts : gmap string JSVal) : M (option (list Pose)) :=
  emit (EvEstimatePoses h video opts);; r ← await; mret (r_poses r).

(** [window.requestAnimationFrame].  At most one callback is ever registered
    at a time: the script requests one only as the last statement of a
    tick. *)
Definition requestAnimationFrame : M nat :=
  w ← get;
  emit (EvRequestAnimationFrame (nextFrameId w));;
  modify (fun w => set_pendingFrame (Some (nextFrameId w))
                     (set_nextFrameId (S (nextFrameId w)) w));;
  mret (nextFrameId w).

(** What stays registered once the callback [id] is cancelled. *)
Definition cancelled (id pending : option nat) : option nat :=
  match id, pending with
  | Some i, Some j => if Nat.eqb i j then None else pending
  | _, _ => pending
  end.

Definition cancelAnimationFrame (id : option nat) : M unit :=
  emit (EvCancelAnimationFrame id);;
  modify (fun w => set_pendingFrame (cancelled id (pendingFrame w)) w).

(** Reading a property of [camera] throws when [camera] is undefined. *)
Definition the_camera : M Camera :=
  w ← get;
  match camera w with
  | Some c => mret c
  | None => throw "TypeError: camera is undefined"
  end.

(** ** index.js *)

(** [case posedetection.SupportedModels.MoveNet:] of [createDetector], which
    the BlazePose case falls into when it returns from neither branch. *)
Definition createDetector_MoveNet (s : State) : M (option Handle) :=
  let type := prop (modelConfig s) "type" in
  let modelType :=
    if loose_eq_word type "lightning" then JModelType SINGLEPOSE_LIGHTNING
    else if loose_eq_word type "thunder" then JModelType SINGLEPOSE_THUNDER
    else if loose_eq_word type "multipose" then JModelType MULTIPOSE
    else JUndefined in
  if strict_ne_str (prop (modelConfig s) "customModel") "" then
    h ← posedetection_createDetector (model s)
          {[ "modelType" := modelType;
             "modelUrl" := prop (modelConfig s) "customModel" ]};
    mret (Some h)
  else
    h ← posedetection_createDetector (model s) {[ "modelType" := modelType ]};
    mret (Some h).

Definition createDetector : M (option Handle) :=
  s ← getSTATE;
  match model s with
  | PoseNet =>
      h ← posedetection_createDetector (model s)
            {[ "quantBytes" := JInt 4;
               "architecture" := JStr "MobileNetV1";
               "outputStride" := JInt 16;
               "inputResolution" :=
                 JObj {[ "width" := JInt 500; "height" := JInt 500 ]};
               "multiplier" := JNum (3 # 4) ]};
      mret (Some h)
  | BlazePose =>
      let runtime := split_dash_0 (backend s) in
      if String.eqb runtime "mediapipe" then
        h ← posedetection_createDetector (model s)
              {[ "runtime" := JStr runtime;
                 "modelType" := prop (modelConfig s) "type";
                 "solutionPath" := JStr "https://cdn.jsdelivr.net/npm/@mediapipe/pose@0.4" ]};
        mret (Some h)
      else if String.eqb runtime "tfjs" then
        h ← posedetection_createDetector (model s)
              {[ "runtime" := JStr runtime;
                 "modelType" := prop (modelConfig s) "type" ]};
        mret (Some h)
      else createDetector_MoveNet s
  | MoveNet => createDetector_MoveNet s
  | OtherModel _ => mret None
  end.

(** [checkGuiUpdate], lines 86-90: the capture axis. *)
Definition reconcileCamera : M unit :=
  s ← getSTATE;
  if isTargetFPSChanged s || isSizeOptionChanged s then
    cam ← Camera_setupCamera (STATE_camera s);
    modify (set_camera (Some cam));;
    modSTATE (set_isTargetFPSChanged false);;
    modSTATE (set_isSizeOptionChanged false)
  else mret tt.

(** [checkGuiUpdate], lines 105-110: construction of the next detector. *)
Definition constructDetector : M unit :=
  try_catch
    (d ← createDetector; modify (set_detector d))
    (fun error => modify (set_detector None);; alert error).

(** [checkGuiUpdate], lines 112-114. *)
Definition clearChangeFlags : M unit :=
  modSTATE (set_isFlagChanged false);;
  modSTATE (set_isBackendChanged false);;
  modSTATE (set_isModelChanged false).

(** [checkGuiUpdate], lines 92-115: the detector axis. *)
Definition reconcileDetector : M unit :=
  s ← getSTATE;
  if isModelChanged s || isFlagChanged s || isBackendChanged s then
    modSTATE (set_isModelChanged true);;
    w ← get;
    cancelAnimationFrame (rafId w);;
    match detector w with
    | Some h => detector_dispose h
    | None => mret tt
    end;;
    s ← getSTATE;
    (if isFlagChanged s || isBackendChanged s
     then setBackendAndEnvFlags (flags s) (backend s)
     else mret tt);;
    constructDetector;;
    clearChangeFlags
  else mret tt.

Definition checkGuiUpdate : M unit :=
  reconcileCamera;; reconcileDetector.

(** [renderResult], lines 141-147: wait for the first frame of the video. *)
Definition awaitVideoReady : M unit :=
  _ ← the_camera;
  w ← get;
  if Nat.ltb (readyState w) 2 then _ ← suspend; mret tt else mret tt.

(** The options object of lines 160-163. *)
Definition estimateConfig (s : State) : gmap string JSVal :=
  {[ "maxPoses" := prop (modelConfig s) "maxPoses";
     "flipHorizontal" := JBool false ]}.

(** [renderResult], lines 149-171: the value of [poses] after the inference. *)
Definition estimate : M (option (list Pose)) :=
  w ← get;
  match detector w with
  | Some h =>
      try_catch
        (video ← the_camera;
         s ← getSTATE;
         detector_estimatePoses h video (estimateConfig s))
        (fun error =>
           w ← get;
           match detector w with
           | Some h' => detector_dispose h'
           | None => throw "TypeError: detector is null"
           end;;
           modify (set_detector None);;
           alert error;;
           mret None)
  | None => mret None
  end.

(** [poses && poses.length > 0 && !STATE.isModelChanged] *)
Definition overlay_wanted (poses : option (list Pose)) (s : State) : bool :=
  match poses with
  | Some ps => Nat.ltb 0 (length ps) && negb (isModelChanged s)
  | None => false
  end.

(** [renderResult], lines 173-187: drawing. *)
Definition draw (poses : option (list Pose)) : M unit :=
  w ← get;
  match window_cam w with
  | None => modify (set_window_cam (camera w))
  | Some _ => mret tt
  end;;
  _ ← the_camera;
  emit EvDrawCtx;;
  s ← getSTATE;
  (if overlay_wanted poses s
   then emit (EvDrawResults (default [] poses));; emit EvDrawIdeal
   else mret tt);;
  emit EvDrawIndicators.

Definition renderResult : M unit :=
  awaitVideoReady;;
  poses ← estimate;
  draw poses.

(** [renderPrediction], lines 192-194. *)
Definition renderUnlessReplacing : M unit :=
  s ← getSTATE;
  if negb (isModelChanged s) then renderResult else mret tt.

(** [renderPrediction], line 196. *)
Definition scheduleNext : M unit :=
  id ← requestAnimationFrame;
  modify (set_rafId (Some id)).

Definition renderPrediction : M unit :=
  checkGuiUpdate;;
  renderUnlessReplacing;;
  scheduleNext.

Definition app : M unit :=
  w ← get;
  if negb (bool_decide (is_Some (location_search w !! "model"))) then
    alert "Cannot find model in the query string."
  else
    setupDatGui;;
    s ← getSTATE;
    cam ← Camera_setupCamera (STATE_camera s);
    modify (set_camera (Some cam));;
    s ← getSTATE;
    setBackendAndEnvFlags (flags s) (backend s);;
    d ← createDetector;
    modify (set_detector d);;
    spawn renderPrediction.

(** ** The browser's side of the loop *)

(** The registered animation-frame callback is run at the next frame; with
    none registered the loop is not running. *)
Fixpoint eventLoop (frames : nat) : M unit :=
  match frames with
  | O => mret tt
  | S k =>
      w ← get;
      match pendingFrame w with
      | None => mret tt
      | Some _ =>
          _ ← suspend;
          modify (set_pendingFrame None);;
          spawn renderPrediction;;
          eventLoop k
      end
  end.

(** The script, top to bottom ([app();] is its last statement), then [frames]
    animation frames. *)
Definition main (frames : nat) : M unit :=
  spawn app;; eventLoop frames.

Definition emptyState : State :=
  {| model := OtherModel ""; backend := ""; flags := ∅; modelConfig := ∅;
     STATE_camera := {| targetFPS := 60; sizeOption := "640 X 480" |};
     isModelChanged := false; isFlagChanged := false; isBackendChanged := false;
     isTargetFPSChanged := false; isSizeOptionChanged := false |}.

(** The world when the script is loaded: every [let] of line 35-40 is still
    undefined, nothing has been constructed, and the event loop will deliver
    [events]. *)
Definition boot (st : State) (search : gmap string string)
    (events : list Response) : World :=
  {| STATE := st; detector := None; camera := None; rafId := None;
     window_cam := None; location_search := search; readyState := 0;
     pendingFrame := None; nextFrameId := 0; alive := ∅; nextHandle := 0;
     inbox := events; trace := [] |}.

(** The calls made, without their snapshots. *)
Definition calls (w : World) : list Event := (trace w).*1.

(** No change flag is raised. *)
Definition quiet (s : State) : bool :=
  negb (isModelChanged s || isFlagChanged s || isBackendChanged s
        || isTargetFPSChanged s || isSizeOptionChanged s).

(** The calls made between two worlds of one run. *)
Definition new_calls (w w' : World) : list Event :=
  drop (length (trace w)) (calls w').

Definition new_instants (w w' : World) : list (Event * Snapshot) :=
  drop (length (trace w)) (trace w').

(** The world in which a suspended function resumes on response [r]. *)
Definition resume (r : Response) (rest : list Response) (w : World) : World :=
  set_inbox rest
    (set_readyState (r_readyState r)
       (set_STATE (applyPanels (STATE w) (r_panel r)) w)).

(** The world after the factory has been called with [opts]. *)
Definition called (m : SupportedModels) (opts : gmap string JSVal) (w : World) : World :=
  set_trace (trace w ++ [(EvCreateDetector m opts, observe w)]) w.

(** The world after the factory has resolved. *)
Definition allocated (w : World) : World :=
  set_nextHandle (S (nextHandle w)) (set_alive ({[nextHandle w]} ∪ alive w) w).

(** ** The Stats Aggregator: lines 118-138 *)

Module Stats.

(** JavaScript numbers are the values of IEEE 754 binary64, and [+], [-],
    [/] and [>=] on them are the operations of that format, rounding to
    nearest, ties to even: the primitive [float] and its operations.  It has
    the two zeros, the two infinities and one NaN. *)
Definition JSNumber : Type := float.

(** The module variables the aggregator works on.  [startInferenceTime] is
    declared without a value; [undefined] enters arithmetic as NaN. *)
Record Vars : Type := {
  stats : option nat;
  startInferenceTime : JSNumber;
  numInferences : JSNumber;
  inferenceTimeSum : JSNumber;
  lastPanelUpdate : JSNumber
}.

(** Lines 35-39; nothing assigns [stats], the call of [setupStats] on line
    209 being commented out. *)
Definition initial : Vars :=
  {| stats := None; startInferenceTime := nan; numInferences := 0%float;
     inferenceTimeSum := 0%float; lastPanelUpdate := 0%float |}.

(** [stats.customFpsPanel.update(value, maxValue)] *)
Definition Report : Type := (JSNumber * Z)%type.

(** [now] is the reading of [(performance || Date).now()]. *)
Definition beginEstimatePosesStats (now : JSNumber) (v : Vars) : Vars :=
  {| stats := stats v; startInferenceTime := now;
     numInferences := numInferences v;
     inferenceTimeSum := inferenceTimeSum v;
     lastPanelUpdate := lastPanelUpdate v |}.

(** Lines 124-125: [inferenceTimeSum += endInferenceTime - startInferenceTime;
    ++numInferences;] *)
Definition recordInference (endInferenceTime : JSNumber) (v : Vars) : Vars :=
  {| stats := stats v; startInferenceTime := startInferenceTime v;
     numInferences := (numInferences v + 1)%float;
     inferenceTimeSum :=
       (inferenceTimeSum v + (endInferenceTime - startInferenceTime v))%float;
     lastPanelUpdate := lastPanelUpdate v |}.

(** Line 129. *)
Definition averageInferenceTime (v : Vars) : JSNumber :=
  (inferenceTimeSum v / numInferences v)%float.

Definition endEstimatePosesStats (now : JSNumber) (v : Vars)
    : Outcome (option Report) * Vars :=
  let endInferenceTime := now in
  let v := recordInference endInferenceTime v in
  let panelUpdateMilliseconds := 1000%float in
  if (panelUpdateMilliseconds <=? endInferenceTime - lastPanelUpdate v)%float then
    let average := averageInferenceTime v in
    let v := {| stats := stats v; startInferenceTime := startInferenceTime v;
                numInferences := 0%float; inferenceTimeSum := 0%float;
                lastPanelUpdate := lastPanelUpdate v |} in
    match stats v with
    | None => (Thrown "TypeError: stats is undefined", v)
    | Some _ =>
        (Done (Some ((1000 / average)%float, 120%Z)),
         {| stats := stats v; startInferenceTime := startInferenceTime v;
            numInferences := numInferences v;
            inferenceTimeSum := inferenceTimeSum v;
            lastPanelUpdate := endInferenceTime |})
    end
  else (Done None, v).

(** A run of inferences, each timed from its start to its end. *)
Fixpoint inferences (samples : list (JSNumber * JSNumber)) (v : Vars)
    : list (Outcome (option Report)) * Vars :=
  match samples with
  | [] => ([], v)
  | (s, e) :: rest =>
      let (o, v') := endEstimatePosesStats e (beginEstimatePosesStats s v) in
      let (os, v'') := inferences rest v' in
      (o :: os, v'')
  end.

(** The test of line 128 at end time [e], for an interval started at
    [start]. *)
Definition fills (start e : JSNumber) : bool := (1000 <=? e - start)%float.

Definition durations (samples : list (JSNumber * JSNumber)) : list JSNumber :=
  map (fun se => (se.2 - se.1)%float) samples.

(** [d1 + ... + dN] from the left, starting from 0. *)
Definition total (l : list JSNumber) : JSNumber := foldl add 0%float l.

(** [n] as it is counted, by adding 1 to 0 [n] times; that is [n] up to
    2^53. *)
Definition count (n : nat) : JSNumber := Nat.iter n (fun c => (c + 1)%float) 0%float.

Definition average (l : list JSNumber) : JSNumber :=
  (total l / count (length l))%float.

(** The number is positive, infinite or not, and at least 1: as the format
    has it, sign [+] and, for [m * 2^e], the bit length of [m] plus [e] at
    least 1. *)
Definition at_least_one (x : spec_float) : Prop :=
  match x with
  | S754_infinity false => True
  | S754_finite false m e => (1 <= Zpos (digits2_pos m) + e)%Z
  | _ => False
  end.

End Stats.

(** ** Properties of a run *)

Definition at_most_one (s : gset Handle) : Prop :=
  forall h1 h2, h1 ∈ s -> h2 ∈ s -> h1 = h2.

(** The detector the script refers to has not been disposed. *)
Definition reference_live (s : Snapshot) : Prop :=
  forall h, snap_detector s = Some h -> h ∈ snap_alive s.

(** A disposed detector is referred to only while the in-progress gate is
    set. *)
Definition reference_guarded (s : Snapshot) : Prop :=
  forall h, snap_detector s = Some h -> h ∈ snap_alive s \/ snap_gate s = true.

(** What a call requires of the instant at which it is made: a detector is
    used only while it is alive and referred to, and one is constructed only
    when none is alive. *)
Definition call_ok (e : Event) (s : Snapshot) : Prop :=
  match e with
  | EvDispose h | EvEstimatePoses h _ _ =>
      h ∈ snap_alive s /\ snap_detector s = Some h
  | EvCreateDetector _ _ => snap_alive s = ∅
  | _ => True
  end.

Definition snapshot_ok (s : Snapshot) : Prop :=
  at_most_one (snap_alive s) /\ reference_guarded s.

Definition instant_ok (i : Event * Snapshot) : Prop :=
  snapshot_ok i.2 /\ call_ok i.1 i.2.

Definition trace_ok (w : World) : Prop := Forall instant_ok (trace w).

(** The detectors alive when exactly the one referred to is. *)
Definition referenced (d : option Handle) : gset Handle :=
  match d with
  | Some h => {[ h ]}
  | None => ∅
  end.

(** The states of the detector between the steps of the loop.  [Live]: the
    one referred to is the one alive.  [Vacant]: none is alive, and the one
    referred to, if any, is covered by the gate.  [Safe]: at most one is
    alive and a stale reference is covered by the gate. *)
Definition Live (w : World) : Prop :=
  trace_ok w /\ alive w = referenced (detector w).

Definition Vacant (w : World) : Prop :=
  trace_ok w /\ alive w = ∅
  /\ (detector w = None \/ isModelChanged (STATE w) = true).

Definition Safe (w : World) : Prop :=
  trace_ok w /\ snapshot_ok (observe w).

(** No animation frame is requested. *)
Definition Unscheduled (w : World) : Prop := pendingFrame w = None.

(** The invariant with the reference cleared at disposal. *)
Definition instant_cleared (i : Event * Snapshot) : Prop :=
  at_most_one (snap_alive i.2) /\ reference_live i.2.

Definition is_overlay (e : Event) : bool :=
  match e with
  | EvDrawResults _ => true
  | _ => false
  end.

Definition is_alert (e : Event) : bool :=
  match e with
  | EvAlert _ => true
  | _ => false
  end.

Definition is_schedule (e : Event) : bool :=
  match e with
  | EvRequestAnimationFrame _ => true
  | _ => false
  end.

(** The options of the inferences dispatched between [w] and [w']. *)
Definition options_of (e : Event) : option (gmap string JSVal) :=
  match e with
  | EvEstimatePoses _ _ opts => Some opts
  | _ => None
  end.

Definition estimate_options (w w' : World) : list (gmap string JSVal) :=
  omap options_of (new_calls w w').

(** The gate as it stood when they were dispatched. *)
Definition dispatch_gate (i : Event * Snapshot) : option bool :=
  match i.1 with
  | EvEstimatePoses _ _ _ => Some (snap_gate i.2)
  | _ => None
  end.

Definition gate_at_dispatch (w w' : World) : list bool :=
  omap dispatch_gate (new_instants w w').

(** Weakest preconditions: what must hold of [w] for the run of [m] from [w]
    to end in [Q] when it returns, [T] when it throws, [N] when it stays
    suspended. *)
Definition wp {A : Type} (m : M A) (Q : A -> World -> Prop)
    (T : Error -> World -> Prop) (N : World -> Prop) (w : World) : Prop :=
  match m w with
  | (Done a, w') => Q a w'
  | (Thrown e, w') => T e w'
  | (Pending, w') => N w'
  end.

(** ** Properties the script does not have *)

(** At every instant at most one detector is alive and the script refers to
    no disposed one. *)
Definition reference_cleared_at_disposal (w : World) : Prop :=
  Forall instant_cleared (trace w).

(** The overlay is drawn exactly when the result is non-null, non-empty and
    the gate was clear as the inference was dispatched. *)
Definition overlay_decided_at_dispatch (w : World) : Prop :=
  forall poses w1 w',
    (awaitVideoReady;; estimate) w = (Done poses, w1) ->
    draw poses w1 = (Done tt, w') ->
    existsb is_overlay (new_calls w1 w') = true <->
    (exists ps, poses = Some ps /\ ps <> []) /\ gate_at_dispatch w w1 = [false].

(** Inferences that fill one reporting interval end in a report of
    [1000 / average]. *)
Definition interval_reported (v : Stats.Vars)
    (pre : list (Stats.JSNumber * Stats.JSNumber)) (s e : Stats.JSNumber) : Prop :=
  Stats.inferenceTimeSum v = 0%float ->
  Stats.numInferences v = 0%float ->
  Forall (fun se => Stats.fills (Stats.lastPanelUpdate v) se.2 = false) pre ->
  Stats.fills (Stats.lastPanelUpdate v) e = true ->
  exists rate,
    last (Stats.inferences (pre ++ [(s, e)]) v).1 = Some (Done (Some (rate, 120%Z)))
    /\ rate = (1000 / Stats.average (Stats.durations (pre ++ [(s, e)])))%float.


(** Both inference options are read from the configuration. *)
Definition options_from_configuration (w : World) : Prop :=
  forall opts,
    opts ∈ estimate_options w (estimate w).2 ->
    prop opts "maxPoses" = prop (modelConfig (STATE w)) "maxPoses"
    /\ prop opts "flipHorizontal" = prop (modelConfig (STATE w)) "flipHorizontal".

(** A capture failure at startup is alerted and the loop is not scheduled. *)
Definition capture_failure_alerted (w : World) : Prop :=
  existsb is_alert (calls w) = true /\ existsb is_schedule (calls w) = false.

(** ** Sample worlds *)

Definition sample_camera : Camera := {| cam_id := 1 |}.

(** A response that resolves, after the panel events [acts]. *)
Definition resolved (acts : list PanelAction) (poses : option (list Pose)) : Response :=
  {| r_panel := acts; r_error := None; r_camera := sample_camera;
     r_poses := poses; r_readyState := 4 |}.

(** A response that rejects with [e]. *)
Definition rejected (e : Error) : Response :=
  {| r_panel := []; r_error := Some e; r_camera := sample_camera;
     r_poses := None; r_readyState := 4 |}.

Definition movenet_state (type customModel : string) : State :=
  set_modelConfig {[ "type" := JStr type; "customModel" := JStr customModel;
                     "maxPoses" := JInt 1 ]}
    (set_backend "tfjs-webgl" (set_model MoveNet emptyState)).

Definition query : gmap string string := {[ "model" := "movenet" ]}.

(** A world in mid-loop: a camera, the detector [0] alive, nothing pending. *)
Definition running (st : State) (events : list Response) : World :=
  set_readyState 4
    (set_camera (Some sample_camera)
       (set_alive {[ 0 ]}
          (set_nextHandle 1 (set_detector (Some 0) (boot st query events))))).

(** BlazePose on a backend whose runtime prefix is unknown. *)
Definition blazepose_wasm : World :=
  boot (set_backend "wasm" (set_model BlazePose emptyState)) query
       [resolved [] None].

(** A configuration that asks for a flipped image. *)
Definition flipped : World :=
  running (set_modelConfig {[ "maxPoses" := JInt 1; "flipHorizontal" := JBool true ]}
             (set_model MoveNet emptyState)) [].

(** The model is changed on the panel while an inference is in flight. *)
Definition changed_in_flight : World :=
  running (movenet_state "lightning" "")
          [resolved [SelectModel PoseNet] (Some [7])].

(** The backend is changed on the panel while the loop runs. *)
Definition backend_changed : World :=
  running (set_isBackendChanged true (movenet_state "lightning" ""))
          [resolved [] None; resolved [] None].


(** The capture device is refused at startup. *)
Definition camera_refused : list Response :=
  [resolved [] None; rejected "NotAllowedError"; resolved [] None].

(** A run in which the user selects another model after the first frame:
    startup (panel, camera, backend, factory), one inference, then the frame
    during whose wait the panel raised [isModelChanged]. *)
Definition reselection : list Response :=
  [resolved [] None; resolved [] None; resolved [] None; resolved [] None;
   resolved [] (Some [7]); resolved [SelectModel PoseNet] None].


(** ** Further properties of a run *)

(** The model is none of the three the [switch] of [createDetector] knows. *)
Definition is_other (m : SupportedModels) : bool :=
  match m with
  | OtherModel _ => true
  | _ => false
  end.

(** The text holds no dash. *)
Fixpoint dashless (s : string) : bool :=
  match s with
  | EmptyString => true
  | String c rest => negb (Ascii.eqb c "-"%char) && dashless rest
  end.

(** ** Further sample worlds *)

(** BlazePose on the MediaPipe runtime. *)
Definition blazepose_mediapipe : World :=
  boot (set_modelConfig {[ "type" := JStr "full"; "maxPoses" := JInt 1 ]}
          (set_backend "mediapipe-gpu" (set_model BlazePose emptyState)))
       query [].

(** MoveNet with a configuration that holds neither a type nor a custom
    model. *)
Definition movenet_bare : World :=
  boot (set_model MoveNet emptyState) query [].

(** The capture size is changed on the panel while the loop runs. *)
Definition size_changed (events : list Response) : World :=
  running (set_isSizeOptionChanged true (movenet_state "lightning" "")) events.

(** A model this script does not know is selected while the loop runs. *)
Definition unknown_selected : World :=
  running (set_isModelChanged true (set_model (OtherModel "handpose") emptyState)) [].

(** ** What a tick leaves behind *)

Definition is_request (e : Event) : bool :=
  match e with
  | EvRequestAnimationFrame _ => true
  | _ => false
  end.

(** The number of calls of [requestAnimationFrame] so far. *)
Definition requests (w : World) : nat :=
  length (List.filter is_request (calls w)).

(** The two awaited calls of a tick that stand outside every [try]. *)
Definition escapes_from (e : Event) : bool :=
  match e with
  | EvSetupCamera _ | EvSetBackendAndEnvFlags _ _ => true
  | _ => false
  end.

(** The last call made is one of those two. *)
Definition escaped (w : World) : Prop :=
  exists ev, last (calls w) = Some ev /\ escapes_from ev = true.

(** From [w] to [w'] no frame has been requested, none has been registered
    where none was, and the camera has stayed defined where it was. *)
Definition Kept (w w' : World) : Prop :=
  requests w' = requests w
  /\ (pendingFrame w = None -> pendingFrame w' = None)
  /\ (is_Some (camera w) -> is_Some (camera w')).

(** The same for a step that ends with an error. *)
Definition Escaped (w w' : World) : Prop :=
  Kept w w' /\ (is_Some (camera w) -> escaped w').

(** * Proofs *)

(** ** Rules for weakest preconditions *)

Section WP.
Context {A : Type}.
Implicit Types (m : M A) (Q : A -> World -> Prop)
  (T : Error -> World -> Prop) (N : World -> Prop).

Lemma wp_ret (a : A) Q T N w : Q a w -> wp (mret a) Q T N w.
Proof. exact id. Qed.

Lemma wp_throw (e : Error) Q T N w : T e w -> wp (throw e) Q T N w.
Proof. exact id. Qed.

Lemma wp_try m (handler : Error -> M A) Q T N w :
  wp m Q (fun e w' => wp (handler e) Q T N w') N w ->
  wp (try_catch m handler) Q T N w.
Proof.
  unfold wp, try_catch. destruct (m w) as [[a|e|] w']; auto.
Qed.

Lemma wp_mono m Q Q' T T' N N' w :
  wp m Q T N w ->
  (forall a w', Q a w' -> Q' a w') ->
  (forall e w', T e w' -> T' e w') ->
  (forall w', N w' -> N' w') ->
  wp m Q' T' N' w.
Proof.
  unfold wp. destruct (m w) as [[a|e|] w']; auto.
Qed.

Lemma wp_done m Q w :
  wp m Q (fun _ _ => False) (fun _ => False) w ->
  exists a w', m w = (Done a, w') /\ Q a w'.
Proof.
  unfold wp. destruct (m w) as [[a|e|] w']; try tauto. eauto.
Qed.

Lemma wp_final m (P : World -> Prop) w :
  wp m (fun _ => P) (fun _ => P) P w -> P (m w).2.
Proof.
  unfold wp. destruct (m w) as [[a|e|] w']; auto.
Qed.
End WP.

Lemma wp_bind {A B : Type} (m : M A) (f : A -> M B) Q T N w :
  wp m (fun a w' => wp (f a) Q T N w') T N w ->
  wp (m ≫= f) Q T N w.
Proof.
  unfold wp, mbind, M_bind. destruct (m w) as [[a|e|] w']; auto.
Qed.

Lemma wp_get Q T N w : Q w w -> wp get Q T N w.
Proof. exact id. Qed.

Lemma wp_getSTATE Q T N w : Q (STATE w) w -> wp getSTATE Q T N w.
Proof. exact id. Qed.

Lemma wp_modify f (Q : unit -> World -> Prop) T N w :
  Q tt (f w) -> wp (modify f) Q T N w.
Proof. exact id. Qed.

Lemma wp_modSTATE f (Q : unit -> World -> Prop) T N w :
  Q tt (set_STATE (f (STATE w)) w) -> wp (modSTATE f) Q T N w.
Proof. exact id. Qed.

Lemma wp_emit e (Q : unit -> World -> Prop) T N w :
  Q tt (set_trace (trace w ++ [(e, observe w)]) w) -> wp (emit e) Q T N w.
Proof. exact id. Qed.

Lemma wp_suspend (Q : Response -> World -> Prop) T N w :
  (inbox w = [] -> N w) ->
  (forall r rest, inbox w = r :: rest -> Q r (resume r rest w)) ->
  wp suspend Q T N w.
Proof.
  intros HN HQ. unfold wp, suspend.
  destruct (inbox w) as [|r rest]; [apply HN | apply (HQ r rest)]; reflexivity.
Qed.

Lemma wp_await (Q : Response -> World -> Prop) T N w :
  (inbox w = [] -> N w) ->
  (forall r rest, inbox w = r :: rest ->
     match r_error r with
     | Some e => T e (resume r rest w)
     | None => Q r (resume r rest w)
     end) ->
  wp await Q T N w.
Proof.
  intros HN HQ. unfold await. apply wp_bind, wp_suspend; [exact HN|].
  intros r rest Hr. specialize (HQ r rest Hr).
  destruct (r_error r); [apply wp_throw | apply wp_ret]; exact HQ.
Qed.

Lemma wp_spawn (m : M unit) (Q : unit -> World -> Prop) T N w :
  wp m (fun _ w' => Q tt w')
       (fun e w' =>
          Q tt (set_trace (trace w' ++ [(EvUnhandledRejection e, observe w')]) w'))
       (fun w' => Q tt w') w ->
  wp (spawn m) Q T N w.
Proof.
  unfold wp, spawn. destruct (m w) as [[a|e|] w']; auto.
Qed.

(** Setters are unfolded and projections of explicit worlds computed, which
    keeps the world of a symbolic run a flat record. *)
Ltac wsimpl :=
  cbv delta [set_STATE set_detector set_camera set_rafId set_window_cam
       set_location_search set_readyState set_pendingFrame set_nextFrameId
       set_alive set_nextHandle set_inbox set_trace
       set_model set_backend set_flags set_modelConfig set_STATE_camera
       set_isModelChanged set_isFlagChanged set_isBackendChanged
       set_isTargetFPSChanged set_isSizeOptionChanged observe resume called
       allocated] in *;
  cbn [STATE detector camera rafId window_cam location_search readyState
       pendingFrame nextFrameId alive nextHandle inbox trace
       model backend flags modelConfig STATE_camera isModelChanged isFlagChanged
       isBackendChanged isTargetFPSChanged isSizeOptionChanged
       snap_gate snap_detector snap_alive fst snd orb andb negb] in *.

Ltac wp_step :=
  lazymatch goal with
  | |- wp (mbind _ constructDetector) _ _ _ _ => fail
  | |- wp (mbind _ _) _ _ _ _ => apply wp_bind
  | |- wp (mret _) _ _ _ _ => apply wp_ret
  | |- wp (throw _) _ _ _ _ => apply wp_throw
  | |- wp get _ _ _ _ => apply wp_get
  | |- wp getSTATE _ _ _ _ => apply wp_getSTATE
  | |- wp (modify _) _ _ _ _ => apply wp_modify
  | |- wp (modSTATE _) _ _ _ _ => apply wp_modSTATE
  | |- wp (emit _) _ _ _ _ => apply wp_emit
  | |- wp (alert _) _ _ _ _ => apply wp_emit
  | |- wp (try_catch _ _) _ _ _ _ => apply wp_try
  | |- wp (spawn _) _ _ _ _ => apply wp_spawn
  end.

Ltac wp_go := repeat (wp_step; wsimpl).

(** Replace a world by the record of its fields. *)
Ltac flat w := destruct w as [? ? ? ? ? ? ? ? ? ? ? ? ?]; wsimpl.

Lemma new_calls_app w w' l : calls w' = calls w ++ l -> new_calls w w' = l.
Proof.
  unfold new_calls, calls. intros ->.
  rewrite <- (length_fmap fst (trace w)). apply drop_app_length.
Qed.

Lemma new_instants_app w w' l : trace w' = trace w ++ l -> new_instants w w' = l.
Proof.
  unfold new_instants. intros ->. apply drop_app_length.
Qed.

(** ** The factory call of [createDetector] *)

Ltac calls_simpl :=
  unfold new_calls, new_instants, calls in *; wsimpl;
  rewrite ?fmap_app, ?fmap_cons, ?fmap_nil, <- ?app_assoc; cbn [fst snd app].

Lemma posedetection_createDetector_calls m opts w :
  calls (posedetection_createDetector m opts w).2
  = calls w ++ [EvCreateDetector m opts].
Proof.
  apply (wp_final _ (fun w' => calls w' = calls w ++ [EvCreateDetector m opts])).
  flat w. unfold posedetection_createDetector. wp_go.
  apply wp_await; wsimpl; [intros _; calls_simpl; reflexivity|].
  intros r rest' _. destruct (r_error r); wp_go; calls_simpl; reflexivity.
Qed.

Lemma posedetection_createDetector_resolves m opts w r rest :
  inbox w = r :: rest -> r_error r = None ->
  (posedetection_createDetector m opts w).1 = Done (nextHandle w).
Proof.
  intros Hi He. unfold posedetection_createDetector, await, suspend, emit, modify,
    get, mbind, M_bind, mret, M_ret, throw.
  flat w. subst. rewrite He. reflexivity.
Qed.

Lemma created_calls (m : SupportedModels) (opts : gmap string JSVal) w :
  calls ((h ← posedetection_createDetector m opts; mret (Some h)) w).2
  = calls w ++ [EvCreateDetector m opts].
Proof.
  rewrite <- (posedetection_createDetector_calls m opts w).
  unfold mbind, M_bind, mret, M_ret.
  destruct (posedetection_createDetector m opts w) as [[h|e|] w']; reflexivity.
Qed.

Lemma created_resolves (m : SupportedModels) (opts : gmap string JSVal) w r rest :
  inbox w = r :: rest -> r_error r = None ->
  ((h ← posedetection_createDetector m opts; mret (Some h)) w).1
  = Done (Some (nextHandle w)).
Proof.
  intros Hi He.
  pose proof (posedetection_createDetector_resolves m opts w r rest Hi He) as H.
  revert H. unfold mbind, M_bind, mret, M_ret.
  destruct (posedetection_createDetector m opts w) as [[h|e|] w'];
    simpl; intros [=]; subst; reflexivity.
Qed.

Lemma prop_lookup (o : gmap string JSVal) k v : o !! k = Some v -> prop o k = v.
Proof. unfold prop. intros ->. reflexivity. Qed.

(** C8: with MoveNet selected, the factory is called with [modelType]
    SINGLEPOSE_LIGHTNING for type "lightning" and SINGLEPOSE_THUNDER for type
    "thunder", and the options hold a [modelUrl], equal to the configured
    custom model, exactly when that string is not empty; with the empty
    string the options are [{modelType}] alone. *)
Theorem createDetector_MoveNet_options (w : World) (t u : string) :
  model (STATE w) = MoveNet ->
  modelConfig (STATE w) !! "type" = Some (JStr t) ->
  modelConfig (STATE w) !! "customModel" = Some (JStr u) ->
  exists mt opts,
    new_calls w (createDetector w).2 = [EvCreateDetector MoveNet opts]
    /\ opts !! "modelType" = Some mt
    /\ (t = "lightning" -> mt = JModelType SINGLEPOSE_LIGHTNING)
    /\ (t = "thunder" -> mt = JModelType SINGLEPOSE_THUNDER)
    /\ (opts !! "modelUrl" = Some (JStr u) <-> u <> "")
    /\ (u = "" -> opts = {[ "modelType" := mt ]})
    /\ (u <> "" -> opts = {[ "modelType" := mt; "modelUrl" := JStr u ]}).
Proof.
  intros Hm Ht Hu.
  unfold createDetector, getSTATE. unfold mbind at 1, M_bind at 1. cbv beta iota.
  rewrite Hm. unfold createDetector_MoveNet.
  rewrite Hm, (prop_lookup _ _ _ Ht), (prop_lookup _ _ _ Hu).
  cbn [strict_ne_str loose_eq_word].
  set (mt := if String.eqb t "lightning" then JModelType SINGLEPOSE_LIGHTNING
             else if String.eqb t "thunder" then JModelType SINGLEPOSE_THUNDER
             else if String.eqb t "multipose" then JModelType MULTIPOSE
             else JUndefined).
  exists mt.
  destruct (String.eqb_spec u "") as [->|Hne]; cbn [negb].
  - exists {[ "modelType" := mt ]}.
    split; [apply new_calls_app, created_calls|].
    split; [apply lookup_singleton_eq|].
    split; [intros ->; reflexivity|].
    split; [intros ->; reflexivity|].
    split; [|tauto].
    split; [|tauto]. rewrite lookup_singleton_ne by discriminate. discriminate.
  - exists {[ "modelType" := mt; "modelUrl" := JStr u ]}.
    split; [apply new_calls_app, created_calls|].
    split; [apply lookup_insert_eq|].
    split; [intros ->; reflexivity|].
    split; [intros ->; reflexivity|].
    split; [|tauto].
    split; [auto|]. intros _.
    rewrite lookup_insert_ne by discriminate. apply lookup_singleton_eq.
Qed.

Lemma createDetector_MoveNet_options_witness :
  exists mt opts,
    new_calls (boot (set_modelConfig {[ "type" := JStr "thunder";
                                        "customModel" := JStr "https://x/model.json" ]}
                       (set_model MoveNet emptyState)) ∅ [])
      (createDetector
         (boot (set_modelConfig {[ "type" := JStr "thunder";
                                   "customModel" := JStr "https://x/model.json" ]}
                  (set_model MoveNet emptyState)) ∅ [])).2
    = [EvCreateDetector MoveNet opts]
    /\ opts !! "modelType" = Some mt
    /\ ("thunder" = "lightning" -> mt = JModelType SINGLEPOSE_LIGHTNING)
    /\ ("thunder" = "thunder" -> mt = JModelType SINGLEPOSE_THUNDER)
    /\ (opts !! "modelUrl" = Some (JStr "https://x/model.json")
        <-> "https://x/model.json" <> "")
    /\ ("https://x/model.json" = "" -> opts = {[ "modelType" := mt ]})
    /\ ("https://x/model.json" <> "" ->
        opts = {[ "modelType" := mt; "modelUrl" := JStr "https://x/model.json" ]}).
Proof.
  apply (createDetector_MoveNet_options _ "thunder" "https://x/model.json");
    vm_compute; reflexivity.
Defined.

(** C10: with BlazePose selected and a runtime prefix that is neither
    "mediapipe" nor "tfjs", [createDetector] runs on into the MoveNet case: the
    factory is called with the BlazePose model and MoveNet's options, whose
    [modelType] is computed from [modelConfig.type] and is [undefined] when
    that is none of "lightning", "thunder" and "multipose"; once the factory
    resolves a detector is returned. *)
Theorem createDetector_BlazePose_fallthrough (w : World) :
  model (STATE w) = BlazePose ->
  split_dash_0 (backend (STATE w)) <> "mediapipe" ->
  split_dash_0 (backend (STATE w)) <> "tfjs" ->
  exists mt opts,
    new_calls w (createDetector w).2 = [EvCreateDetector BlazePose opts]
    /\ opts = (if strict_ne_str (prop (modelConfig (STATE w)) "customModel") ""
               then {[ "modelType" := mt;
                       "modelUrl" := prop (modelConfig (STATE w)) "customModel" ]}
               else {[ "modelType" := mt ]})
    /\ opts !! "modelType" = Some mt
    /\ opts !! "runtime" = None
    /\ (prop (modelConfig (STATE w)) "type" = JStr "lightning" ->
        mt = JModelType SINGLEPOSE_LIGHTNING)
    /\ (prop (modelConfig (STATE w)) "type" = JStr "thunder" ->
        mt = JModelType SINGLEPOSE_THUNDER)
    /\ (prop (modelConfig (STATE w)) "type" = JStr "multipose" ->
        mt = JModelType MULTIPOSE)
    /\ (prop (modelConfig (STATE w)) "type" <> JStr "lightning" ->
        prop (modelConfig (STATE w)) "type" <> JStr "thunder" ->
        prop (modelConfig (STATE w)) "type" <> JStr "multipose" ->
        mt = JUndefined)
    /\ (forall r rest, inbox w = r :: rest -> r_error r = None ->
        (createDetector w).1 = Done (Some (nextHandle w))).
Proof.
  intros Hm Hmp Htf.
  assert (Heq : createDetector w = createDetector_MoveNet (STATE w) w).
  { unfold createDetector, getSTATE. unfold mbind at 1, M_bind at 1.
    cbv beta iota. rewrite Hm.
    apply String.eqb_neq in Hmp, Htf. rewrite Hmp, Htf. reflexivity. }
  rewrite Heq. clear Heq.
  unfold createDetector_MoveNet. rewrite Hm.
  set (ty := prop (modelConfig (STATE w)) "type").
  set (cu := prop (modelConfig (STATE w)) "customModel").
  set (mt := if loose_eq_word ty "lightning" then JModelType SINGLEPOSE_LIGHTNING
             else if loose_eq_word ty "thunder" then JModelType SINGLEPOSE_THUNDER
             else if loose_eq_word ty "multipose" then JModelType MULTIPOSE
             else JUndefined).
  exists mt.
  assert (Hty :
    (ty = JStr "lightning" -> mt = JModelType SINGLEPOSE_LIGHTNING)
    /\ (ty = JStr "thunder" -> mt = JModelType SINGLEPOSE_THUNDER)
    /\ (ty = JStr "multipose" -> mt = JModelType MULTIPOSE)
    /\ (ty <> JStr "lightning" -> ty <> JStr "thunder" ->
        ty <> JStr "multipose" -> mt = JUndefined)).
  { subst mt. repeat split.
    - intros ->. reflexivity.
    - intros ->. reflexivity.
    - intros ->. reflexivity.
    - intros H1 H2 H3. destruct ty as [| | |s| |]; try reflexivity.
      cbn [loose_eq_word].
      destruct (String.eqb_spec s "lightning") as [->|_]; [congruence|].
      destruct (String.eqb_spec s "thunder") as [->|_]; [congruence|].
      destruct (String.eqb_spec s "multipose") as [->|_]; [congruence|].
      reflexivity. }
  destruct (strict_ne_str cu "").
  - exists {[ "modelType" := mt; "modelUrl" := cu ]}.
    split; [apply new_calls_app, created_calls|].
    split; [reflexivity|].
    split; [apply lookup_insert_eq|].
    split; [rewrite lookup_insert_ne by discriminate;
            apply lookup_singleton_ne; discriminate|].
    repeat split; try apply Hty. apply created_resolves.
  - exists {[ "modelType" := mt ]}.
    split; [apply new_calls_app, created_calls|].
    split; [reflexivity|].
    split; [apply lookup_singleton_eq|].
    split; [apply lookup_singleton_ne; discriminate|].
    repeat split; try apply Hty. apply created_resolves.
Qed.

Lemma createDetector_BlazePose_fallthrough_witness :
  exists opts,
    new_calls blazepose_wasm (createDetector blazepose_wasm).2
    = [EvCreateDetector BlazePose opts]
    /\ opts !! "modelType" = Some JUndefined
    /\ (createDetector blazepose_wasm).1 = Done (Some 0).
Proof.
  destruct (createDetector_BlazePose_fallthrough blazepose_wasm)
    as (mt & opts & Hc & _ & Hmt & _ & _ & _ & _ & Hu & Hr).
  - reflexivity.
  - vm_compute. discriminate.
  - vm_compute. discriminate.
  - exists opts. split; [exact Hc|]. split.
    + rewrite Hmt, Hu; [reflexivity | | |]; vm_compute; discriminate.
    + apply (Hr (resolved [] None) []); reflexivity.
Defined.

(** ** The inference step *)

Lemma estimate_options_eq w h c :
  detector w = Some h -> camera w = Some c ->
  estimate_options w (estimate w).2 = [estimateConfig (STATE w)].
Proof.
  intros Hd Hc. unfold estimate_options.
  enough (exists tail, calls (estimate w).2
            = calls w ++ EvEstimatePoses h c (estimateConfig (STATE w)) :: tail
          /\ omap options_of tail = []) as (tail & Hcalls & Htail).
  { rewrite (new_calls_app _ _ _ Hcalls). cbn. rewrite Htail. reflexivity. }
  apply (wp_final _ (fun w' => exists tail, calls w' = calls w ++ _ :: tail /\ _ = [])).
  flat w. subst. unfold estimate, the_camera, detector_estimatePoses, detector_dispose.
  wp_go.
  apply wp_await; wsimpl.
  - intros _. exists []. split; [calls_simpl|]; reflexivity.
  - intros r rest _. destruct (r_error r).
    + wp_go. exists [EvDispose h; EvAlert e]. split; [calls_simpl|]; reflexivity.
    + wp_go. exists []. split; [calls_simpl|]; reflexivity.
Qed.

(** C7, as the code has it: whenever the detector is invoked, the options
    passed to [estimatePoses] carry [maxPoses] as the current configuration
    has it, and [flipHorizontal] set to [false] whatever the configuration
    holds. *)
Theorem estimate_options_maxPoses_and_fixed_flip (w : World) (h : Handle) (c : Camera) :
  detector w = Some h -> camera w = Some c ->
  exists opts,
    estimate_options w (estimate w).2 = [opts]
    /\ opts !! "maxPoses" = Some (prop (modelConfig (STATE w)) "maxPoses")
    /\ opts !! "flipHorizontal" = Some (JBool false)
    /\ dom opts = {[ "maxPoses"; "flipHorizontal" ]}.
Proof.
  intros Hd Hc. exists (estimateConfig (STATE w)).
  split; [apply (estimate_options_eq w h c Hd Hc)|].
  unfold estimateConfig. split; [apply lookup_insert_eq|].
  split.
  - rewrite lookup_insert_ne by discriminate. apply lookup_singleton_eq.
  - rewrite dom_insert_L, dom_singleton_L. reflexivity.
Qed.

Lemma estimate_options_maxPoses_and_fixed_flip_witness :
  exists opts,
    estimate_options flipped (estimate flipped).2 = [opts]
    /\ opts !! "maxPoses" = Some (prop (modelConfig (STATE flipped)) "maxPoses")
    /\ opts !! "flipHorizontal" = Some (JBool false)
    /\ dom opts = {[ "maxPoses"; "flipHorizontal" ]}.
Proof.
  apply (estimate_options_maxPoses_and_fixed_flip flipped 0 sample_camera);
    reflexivity.
Defined.

(** C7 as stated fails: a configuration holding [flipHorizontal: true] still
    has the detector invoked with [flipHorizontal: false]. *)
Lemma flip_not_from_configuration : ~ options_from_configuration flipped.
Proof.
  intros H.
  destruct (H (estimateConfig (STATE flipped))) as [_ Hflip].
  - rewrite (estimate_options_eq flipped 0 sample_camera) by reflexivity.
    apply list_elem_of_here.
  - vm_compute in Hflip. discriminate.
Qed.

(** With nothing to reconcile and the video ready, a tick is the inference,
    the drawing and the request for the next frame. *)
Lemma renderPrediction_quiet w c :
  quiet (STATE w) = true -> camera w = Some c -> 2 <= readyState w ->
  renderPrediction w = ((poses ← estimate; draw poses);; scheduleNext) w.
Proof.
  intros Hq Hc Hr. flat w. destruct STATE0. unfold quiet in Hq. wsimpl.
  apply negb_true_iff in Hq.
  repeat (apply orb_false_iff in Hq; destruct Hq as [Hq ?]). subst.
  apply Nat.ltb_ge in Hr.
  unfold renderPrediction, checkGuiUpdate, reconcileCamera, reconcileDetector,
    renderUnlessReplacing, renderResult, awaitVideoReady, the_camera.
  unfold mbind, M_bind, mret, M_ret, get, getSTATE. wsimpl. rewrite Hr.
  reflexivity.
Qed.

(** C5: when [estimatePoses] throws, the inference step disposes the detector,
    sets the reference to null, alerts the user and yields no poses; the rest
    of the tick draws the frame and the indicators without an overlay and
    requests the next frame. *)
Theorem estimate_failure_degrades (w : World) (h : Handle) (c : Camera)
    (r : Response) (rest : list Response) (e : Error) :
  detector w = Some h -> camera w = Some c ->
  inbox w = r :: rest -> r_error r = Some e ->
  exists w1 w',
    estimate w = (Done None, w1)
    /\ new_calls w w1
       = [EvEstimatePoses h c (estimateConfig (STATE w)); EvDispose h; EvAlert e]
    /\ detector w1 = None
    /\ alive w1 = alive w ∖ {[h]}
    /\ (draw None;; scheduleNext) w1 = (Done tt, w')
    /\ new_calls w1 w'
       = [EvDrawCtx; EvDrawIndicators; EvRequestAnimationFrame (nextFrameId w)]
    /\ detector w' = None
    /\ pendingFrame w' = Some (nextFrameId w)
    /\ rafId w' = Some (nextFrameId w)
    /\ (quiet (STATE w) = true -> 2 <= readyState w ->
        renderPrediction w = (Done tt, w')).
Proof.
  intros Hd Hc Hi He.
  enough (exists w1 w',
    estimate w = (Done None, w1)
    /\ new_calls w w1
       = [EvEstimatePoses h c (estimateConfig (STATE w)); EvDispose h; EvAlert e]
    /\ detector w1 = None
    /\ alive w1 = alive w ∖ {[h]}
    /\ (draw None;; scheduleNext) w1 = (Done tt, w')
    /\ new_calls w1 w'
       = [EvDrawCtx; EvDrawIndicators; EvRequestAnimationFrame (nextFrameId w)]
    /\ detector w' = None
    /\ pendingFrame w' = Some (nextFrameId w)
    /\ rafId w' = Some (nextFrameId w)) as (w1 & w' & H1 & H2 & H3 & H4 & H5 & H6).
  { exists w1, w'. repeat (split; [assumption|]).
    split; [apply H6|]. split; [apply H6|]. split; [apply H6|]. split; [apply H6|].
    intros Hq Hr. rewrite (renderPrediction_quiet w c Hq Hc Hr).
    unfold mbind, M_bind in *. rewrite H1. exact H5. }
  destruct (wp_done estimate
    (fun a w1 => a = None
       /\ new_calls w w1
          = [EvEstimatePoses h c (estimateConfig (STATE w)); EvDispose h; EvAlert e]
       /\ detector w1 = None
       /\ alive w1 = alive w ∖ {[h]}
       /\ exists u w', (draw None;; scheduleNext) w1 = (Done u, w')
          /\ new_calls w1 w'
             = [EvDrawCtx; EvDrawIndicators; EvRequestAnimationFrame (nextFrameId w)]
          /\ detector w' = None
          /\ pendingFrame w' = Some (nextFrameId w)
          /\ rafId w' = Some (nextFrameId w)) w)
    as (a & w1 & Hrun & -> & Hc1 & Hd1 & Ha1 & [] & w' & Hrest).
  2: { exists w1, w'. tauto. }
  flat w. subst.
  unfold estimate, the_camera, detector_estimatePoses, detector_dispose.
  wp_go. apply wp_await; wsimpl; [discriminate|].
  intros r' rest' [= <- <-]. rewrite He. wp_go.
  split; [reflexivity|]. split; [apply new_calls_app; calls_simpl; reflexivity|].
  split; [reflexivity|]. split; [reflexivity|].
  apply wp_done.
  unfold draw, scheduleNext, the_camera, requestAnimationFrame, overlay_wanted.
  wp_go. destruct window_cam0; wp_go;
    (split; [apply new_calls_app; calls_simpl; reflexivity|]);
    repeat split; reflexivity.
Qed.

Lemma estimate_failure_degrades_witness :
  exists w',
    renderPrediction (running (movenet_state "lightning" "") [rejected "bad output"])
    = (Done tt, w')
    /\ detector w' = None
    /\ pendingFrame w' = Some 0.
Proof.
  destruct (estimate_failure_degrades
              (running (movenet_state "lightning" "") [rejected "bad output"])
              0 sample_camera (rejected "bad output") [] "bad output")
    as (w1 & w' & _ & _ & _ & _ & _ & _ & Hd & Hp & _ & Htick);
    try reflexivity.
  exists w'. split; [apply Htick; [reflexivity | cbn; lia] |]. split; assumption.
Defined.

(** ** Construction of a detector *)

Lemma wp_posedetection_createDetector m opts (Q : Handle -> World -> Prop) T N w :
  (inbox w = [] -> N (called m opts w)) ->
  (forall r rest, inbox w = r :: rest ->
     match r_error r with
     | Some e => T e (resume r rest (called m opts w))
     | None => Q (nextHandle w) (allocated (resume r rest (called m opts w)))
     end) ->
  wp (posedetection_createDetector m opts) Q T N w.
Proof.
  intros HN HQ. unfold posedetection_createDetector. wp_go.
  apply wp_await; [exact HN|].
  intros r rest Hi. specialize (HQ r rest Hi). destruct (r_error r); [exact HQ|].
  wp_go. exact HQ.
Qed.

Lemma wp_createDetector (Q : option Handle -> World -> Prop) T N w :
  (forall name, model (STATE w) = OtherModel name -> Q None w) ->
  ((forall name, model (STATE w) <> OtherModel name) ->
   forall opts,
     wp (posedetection_createDetector (model (STATE w)) opts)
        (fun h w' => Q (Some h) w') T N w) ->
  wp createDetector Q T N w.
Proof.
  intros Hother Hcall.
  assert (Hsite : forall opts,
    (forall name, model (STATE w) <> OtherModel name) ->
    wp (h ← posedetection_createDetector (model (STATE w)) opts; mret (Some h))
       Q T N w).
  { intros opts Hne. apply wp_bind.
    eapply wp_mono; [apply (Hcall Hne opts) | | auto | auto].
    intros h w' HQ. apply wp_ret. exact HQ. }
  unfold createDetector. apply wp_bind, wp_getSTATE.
  destruct (model (STATE w)) eqn:Hm.
  - apply Hsite. discriminate.
  - destruct (String.eqb _ _); [apply Hsite; discriminate|].
    destruct (String.eqb _ _); [apply Hsite; discriminate|].
    unfold createDetector_MoveNet. rewrite Hm.
    destruct (strict_ne_str _ _); apply Hsite; discriminate.
  - unfold createDetector_MoveNet. rewrite Hm.
    destruct (strict_ne_str _ _); apply Hsite; discriminate.
  - apply wp_ret. apply (Hother name). reflexivity.
Qed.

(** Drawing without an overlay, then the request for the next frame. *)
Lemma draw_plain_then_schedule w c poses :
  camera w = Some c -> overlay_wanted poses (STATE w) = false ->
  exists w',
    (draw poses;; scheduleNext) w = (Done tt, w')
    /\ calls w' = calls w
         ++ [EvDrawCtx; EvDrawIndicators; EvRequestAnimationFrame (nextFrameId w)]
    /\ detector w' = detector w
    /\ alive w' = alive w
    /\ pendingFrame w' = Some (nextFrameId w)
    /\ rafId w' = Some (nextFrameId w).
Proof.
  intros Hc Hov.
  destruct (wp_done (draw poses;; scheduleNext)
    (fun _ w' =>
       calls w' = calls w
         ++ [EvDrawCtx; EvDrawIndicators; EvRequestAnimationFrame (nextFrameId w)]
       /\ detector w' = detector w
       /\ alive w' = alive w
       /\ pendingFrame w' = Some (nextFrameId w)
       /\ rafId w' = Some (nextFrameId w)) w) as ([] & w' & Hrun & H).
  2: { exists w'. tauto. }
  flat w. subst.
  unfold draw, scheduleNext, the_camera, requestAnimationFrame.
  wp_go. destruct window_cam0; wp_go; rewrite Hov; wp_go;
    (split; [calls_simpl; reflexivity|]); repeat split; reflexivity.
Qed.

(** With no detector and the gate clear, rendering is the drawing alone, once
    the video is ready. *)
Lemma render_without_detector w c :
  camera w = Some c -> detector w = None -> isModelChanged (STATE w) = false ->
  2 <= readyState w \/ inbox w <> [] ->
  exists w0,
    (renderUnlessReplacing;; scheduleNext) w = (draw None;; scheduleNext) w0
    /\ camera w0 = Some c /\ detector w0 = None
    /\ trace w0 = trace w /\ nextFrameId w0 = nextFrameId w /\ alive w0 = alive w.
Proof.
  intros Hc Hd Hg Hready. flat w. subst.
  unfold renderUnlessReplacing, renderResult, awaitVideoReady, estimate, the_camera.
  unfold mbind, M_bind, mret, M_ret, get, getSTATE, suspend. wsimpl.
  rewrite Hg. wsimpl.
  destruct (Nat.ltb_spec readyState0 2) as [Hlt|Hge].
  - destruct inbox0 as [|r rest]; [destruct Hready; [lia | congruence]|].
    wsimpl. eexists. split; [reflexivity|]. repeat split; reflexivity.
  - wsimpl. eexists. split; [reflexivity|]. repeat split; reflexivity.
Qed.

(** With the capture settings unchanged, the reconciliation is its detector
    axis. *)
Lemma checkGuiUpdate_capture_quiet w :
  isTargetFPSChanged (STATE w) || isSizeOptionChanged (STATE w) = false ->
  checkGuiUpdate w = reconcileDetector w.
Proof.
  intros Hq. unfold checkGuiUpdate, reconcileCamera.
  unfold mbind at 1, M_bind at 1. unfold mbind at 1, M_bind at 1, getSTATE at 1.
  cbv beta iota. rewrite Hq. reflexivity.
Qed.

(** C4: in a reconciliation whose construction of the detector fails, the
    step still runs to its end: after the cancellation, the disposal and the
    re-application of backend and flags where due, the factory is called and
    rejects; the reference is set to null, the failure is alerted, and the gate
    and the other two flags are cleared.  The rest of the tick draws the frame
    and the indicators, overlays nothing, and requests the next frame. *)
Theorem construction_failure_recovers (w : World) (c : Camera)
    (rb rf : Response) (rest : list Response) (e : Error) :
  isModelChanged (STATE w) || isFlagChanged (STATE w) || isBackendChanged (STATE w)
  = true ->
  camera w = Some c ->
  inbox w = (if isFlagChanged (STATE w) || isBackendChanged (STATE w)
             then [rb] else []) ++ rf :: rest ->
  r_error rb = None -> r_error rf = Some e ->
  (forall name,
     model (applyPanels (set_isModelChanged true (STATE w))
              (if isFlagChanged (STATE w) || isBackendChanged (STATE w)
               then r_panel rb else [])) <> OtherModel name) ->
  2 <= r_readyState rf \/ rest <> [] ->
  exists opts w1 w',
    reconcileDetector w = (Done tt, w1)
    /\ new_calls w w1
       = [EvCancelAnimationFrame (rafId w)]
         ++ match detector w with Some h => [EvDispose h] | None => [] end
         ++ (if isFlagChanged (STATE w) || isBackendChanged (STATE w)
             then [EvSetBackendAndEnvFlags (flags (STATE w)) (backend (STATE w))]
             else [])
         ++ [EvCreateDetector
               (model (applyPanels (set_isModelChanged true (STATE w))
                         (if isFlagChanged (STATE w) || isBackendChanged (STATE w)
                          then r_panel rb else [])))
               opts;
             EvAlert e]
    /\ detector w1 = None
    /\ alive w1 = match detector w with Some h => alive w ∖ {[h]} | None => alive w end
    /\ isModelChanged (STATE w1) = false
    /\ isFlagChanged (STATE w1) = false
    /\ isBackendChanged (STATE w1) = false
    /\ (renderUnlessReplacing;; scheduleNext) w1 = (Done tt, w')
    /\ new_calls w1 w'
       = [EvDrawCtx; EvDrawIndicators; EvRequestAnimationFrame (nextFrameId w)]
    /\ detector w' = None
    /\ pendingFrame w' = Some (nextFrameId w)
    /\ (isTargetFPSChanged (STATE w) || isSizeOptionChanged (STATE w) = false ->
        renderPrediction w = (Done tt, w')).
Proof.
  intros Htrig Hc Hi Hrb Hrf Hm Hready.
  destruct (wp_done reconcileDetector
    (fun _ w1 => (exists opts, new_calls w w1
       = [EvCancelAnimationFrame (rafId w)]
         ++ match detector w with Some h => [EvDispose h] | None => [] end
         ++ (if isFlagChanged (STATE w) || isBackendChanged (STATE w)
             then [EvSetBackendAndEnvFlags (flags (STATE w)) (backend (STATE w))]
             else [])
         ++ [EvCreateDetector
               (model (applyPanels (set_isModelChanged true (STATE w))
                         (if isFlagChanged (STATE w) || isBackendChanged (STATE w)
                          then r_panel rb else [])))
               opts;
             EvAlert e])
    /\ detector w1 = None
    /\ alive w1 = match detector w with Some h => alive w ∖ {[h]} | None => alive w end
    /\ isModelChanged (STATE w1) = false
    /\ isFlagChanged (STATE w1) = false
    /\ isBackendChanged (STATE w1) = false
    /\ camera w1 = Some c
    /\ nextFrameId w1 = nextFrameId w
    /\ readyState w1 = r_readyState rf
    /\ inbox w1 = rest) w)
    as ([] & w1 & Hrun & [opts H1] & H2 & H3 & H4 & H5 & H6 & H7 & H8 & H9 & H10).
  - flat w. subst.
    unfold reconcileDetector, cancelAnimationFrame, detector_dispose,
      setBackendAndEnvFlags.
    wp_go. rewrite Htrig. wp_go.
    destruct detector0 as [h|];
      destruct (isFlagChanged STATE0 || isBackendChanged STATE0) eqn:Hre;
      wp_go; rewrite Hre; wp_go.
    all: try (apply wp_await; wsimpl; [discriminate|];
              intros r rest' [= <- <-]; rewrite Hrb; wp_go).
    all: unfold constructDetector, clearChangeFlags.
    all: apply wp_bind, wp_try, wp_bind, wp_createDetector; wsimpl;
      [intros name Hn; destruct (Hm name Hn)|].
    all: intros _ opts; apply wp_posedetection_createDetector; wsimpl; [discriminate|].
    all: intros r rest' [= <- <-]; rewrite Hrf; wp_go.
    all: split; [exists opts; apply new_calls_app; calls_simpl; reflexivity|].
    all: repeat split; reflexivity.
  - destruct (render_without_detector w1 c H7 H2 H4)
      as (w0 & Heq & Hc0 & Hd0 & Ht0 & Hn0 & Ha0).
    { rewrite H9, H10. exact Hready. }
    destruct (draw_plain_then_schedule w0 c None Hc0 eq_refl)
      as (w' & Hdraw & Hcalls & Hd' & _ & Hp' & _).
    assert (Hrest : (renderUnlessReplacing;; scheduleNext) w1 = (Done tt, w'))
      by (rewrite Heq; exact Hdraw).
    exists opts, w1, w'. repeat (split; [assumption|]).
    split; [apply new_calls_app; rewrite Hcalls; unfold calls; rewrite Ht0; congruence|].
    split; [congruence|]. split; [congruence|].
    intros Hq. unfold renderPrediction.
    unfold mbind at 1, M_bind at 1.
    rewrite (checkGuiUpdate_capture_quiet w Hq), Hrun. exact Hrest.
Qed.

Lemma construction_failure_recovers_witness :
  exists opts w1 w',
    renderPrediction (running (set_isModelChanged true
                                 (movenet_state "thunder" "https://x/model.json"))
                        [rejected "404"])
    = (Done tt, w')
    /\ reconcileDetector (running (set_isModelChanged true
                                     (movenet_state "thunder" "https://x/model.json"))
                            [rejected "404"])
       = (Done tt, w1)
    /\ new_calls (running (set_isModelChanged true
                             (movenet_state "thunder" "https://x/model.json"))
                    [rejected "404"]) w1
       = [EvCancelAnimationFrame None; EvDispose 0;
          EvCreateDetector MoveNet opts; EvAlert "404"]
    /\ detector w1 = None
    /\ isModelChanged (STATE w1) = false
    /\ new_calls w1 w' = [EvDrawCtx; EvDrawIndicators; EvRequestAnimationFrame 0].
Proof.
  destruct (construction_failure_recovers
              (running (set_isModelChanged true
                          (movenet_state "thunder" "https://x/model.json"))
                 [rejected "404"])
              sample_camera (resolved [] None) (rejected "404") [] "404")
    as (opts & w1 & w' & H1 & H2 & H3 & _ & H5 & _ & _ & _ & H9 & _ & _ & H12).
  - reflexivity.
  - reflexivity.
  - reflexivity.
  - reflexivity.
  - reflexivity.
  - intros name. vm_compute. discriminate.
  - left. cbn. lia.
  - exists opts, w1, w'. split; [apply H12; reflexivity|].
    split; [exact H1|]. split; [exact H2|]. split; [exact H3|].
    split; [exact H5 | exact H9].
Defined.

(** ** The render step *)

Lemma renderResult_split w :
  renderResult w
  = match (awaitVideoReady;; estimate) w with
    | (Done poses, w1) => draw poses w1
    | (Thrown e, w1) => (Thrown e, w1)
    | (Pending, w1) => (Pending, w1)
    end.
Proof.
  unfold renderResult, mbind, M_bind.
  destruct (awaitVideoReady w) as [[[]|e|] w0]; reflexivity.
Qed.

(** The inference settles, whatever its outcome, when the event loop answers
    its suspensions; the camera is not touched. *)
Lemma inference_settles w c :
  camera w = Some c -> 2 <= length (inbox w) ->
  exists poses w1,
    (awaitVideoReady;; estimate) w = (Done poses, w1) /\ camera w1 = Some c.
Proof.
  intros Hc Hlen.
  destruct (wp_done (awaitVideoReady;; estimate) (fun _ w1 => camera w1 = Some c) w)
    as (poses & w1 & Hrun & H); [|eauto].
  flat w. subst. destruct inbox0 as [|r0 [|r1 rest]]; cbn in Hlen; try lia.
  unfold awaitVideoReady, estimate, the_camera, detector_estimatePoses,
    detector_dispose.
  wp_go. destruct (Nat.ltb readyState0 2).
  - wp_go. apply wp_suspend; wsimpl; [discriminate|].
    intros r rest' [= <- <-]. wp_go. destruct detector0 as [h|]; wp_go; [|reflexivity].
    apply wp_await; wsimpl; [discriminate|].
    intros r rest' [= <- <-]. destruct (r_error r1); wp_go; reflexivity.
  - wp_go. destruct detector0 as [h|]; wp_go; [|reflexivity].
    apply wp_await; wsimpl; [discriminate|].
    intros r rest' [= <- <-]. destruct (r_error r0); wp_go; reflexivity.
Qed.

Lemma draw_calls w c poses :
  camera w = Some c ->
  exists w',
    draw poses w = (Done tt, w')
    /\ calls w' = calls w ++ [EvDrawCtx]
         ++ (if overlay_wanted poses (STATE w)
             then [EvDrawResults (default [] poses); EvDrawIdeal] else [])
         ++ [EvDrawIndicators].
Proof.
  intros Hc.
  destruct (wp_done (draw poses)
    (fun _ w' => calls w' = calls w ++ [EvDrawCtx]
         ++ (if overlay_wanted poses (STATE w)
             then [EvDrawResults (default [] poses); EvDrawIdeal] else [])
         ++ [EvDrawIndicators]) w) as ([] & w' & Hrun & H); [|eauto].
  flat w. subst. unfold draw, the_camera. wp_go.
  destruct window_cam0; wp_go; destruct (overlay_wanted poses STATE0); wp_go;
    calls_simpl; reflexivity.
Qed.

Lemma overlay_wanted_spec poses s :
  overlay_wanted poses s = true
  <-> (exists ps, poses = Some ps /\ ps <> []) /\ isModelChanged s = false.
Proof.
  unfold overlay_wanted. destruct poses as [[|p ps]|]; cbn.
  - split; [discriminate|]. intros [(ps & [= <-] & Hne) _]. congruence.
  - rewrite negb_true_iff. split.
    + intros ->. split; [|reflexivity]. exists (p :: ps). split; [reflexivity|discriminate].
    + tauto.
  - split; [discriminate|]. intros [(ps & [=] & _) _].
Qed.

(** C3, as the code has it: a render step always draws the frame and the
    indicators, and it draws the overlay exactly when the result is non-null
    and non-empty and the gate is clear as the step draws, that is once the
    inference has settled. *)
Theorem overlay_decided_at_render (w : World) (c : Camera) :
  camera w = Some c -> 2 <= length (inbox w) ->
  exists poses w1 w',
    (awaitVideoReady;; estimate) w = (Done poses, w1)
    /\ draw poses w1 = (Done tt, w')
    /\ renderResult w = (Done tt, w')
    /\ (exists overlay,
          new_calls w1 w' = [EvDrawCtx] ++ overlay ++ [EvDrawIndicators]
          /\ (overlay = [] \/
              exists ps, poses = Some ps /\ overlay = [EvDrawResults ps; EvDrawIdeal]))
    /\ (existsb is_overlay (new_calls w1 w') = true
        <-> (exists ps, poses = Some ps /\ ps <> [])
            /\ isModelChanged (STATE w1) = false).
Proof.
  intros Hc Hlen.
  destruct (inference_settles w c Hc Hlen) as (poses & w1 & Hinf & Hc1).
  destruct (draw_calls w1 c poses Hc1) as (w' & Hdraw & Hcalls).
  exists poses, w1, w'. split; [exact Hinf|]. split; [exact Hdraw|].
  split; [rewrite renderResult_split, Hinf; exact Hdraw|].
  rewrite (new_calls_app _ _ _ Hcalls), <- overlay_wanted_spec.
  destruct (overlay_wanted poses (STATE w1)) eqn:Hov.
  - split; [|split; reflexivity].
    eexists. split; [reflexivity|]. right.
    apply overlay_wanted_spec in Hov as [(ps & -> & _) _]. eauto.
  - split; [|split; intros [=]].
    exists []. split; [reflexivity|]. left. reflexivity.
Qed.

Lemma overlay_decided_at_render_witness :
  exists poses w1 w',
    (awaitVideoReady;; estimate) (running (movenet_state "lightning" "")
                                    [resolved [] (Some [7]); resolved [] None])
    = (Done poses, w1)
    /\ renderResult (running (movenet_state "lightning" "")
                       [resolved [] (Some [7]); resolved [] None])
       = (Done tt, w')
    /\ (existsb is_overlay (new_calls w1 w') = true
        <-> (exists ps, poses = Some ps /\ ps <> [])
            /\ isModelChanged (STATE w1) = false).
Proof.
  destruct (overlay_decided_at_render
              (running (movenet_state "lightning" "")
                 [resolved [] (Some [7]); resolved [] None]) sample_camera)
    as (poses & w1 & w' & H1 & _ & H3 & _ & H5).
  - reflexivity.
  - cbn. lia.
  - exists poses, w1, w'. tauto.
Defined.

(** C3 as stated fails: the gate is clear when the inference is dispatched,
    the model is changed on the panel while it is in flight, the result is
    not empty, and no overlay is drawn. *)
Lemma overlay_not_decided_at_dispatch :
  ~ overlay_decided_at_dispatch changed_in_flight.
Proof.
  intros H.
  specialize (H (Some [7]) ((awaitVideoReady;; estimate) changed_in_flight).2
                (draw (Some [7])
                   ((awaitVideoReady;; estimate) changed_in_flight).2).2).
  destruct H as [_ H]; [vm_compute; reflexivity | vm_compute; reflexivity |].
  assert (Hno : existsb is_overlay
            (new_calls ((awaitVideoReady;; estimate) changed_in_flight).2
               (draw (Some [7])
                  ((awaitVideoReady;; estimate) changed_in_flight).2).2) = false)
    by (vm_compute; reflexivity).
  rewrite H in Hno; [discriminate|].
  split; [exists [7]; split; [reflexivity|discriminate]|].
  vm_compute. reflexivity.
Qed.

(** ** Replacing the detector *)

Lemma applyPanel_gate s a :
  isModelChanged s = true -> isModelChanged (applyPanel s a) = true.
Proof.
  intros H. destruct a; cbn; try assumption; try reflexivity.
  rewrite H. reflexivity.
Qed.

(** The panel raises the gate and never clears it. *)
Lemma applyPanels_gate acts s :
  isModelChanged s = true -> isModelChanged (applyPanels s acts) = true.
Proof.
  unfold applyPanels. revert s.
  induction acts as [|a acts IH]; intros s H; cbn; [exact H|].
  apply IH, applyPanel_gate, H.
Qed.




(** ** Startup *)

(** C9, as the code has it: when the setup of the capture device throws at
    startup, [app] has no handler for it: no alert is raised, the error
    surfaces only as the unhandled rejection of [app]; nothing further is set
    up, no detector is constructed, no frame is ever requested whatever the
    number of frames that pass, and the setup is not tried again. *)
Theorem capture_failure_stops_startup (st : State) (search : gmap string string)
    (gui cam : Response) (rest : list Response) (e : Error) (frames : nat) :
  is_Some (search !! "model") -> r_error gui = None -> r_error cam = Some e ->
  calls (main frames (boot st search (gui :: cam :: rest))).2
  = [EvSetupDatGui; EvSetupCamera (STATE_camera (applyPanels st (r_panel gui)));
     EvUnhandledRejection e]
  /\ pendingFrame (main frames (boot st search (gui :: cam :: rest))).2 = None
  /\ rafId (main frames (boot st search (gui :: cam :: rest))).2 = None
  /\ detector (main frames (boot st search (gui :: cam :: rest))).2 = None
  /\ camera (main frames (boot st search (gui :: cam :: rest))).2 = None.
Proof.
  intros Hq Hgui Hcam.
  apply (wp_final (main frames)
    (fun w => calls w
       = [EvSetupDatGui; EvSetupCamera (STATE_camera (applyPanels st (r_panel gui)));
          EvUnhandledRejection e]
       /\ pendingFrame w = None /\ rafId w = None
       /\ detector w = None /\ camera w = None)).
  unfold main, boot, app, setupDatGui, Camera_setupCamera. wp_go.
  rewrite bool_decide_eq_true_2 by exact Hq. wsimpl. wp_go.
  apply wp_await; wsimpl; [discriminate|]. intros r rest' [= <- <-]. rewrite Hgui.
  wp_go. apply wp_await; wsimpl; [discriminate|]. intros r rest' [= <- <-].
  rewrite Hcam. wsimpl.
  destruct frames as [|k]; cbn [eventLoop]; wp_go; repeat split; reflexivity.
Qed.

Lemma capture_failure_stops_startup_witness :
  calls (main 3 (boot (movenet_state "lightning" "") query camera_refused)).2
  = [EvSetupDatGui; EvSetupCamera {| targetFPS := 60; sizeOption := "640 X 480" |};
     EvUnhandledRejection "NotAllowedError"]
  /\ pendingFrame (main 3 (boot (movenet_state "lightning" "") query camera_refused)).2
     = None.
Proof.
  destruct (capture_failure_stops_startup (movenet_state "lightning" "") query
              (resolved [] None) (rejected "NotAllowedError") [resolved [] None]
              "NotAllowedError" 3) as (H1 & H2 & _).
  - vm_compute. eauto.
  - reflexivity.
  - reflexivity.
  - split; [exact H1 | exact H2].
Defined.

(** C9 as stated fails: nothing is alerted when the capture device is refused
    at startup. *)
Lemma capture_failure_not_alerted :
  ~ capture_failure_alerted
      (main 3 (boot (movenet_state "lightning" "") query camera_refused)).2.
Proof.
  intros [H _]. vm_compute in H. discriminate.
Qed.

(** ** The Stats Aggregator *)

Section StatsProofs.
Import Stats.

Lemma inferences_app l1 l2 v :
  inferences (l1 ++ l2) v
  = let (o1, v1) := inferences l1 v in
    let (o2, v2) := inferences l2 v1 in
    (o1 ++ o2, v2).
Proof.
  revert v. induction l1 as [|[s e] l1 IH]; intros v; simpl.
  - destruct (inferences l2 v). reflexivity.
  - destruct (endEstimatePosesStats e (beginEstimatePosesStats s v)) as [o v'].
    rewrite IH. destruct (inferences l1 v') as [o1 v1].
    destruct (inferences l2 v1) as [o2 v2]. reflexivity.
Qed.

(** Inside a reporting interval the aggregator only accumulates. *)
Lemma inferences_accumulate pre : forall v,
  Forall (fun se => fills (lastPanelUpdate v) se.2 = false) pre ->
  exists v',
    inferences pre v = (replicate (length pre) (Done None), v')
    /\ inferenceTimeSum v' = foldl add (inferenceTimeSum v) (durations pre)
    /\ numInferences v'
       = Nat.iter (length pre) (fun c => (c + 1)%float) (numInferences v)
    /\ lastPanelUpdate v' = lastPanelUpdate v
    /\ stats v' = stats v.
Proof.
  induction pre as [|[s e] pre IH]; intros v Hin.
  - exists v. repeat split; reflexivity.
  - inversion Hin as [|? ? Hse Hin']; subst. cbn [snd] in Hse.
    cbn [inferences].
    unfold endEstimatePosesStats, beginEstimatePosesStats, recordInference.
    cbn [stats startInferenceTime numInferences inferenceTimeSum lastPanelUpdate].
    unfold fills in Hse. rewrite Hse.
    destruct (IH {| stats := stats v; startInferenceTime := s;
                    numInferences := (numInferences v + 1)%float;
                    inferenceTimeSum := (inferenceTimeSum v + (e - s))%float;
                    lastPanelUpdate := lastPanelUpdate v |})
      as (v' & Hrun & Hs' & Hn' & Hl' & Hst'); [exact Hin'|].
    rewrite Hrun. exists v'.
    cbn [stats startInferenceTime numInferences inferenceTimeSum lastPanelUpdate]
      in Hs', Hn', Hl', Hst'.
    split; [reflexivity|]. split; [exact Hs'|].
    split; [rewrite Hn'; cbn [length]; rewrite Nat.iter_succ_r; reflexivity|].
    split; assumption.
Qed.

(** *** The count is positive when the sum is divided by it *)

Local Open Scope Z_scope.

Lemma digits2_size p : digits2_pos p = Pos.size p.
Proof. induction p as [p IH|p IH|]; cbn; congruence. Qed.

Lemma digits2_log2 p : Zpos (digits2_pos p) = Z.log2 (Zpos p) + 1.
Proof.
  rewrite digits2_size. destruct p as [p|p|]; cbn [Pos.size Z.log2];
    rewrite ?Pos2Z.inj_succ; lia.
Qed.

Lemma digits2_le p q : (p <= q)%positive -> Zpos (digits2_pos p) <= Zpos (digits2_pos q).
Proof.
  intros H. rewrite !digits2_log2.
  assert (Z.log2 (Zpos p) <= Z.log2 (Zpos q)) by (apply Z.log2_le_mono; lia). lia.
Qed.

Lemma digits2_iter_xO m n :
  Zpos (digits2_pos (Pos.iter xO m n)) = Zpos (digits2_pos m) + Zpos n.
Proof.
  induction n as [|n IH] using Pos.peano_ind.
  - cbn. lia.
  - rewrite Pos.iter_succ. cbn [digits2_pos]. rewrite Pos2Z.inj_succ, IH. lia.
Qed.

Lemma shr_1_m mrs : 0 <= shr_m mrs -> shr_m (shr_1 mrs) = Z.shiftr (shr_m mrs) 1.
Proof.
  destruct mrs as [m r s]. cbn [shr_m]. intros Hm.
  rewrite <- Z.div2_spec.
  destruct m as [|[p|p|]|p]; try lia; reflexivity.
Qed.

Lemma iter_shr_1_m p : forall mrs,
  0 <= shr_m mrs ->
  shr_m (iter_pos shr_1 p mrs) = Z.shiftr (shr_m mrs) (Zpos p).
Proof.
  induction p as [p IH|p IH|]; intros mrs Hm; cbn [iter_pos].
  - assert (H1 : 0 <= shr_m (shr_1 mrs))
      by (rewrite shr_1_m by exact Hm; apply Z.shiftr_nonneg, Hm).
    assert (H2 : 0 <= shr_m (iter_pos shr_1 p (shr_1 mrs)))
      by (rewrite IH by exact H1; apply Z.shiftr_nonneg, H1).
    rewrite (IH _ H2), (IH _ H1), (shr_1_m _ Hm), !Z.shiftr_shiftr by lia.
    f_equal. lia.
  - assert (H2 : 0 <= shr_m (iter_pos shr_1 p mrs))
      by (rewrite IH by exact Hm; apply Z.shiftr_nonneg, Hm).
    rewrite (IH _ H2), (IH _ Hm), !Z.shiftr_shiftr by lia.
    f_equal. lia.
  - apply shr_1_m, Hm.
Qed.

(** Rounding to the format keeps a number that is at least 1 positive and at
    least 1. *)
Lemma shr_fexp_at_least_one m e l :
  1 <= Zpos (digits2_pos m) + e ->
  exists m',
    shr_m (shr_fexp prec emax (Zpos m) e l).1 = Zpos m'
    /\ Zpos (digits2_pos m') + (shr_fexp prec emax (Zpos m) e l).2
       = Zpos (digits2_pos m) + e.
Proof.
  intros H. unfold shr_fexp, fexp, SpecFloat.emin, prec, emax. cbn [Zdigits2].
  rewrite Z.max_l by lia.
  replace (Zpos (digits2_pos m) + e - 53 - e) with (Zpos (digits2_pos m) - 53) by lia.
  destruct (Zpos (digits2_pos m) - 53) as [|p|p] eqn:Hn; cbn [shr fst snd].
  - exists m. split; [destruct l as [|[]]; reflexivity | reflexivity].
  - rewrite iter_shr_1_m by (destruct l as [|[]]; cbn; lia).
    replace (shr_m (shr_record_of_loc (Zpos m) l)) with (Zpos m)
      by (destruct l as [|[]]; reflexivity).
    rewrite digits2_log2 in Hn.
    assert (Hq : 0 < Z.shiftr (Zpos m) (Zpos p)).
    { assert (Hnn : 0 <= Z.shiftr (Zpos m) (Zpos p)) by (apply Z.shiftr_nonneg; lia).
      assert (Hne : Z.shiftr (Zpos m) (Zpos p) <> 0).
      { intros H0. apply Z.shiftr_eq_0_iff in H0 as [H0|[_ H0]]; lia. }
      lia. }
    destruct (Z.shiftr (Zpos m) (Zpos p)) as [|q|q] eqn:Hsh; try lia.
    exists q. split; [reflexivity|].
    rewrite (digits2_log2 q), <- Hsh, Z.log2_shiftr, (digits2_log2 m) by lia. lia.
  - exists m. split; [destruct l as [|[]]; reflexivity | reflexivity].
Qed.

Lemma binary_round_aux_at_least_one m e l :
  1 <= Zpos (digits2_pos m) + e ->
  at_least_one (binary_round_aux prec emax false (Zpos m) e l).
Proof.
  intros H. unfold binary_round_aux.
  destruct (shr_fexp_at_least_one m e l H) as (m1 & Hm1 & Hd1).
  destruct (shr_fexp prec emax (Zpos m) e l) as [mrs1 e1]. cbn [fst snd] in Hm1, Hd1.
  rewrite Hm1.
  assert (Hr : exists m2, round_nearest_even (Zpos m1) (loc_of_shr_record mrs1) = Zpos m2
                          /\ (m1 <= m2)%positive).
  { unfold round_nearest_even.
    destruct (loc_of_shr_record mrs1) as [|[]];
      try (exists m1; split; [reflexivity|lia]);
      try (exists (m1 + 1)%positive; split; [reflexivity|lia]).
    destruct (Z.even (Zpos m1));
      [exists m1; split; [reflexivity|lia]
      |exists (m1 + 1)%positive; split; [reflexivity|lia]]. }
  destruct Hr as (m2 & -> & Hle). apply digits2_le in Hle.
  destruct (shr_fexp_at_least_one m2 e1 loc_Exact) as (m3 & Hm3 & Hd3); [lia|].
  destruct (shr_fexp prec emax (Zpos m2) e1 loc_Exact) as [mrs3 e3].
  cbn [fst snd] in Hm3, Hd3. rewrite Hm3.
  destruct (e3 <=? emax - prec); cbn [at_least_one]; [lia | exact I].
Qed.

Lemma binary_round_at_least_one m e :
  1 <= Zpos (digits2_pos m) + e ->
  at_least_one (binary_round prec emax false m e).
Proof.
  intros H. unfold binary_round, shl_align.
  destruct (fexp prec emax (Zpos (digits2_pos m) + e) - e) as [|d|d] eqn:Hd;
    try (apply binary_round_aux_at_least_one; exact H).
  apply binary_round_aux_at_least_one. rewrite digits2_iter_xO. lia.
Qed.

Lemma add_one_at_least_one x :
  at_least_one x -> at_least_one (SF64add x (Prim2SF 1)).
Proof.
  change (Prim2SF 1) with (S754_finite false 4503599627370496 (-52)).
  destruct x as [s|[|]| |[|] m e]; cbn [at_least_one]; try tauto.
  intros H. unfold SF64add, SFadd, cond_Zopp.
  set (ez := Z.min e (-52)).
  assert (Hb : Zpos (digits2_pos (shl_align 4503599627370496 (-52) ez).1) + ez = 1).
  { unfold shl_align. destruct (ez - -52) as [|d|d] eqn:Hd; cbn [fst].
    - assert (ez = -52) as -> by lia. reflexivity.
    - lia.
    - rewrite digits2_iter_xO. cbn [digits2_pos Pos.succ]. lia. }
  change (Zpos (shl_align m e ez).1 + Zpos (shl_align 4503599627370496 (-52) ez).1)
    with (Zpos ((shl_align m e ez).1 + (shl_align 4503599627370496 (-52) ez).1)).
  cbn [binary_normalize]. apply binary_round_at_least_one.
  assert (Zpos (digits2_pos (shl_align 4503599627370496 (-52) ez).1)
          <= Zpos (digits2_pos ((shl_align m e ez).1
                                + (shl_align 4503599627370496 (-52) ez).1)))
    by (apply digits2_le; lia).
  lia.
Qed.

Lemma count_at_least_one n : at_least_one (Prim2SF (count (S n))).
Proof.
  induction n as [|n IH].
  - vm_compute. discriminate.
  - change (count (S (S n))) with (count (S n) + 1)%float.
    rewrite add_spec. apply add_one_at_least_one, IH.
Qed.

Close Scope Z_scope.

Lemma count_positive n : (0 <? count (S n))%float = true.
Proof.
  rewrite ltb_spec. pose proof (count_at_least_one n) as H.
  change (Prim2SF 0) with (S754_zero false).
  destruct (Prim2SF (count (S n))) as [s|[|]| |[|] m e]; cbn in H; try tauto;
    reflexivity.
Qed.

(** C6, as the code has it: once a statistics panel is installed, the
    inferences that fill one reporting interval end in a report of
    [1000 / average] of their durations, all of it in binary64 arithmetic:
    the interval is the one of the test of line 128, the sum is taken from the
    left and the count by adding 1.  At the report the sum and the count are
    back at zero and the interval is restarted; before it nothing is
    reported; and the count the sum is divided by is positive. *)
Theorem stats_report_is_rate_of_average (panel : nat) (v : Vars)
    (pre : list (JSNumber * JSNumber)) (s e : JSNumber) :
  stats v = Some panel ->
  inferenceTimeSum v = 0%float ->
  numInferences v = 0%float ->
  Forall (fun se => fills (lastPanelUpdate v) se.2 = false) pre ->
  fills (lastPanelUpdate v) e = true ->
  exists v',
    inferences (pre ++ [(s, e)]) v
    = (replicate (length pre) (Done None)
       ++ [Done (Some ((1000 / average (durations (pre ++ [(s, e)])))%float, 120%Z))],
       v')
    /\ (0 <? count (length (pre ++ [(s, e)])))%float = true
    /\ inferenceTimeSum v' = 0%float
    /\ numInferences v' = 0%float
    /\ lastPanelUpdate v' = e.
Proof.
  intros Hst Hsum Hn Hin Hout.
  destruct (inferences_accumulate pre v Hin) as (v1 & Hrun & Hs1 & Hn1 & Hl1 & Hst1).
  rewrite inferences_app, Hrun. cbn [inferences].
  unfold endEstimatePosesStats, beginEstimatePosesStats, recordInference,
    averageInferenceTime.
  cbn [stats startInferenceTime numInferences inferenceTimeSum lastPanelUpdate].
  unfold fills in Hout. rewrite Hl1, Hout, Hst1, Hst, Hs1, Hn1, Hsum, Hn.
  eexists. split.
  { unfold average, total, count, durations.
    rewrite length_map, length_app, Nat.add_1_r, map_app, foldl_app. reflexivity. }
  split; [rewrite length_app, Nat.add_1_r; apply count_positive|].
  repeat split.
Qed.

Lemma stats_report_is_rate_of_average_witness :
  exists v',
    inferences [(0, 400); (450, 800); (820, 1000)]%float
      {| stats := Some 1; startInferenceTime := nan; numInferences := 0%float;
         inferenceTimeSum := 0%float; lastPanelUpdate := 0%float |}
    = ([Done None; Done None; Done (Some (3.225806451612903%float, 120%Z))], v')
    /\ numInferences v' = 0%float.
Proof.
  destruct (stats_report_is_rate_of_average 1
              {| stats := Some 1; startInferenceTime := nan; numInferences := 0%float;
                 inferenceTimeSum := 0%float; lastPanelUpdate := 0%float |}
              [(0, 400); (450, 800)]%float 820%float 1000%float)
    as (v' & H1 & _ & _ & H4 & _).
  - reflexivity.
  - reflexivity.
  - reflexivity.
  - repeat constructor.
  - reflexivity.
  - exists v'. split; [exact H1 | exact H4].
Defined.

(** C6 as stated fails: as the script leaves it, [stats] is never assigned,
    and the first inference that fills the interval throws where it should
    report. *)
Lemma interval_not_reported : ~ interval_reported initial [] 0%float 1500%float.
Proof.
  intros H. destruct H as (rate & Hlast & _).
  - reflexivity.
  - reflexivity.
  - constructor.
  - reflexivity.
  - vm_compute in Hlast. discriminate.
Qed.
End StatsProofs.

(** ** One detector at a time *)

Lemma cancelled_None id : cancelled id None = None.
Proof. destruct id; reflexivity. Qed.

Lemma Live_Safe w : Live w -> Safe w.
Proof.
  intros [Ht Hl]. split; [exact Ht|]. split.
  - intros h1 h2. cbn. rewrite Hl. destruct (detector w); set_solver.
  - intros h Hd. left. cbn in *. rewrite Hl, Hd. set_solver.
Qed.

Lemma Vacant_Safe w : Vacant w -> Safe w.
Proof.
  intros (Ht & Ha & Hg). split; [exact Ht|]. split.
  - intros h1 h2 H1. cbn in H1. rewrite Ha in H1. set_solver.
  - intros h Hd. cbn in *. destruct Hg as [Hn|Hg]; [congruence|]. right. exact Hg.
Qed.

(** Unfold the invariants down to memberships. *)
Ltac inv_unfold :=
  unfold Live, Vacant, Safe, Unscheduled, trace_ok in *; wsimpl;
  rewrite ?Forall_app, ?Forall_cons, ?Forall_nil in *;
  unfold instant_ok, snapshot_ok, call_ok, at_most_one, reference_guarded in *;
  cbn [fst snd snap_gate snap_detector snap_alive referenced] in *.

Ltac inv_solve :=
  inv_unfold; subst; rewrite ?cancelled_None;
  repeat match goal with
         | H : isModelChanged ?s = true |- context [isModelChanged (applyPanels ?s ?a)] =>
             rewrite (applyPanels_gate a s H)
         | |- context [isModelChanged (applyPanels ?s ?a)] =>
             rewrite (applyPanels_gate a s eq_refl)
         end;
  repeat match goal with
         | H : _ /\ _ |- _ => destruct H
         end;
  repeat match goal with
         | |- _ /\ _ => split
         end;
  try assumption; try reflexivity;
  repeat match goal with
         | H : Forall _ _ |- _ => clear H
         end;
  set_solver.

(** A change of the model, flag or backend leaves no detector alive until the
    factory has resolved, and the factory is called with none alive. *)
Lemma createDetector_inv w :
  Vacant w -> Unscheduled w ->
  wp createDetector
     (fun d w' => trace_ok w' /\ alive w' = referenced d
                  /\ Unscheduled w'
                  /\ (d = None -> detector w' = None
                                  \/ isModelChanged (STATE w') = true))
     (fun _ w' => Vacant w' /\ Unscheduled w')
     (fun w' => Vacant w' /\ Unscheduled w') w.
Proof.
  intros Hv Hu. apply wp_createDetector.
  - intros name _. flat w. inv_solve.
  - intros _ opts. apply wp_posedetection_createDetector.
    + intros _. flat w. inv_solve.
    + intros r rest _. flat w. destruct (r_error r); wsimpl.
      * destruct Hv as (Ht & Ha & [Hd|Hg]); inv_solve.
      * destruct Hv as (Ht & Ha & [Hd|Hg]); inv_solve.
Qed.

Lemma reconcileCamera_inv w :
  Live w -> Unscheduled w ->
  wp reconcileCamera
     (fun _ w' => Live w' /\ Unscheduled w')
     (fun _ w' => Safe w' /\ Unscheduled w')
     (fun w' => Safe w' /\ Unscheduled w') w.
Proof.
  intros Hl Hu. apply Live_Safe in Hl as Hs. flat w.
  unfold reconcileCamera, Camera_setupCamera. wp_go.
  destruct (isTargetFPSChanged STATE0 || isSizeOptionChanged STATE0); wp_go;
    [|split; assumption].
  apply wp_await; wsimpl; [intros _; inv_solve|].
  intros r rest _. destruct (r_error r); wp_go; inv_solve.
Qed.

(** Lines 105-114 start with no detector alive and end with the reference on
    the detector that is alive, if any. *)
Lemma construct_inv w :
  Vacant w -> Unscheduled w ->
  wp (constructDetector;; clearChangeFlags)
     (fun _ w' => Live w' /\ Unscheduled w')
     (fun _ w' => Safe w' /\ Unscheduled w')
     (fun w' => Safe w' /\ Unscheduled w') w.
Proof.
  intros Hv Hu. unfold constructDetector, clearChangeFlags.
  apply wp_bind, wp_try, wp_bind.
  eapply wp_mono; [apply (createDetector_inv w Hv Hu) | | |].
  - intros d w2 H2. flat w2. wp_go. inv_solve.
  - intros e w2 H2. flat w2. wp_go. inv_solve.
  - intros w2 H2. flat w2. inv_solve.
Qed.

(** The detector axis: the old detector is disposed while it is alive, the
    factory is called with none alive, and the step ends with the reference
    on the detector that is alive, if any. *)
Lemma reconcileDetector_inv w :
  Live w -> Unscheduled w ->
  wp reconcileDetector
     (fun _ w' => Live w' /\ Unscheduled w')
     (fun _ w' => Safe w' /\ Unscheduled w')
     (fun w' => Safe w' /\ Unscheduled w') w.
Proof.
  intros Hl Hu. flat w.
  unfold reconcileDetector, cancelAnimationFrame, detector_dispose,
    setBackendAndEnvFlags.
  wp_go.
  destruct (isModelChanged STATE0 || isFlagChanged STATE0 || isBackendChanged STATE0);
    wp_go; [|split; assumption].
  destruct detector0 as [h|]; wp_go;
    destruct (isFlagChanged STATE0 || isBackendChanged STATE0); wp_go.
  all: try (apply wp_await; wsimpl; [intros _; inv_solve|];
            intros r rest _; destruct (r_error r); wp_go; [inv_solve|]).
  all: apply construct_inv; inv_solve.
Qed.

Lemma checkGuiUpdate_inv w :
  Live w -> Unscheduled w ->
  wp checkGuiUpdate
     (fun _ w' => Live w' /\ Unscheduled w')
     (fun _ w' => Safe w' /\ Unscheduled w')
     (fun w' => Safe w' /\ Unscheduled w') w.
Proof.
  intros Hl Hu. unfold checkGuiUpdate. apply wp_bind.
  eapply wp_mono; [apply (reconcileCamera_inv w Hl Hu) | | auto | auto].
  intros [] w' [Hl' Hu']. apply reconcileDetector_inv; assumption.
Qed.

Lemma draw_inv poses w :
  Live w -> Unscheduled w ->
  wp (draw poses)
     (fun _ w' => Live w' /\ Unscheduled w')
     (fun _ w' => Safe w' /\ Unscheduled w')
     (fun w' => Safe w' /\ Unscheduled w') w.
Proof.
  intros Hl Hu. apply Live_Safe in Hl as Hs. flat w. unfold draw, the_camera. wp_go.
  destruct window_cam0; wp_go; (destruct camera0; wp_go; [|inv_solve]);
    destruct (overlay_wanted poses STATE0); wp_go; inv_solve.
Qed.

(** An inference uses the detector only while it is alive, and a failed one
    leaves none alive and none referred to. *)
Lemma renderResult_inv w :
  Live w -> Unscheduled w ->
  wp renderResult
     (fun _ w' => Live w' /\ Unscheduled w')
     (fun _ w' => Safe w' /\ Unscheduled w')
     (fun w' => Safe w' /\ Unscheduled w') w.
Proof.
  intros Hl Hu. apply Live_Safe in Hl as Hs. flat w.
  unfold renderResult, awaitVideoReady, estimate, the_camera,
    detector_estimatePoses, detector_dispose.
  wp_go. destruct camera0 as [c|]; wp_go; [|split; assumption].
  destruct (Nat.ltb readyState0 2); wp_go.
  - apply wp_suspend; wsimpl; [intros _; split; assumption|].
    intros r0 rest0 _. wp_go. destruct detector0 as [h|]; wp_go.
    + apply wp_await; wsimpl; [intros _; inv_solve|].
      intros r rest _. destruct (r_error r); wp_go; apply draw_inv; inv_solve.
    + apply draw_inv; inv_solve.
  - destruct detector0 as [h|]; wp_go.
    + apply wp_await; wsimpl; [intros _; inv_solve|].
      intros r rest _. destruct (r_error r); wp_go; apply draw_inv; inv_solve.
    + apply draw_inv; inv_solve.
Qed.

(** A tick that runs to its end has requested the next frame; one that stops
    short has requested none. *)
Lemma renderPrediction_inv w :
  Live w -> Unscheduled w ->
  wp renderPrediction
     (fun _ w' => Live w')
     (fun _ w' => Safe w' /\ Unscheduled w')
     (fun w' => Safe w' /\ Unscheduled w') w.
Proof.
  intros Hl Hu. unfold renderPrediction, renderUnlessReplacing, scheduleNext,
    requestAnimationFrame.
  apply wp_bind.
  eapply wp_mono; [apply (checkGuiUpdate_inv w Hl Hu) | | auto | auto].
  intros [] w1 [Hl1 Hu1]. apply wp_bind, wp_bind, wp_getSTATE.
  assert (Hnext : forall w2, Live w2 /\ Unscheduled w2 ->
    wp (id ← (w0 ← get;
              _ ← emit (EvRequestAnimationFrame (nextFrameId w0));
              _ ← modify (fun w3 => set_pendingFrame (Some (nextFrameId w3))
                                      (set_nextFrameId (S (nextFrameId w3)) w3));
              mret (nextFrameId w0));
        modify (set_rafId (Some id)))
       (fun _ w' => Live w')
       (fun _ w' => Safe w' /\ Unscheduled w')
       (fun w' => Safe w' /\ Unscheduled w') w2).
  { intros w2 [Hl2 Hu2]. apply Live_Safe in Hl2 as Hs2. flat w2. wp_go. inv_solve. }
  destruct (negb (isModelChanged (STATE w1))).
  - eapply wp_mono; [apply (renderResult_inv w1 Hl1 Hu1) | | auto | auto].
    intros [] w2 H2. apply Hnext, H2.
  - apply wp_ret, Hnext. split; assumption.
Qed.

Lemma spawn_renderPrediction_inv w :
  Live w -> Unscheduled w ->
  wp (spawn renderPrediction)
     (fun _ w' => Live w' \/ (Safe w' /\ Unscheduled w'))
     (fun _ _ => False) (fun _ => False) w.
Proof.
  intros Hl Hu. apply wp_spawn.
  eapply wp_mono; [apply (renderPrediction_inv w Hl Hu) | | |].
  - intros [] w' H. left. exact H.
  - intros e w' [Hs' Hu']. right. flat w'. inv_solve.
  - intros w' H. right. exact H.
Qed.

(** The frames that follow: a tick runs only from a requested frame. *)
Lemma eventLoop_inv frames : forall w,
  Live w \/ (Safe w /\ Unscheduled w) ->
  wp (eventLoop frames) (fun _ => Safe) (fun _ => Safe) Safe w.
Proof.
  induction frames as [|k IH]; intros w Hw; cbn [eventLoop].
  - apply wp_ret. destruct Hw as [Hl|[Hs _]]; [apply Live_Safe, Hl | exact Hs].
  - apply wp_bind, wp_get.
    destruct (pendingFrame w) eqn:Hp.
    + destruct Hw as [Hl|[_ Hu]]; [|unfold Unscheduled in Hu; congruence].
      apply wp_bind, wp_suspend; [intros _; apply Live_Safe, Hl|].
      intros r rest _. apply wp_bind, wp_modify, wp_bind.
      eapply wp_mono; [apply spawn_renderPrediction_inv | | intros ? ? [] | intros ? []].
      * clear -Hl. flat w. inv_solve.
      * clear. flat w. inv_solve.
      * intros [] w' Hw'. apply IH, Hw'.
    + apply wp_ret. destruct Hw as [Hl|[Hs _]]; [apply Live_Safe, Hl | exact Hs].
Qed.

Lemma app_inv w :
  Live w -> Unscheduled w -> detector w = None ->
  wp (spawn app)
     (fun _ w' => Live w' \/ (Safe w' /\ Unscheduled w'))
     (fun _ _ => False) (fun _ => False) w.
Proof.
  intros Hl Hu Hd. apply wp_spawn. apply Live_Safe in Hl as Hs. flat w. subst.
  unfold app, setupDatGui, Camera_setupCamera, setBackendAndEnvFlags. wp_go.
  destruct (negb (bool_decide (is_Some (location_search0 !! "model")))); wp_go;
    [left; inv_solve|].
  apply wp_await; wsimpl; [intros _; right; inv_solve|].
  intros r0 rest0 _. destruct (r_error r0); wp_go; [right; inv_solve|].
  apply wp_await; wsimpl; [intros _; right; inv_solve|].
  intros r1 rest1 _. destruct (r_error r1); wp_go; [right; inv_solve|].
  apply wp_await; wsimpl; [intros _; right; inv_solve|].
  intros r2 rest2 _. destruct (r_error r2); wp_go; [right; inv_solve|].
  eapply wp_mono; [apply createDetector_inv; inv_solve | | |].
  - intros d w1 (Ht & Ha & Hu1 & _). apply wp_bind, wp_modify.
    eapply wp_mono; [apply spawn_renderPrediction_inv | auto | intros ? ? [] | intros ? []].
    + clear -Ht Ha. flat w1. inv_solve.
    + clear -Hu1. flat w1. inv_solve.
  - intros e w1 [Hv1 Hu1]. right. clear -Hv1 Hu1. flat w1. inv_solve.
  - intros w1 [Hv1 Hu1]. right. clear -Hv1 Hu1. flat w1. inv_solve.
Qed.

(** C1, as the code has it: over every run of the script, whatever the panel
    and the event loop do, at every call at most one detector is alive;
    [dispose] and [estimatePoses] are called only on the detector that is
    alive and referred to; the factory is called only when none is alive, the
    old one having been disposed first.  The reference is not cleared at the
    disposal: it names the disposed detector until the construction settles,
    and for as long as it does the in-progress gate is set. *)
Theorem one_detector_at_a_time (st : State) (search : gmap string string)
    (events : list Response) (frames : nat) :
  Forall instant_ok (trace (main frames (boot st search events)).2)
  /\ at_most_one (alive (main frames (boot st search events)).2)
  /\ reference_guarded (observe (main frames (boot st search events)).2).
Proof.
  enough (Safe (main frames (boot st search events)).2) as (Ht & Ha & Hr).
  { split; [exact Ht|]. split; assumption. }
  apply wp_final. unfold main. apply wp_bind.
  eapply wp_mono; [apply app_inv | | intros ? ? [] | intros ? []].
  - split; [constructor | reflexivity].
  - reflexivity.
  - reflexivity.
  - intros [] w' Hw'. apply eventLoop_inv, Hw'.
Qed.

(** C1 as stated fails: when the model is changed, the factory is called while
    the script still refers to the detector it has just disposed. *)
Lemma reference_kept_during_construction :
  ~ reference_cleared_at_disposal
      (main 1 (boot (movenet_state "lightning" "") query reselection)).2.
Proof.
  intros H.
  assert (exists e s,
    trace (main 1 (boot (movenet_state "lightning" "") query reselection)).2 !! 12
    = Some (e, s)
    /\ is_Some (match e with EvCreateDetector PoseNet _ => Some tt | _ => None end)
    /\ snap_detector s = Some 0 /\ snap_alive s = ∅) as (e & s & Hi & _ & Hd & Ha).
  { vm_compute. eexists _, _. split; [reflexivity|]. split; [eauto|].
    split; reflexivity. }
  apply (Forall_lookup_1 _ _ _ _ H) in Hi. destruct Hi as [_ Hlive].
  specialize (Hlive 0 Hd). cbn in Hlive. rewrite Ha in Hlive. set_solver.
Qed.

(** * Further properties *)

(** ** [createDetector] *)

(** X1: [createDetector] calls the factory at most once and always for
    [STATE.model]; it makes no call exactly when the model is none of PoseNet,
    BlazePose and MoveNet, and then it returns [undefined] at once, leaving
    the world as it was; after a call it never returns [undefined]. *)
Theorem createDetector_calls_factory_once (w : World) :
  exists opts,
    new_calls w (createDetector w).2
    = (if is_other (model (STATE w)) then []
       else [EvCreateDetector (model (STATE w)) opts])
    /\ (if is_other (model (STATE w))
        then createDetector w = (Done None, w)
        else (createDetector w).1 <> Done None).
Proof.
  enough (wp createDetector
            (fun d w' => exists opts,
               calls w' = calls w
                 ++ (if is_other (model (STATE w)) then []
                     else [EvCreateDetector (model (STATE w)) opts])
               /\ if is_other (model (STATE w)) then d = None /\ w' = w
                  else d <> None)
            (fun _ w' => exists opts,
               calls w' = calls w ++ [EvCreateDetector (model (STATE w)) opts]
               /\ is_other (model (STATE w)) = false)
            (fun w' => exists opts,
               calls w' = calls w ++ [EvCreateDetector (model (STATE w)) opts]
               /\ is_other (model (STATE w)) = false) w) as H.
  { unfold wp in H. destruct (createDetector w) as [[d|e|] w'] eqn:Hrun; cbn [fst snd].
    - destruct H as (opts & Hc & Ho). exists opts.
      split; [apply new_calls_app, Hc|].
      destruct (is_other (model (STATE w))); [destruct Ho; congruence|].
      intros [= ->]. congruence.
    - destruct H as (opts & Hc & Ho). exists opts. rewrite Ho.
      split; [apply new_calls_app, Hc | discriminate].
    - destruct H as (opts & Hc & Ho). exists opts. rewrite Ho.
      split; [apply new_calls_app, Hc | discriminate]. }
  apply wp_createDetector.
  - intros name Hm. exists ∅. rewrite Hm. cbn [is_other].
    split; [symmetry; apply app_nil_r | split; reflexivity].
  - intros Hm opts.
    assert (Ho : is_other (model (STATE w)) = false).
    { destruct (model (STATE w)) eqn:E; try reflexivity. destruct (Hm name eq_refl). }
    apply wp_posedetection_createDetector.
    + intros _. exists opts. split; [|exact Ho]. flat w. calls_simpl. reflexivity.
    + intros r rest _. destruct (r_error r).
      * exists opts. split; [|exact Ho]. flat w. calls_simpl. reflexivity.
      * exists opts. rewrite Ho. split; [|discriminate]. flat w. calls_simpl. reflexivity.
Qed.

(** X2: the runtime of BlazePose is the text of [STATE.backend] before its
    first dash: a backend that starts with a dashless text followed by a dash
    has that text as its runtime, and a backend without a dash is its own
    runtime. *)
Theorem split_dash_0_prefix (a b : string) :
  dashless a = true ->
  split_dash_0 (String.append a (String "-"%char b)) = a
  /\ split_dash_0 a = a
  /\ dashless (split_dash_0 (String.append a (String "-"%char b))) = true.
Proof.
  intros Ha.
  assert (H1 : split_dash_0 (String.append a (String "-"%char b)) = a).
  { revert Ha. induction a as [|c a IH];
      cbn [split_dash_0 String.append dashless]; [reflexivity|].
    intros Ha. apply andb_true_iff in Ha as [Hc Ha].
    apply negb_true_iff in Hc.
    change (split_dash_0 (String c (String.append a (String "-"%char b))) = String c a).
    cbn [split_dash_0]. rewrite Hc, (IH Ha). reflexivity. }
  split; [exact H1|]. split; [|rewrite H1; exact Ha].
  clear H1. revert Ha. induction a as [|c a IH]; cbn [split_dash_0 dashless];
    [reflexivity|].
  intros Ha. apply andb_true_iff in Ha as [Hc Ha].
  apply negb_true_iff in Hc. rewrite Hc, (IH Ha). reflexivity.
Qed.

Lemma split_dash_0_prefix_witness :
  split_dash_0 "mediapipe-gpu" = "mediapipe" /\ split_dash_0 "mediapipe" = "mediapipe".
Proof.
  destruct (split_dash_0_prefix "mediapipe" "gpu") as (H1 & H2 & _);
    [reflexivity|]. split; [exact H1 | exact H2].
Defined.

(** X3: with BlazePose selected and the runtime "mediapipe" or "tfjs", the
    factory is called with the runtime, with [modelConfig.type] passed on as
    it is, and with the solution path for "mediapipe" only; the custom model
    of the configuration is not passed. *)
Theorem createDetector_BlazePose_runtime (w : World) :
  model (STATE w) = BlazePose ->
  split_dash_0 (backend (STATE w)) = "mediapipe"
  \/ split_dash_0 (backend (STATE w)) = "tfjs" ->
  exists opts,
    new_calls w (createDetector w).2 = [EvCreateDetector BlazePose opts]
    /\ opts !! "runtime" = Some (JStr (split_dash_0 (backend (STATE w))))
    /\ opts !! "modelType" = Some (prop (modelConfig (STATE w)) "type")
    /\ opts !! "modelUrl" = None
    /\ (split_dash_0 (backend (STATE w)) = "mediapipe" ->
        opts !! "solutionPath"
        = Some (JStr "https://cdn.jsdelivr.net/npm/@mediapipe/pose@0.4"))
    /\ (split_dash_0 (backend (STATE w)) = "tfjs" -> opts !! "solutionPath" = None).
Proof.
  intros Hm Hr.
  unfold createDetector, getSTATE. unfold mbind at 1, M_bind at 1. cbv beta iota.
  rewrite Hm. destruct Hr as [Hr|Hr]; rewrite Hr; cbn [String.eqb Ascii.eqb Bool.eqb].
  - eexists. split; [apply new_calls_app, created_calls|].
    split; [apply lookup_insert_eq|].
    split; [rewrite lookup_insert_ne by discriminate; apply lookup_insert_eq|].
    split; [rewrite !lookup_insert_ne by discriminate;
            apply lookup_singleton_ne; discriminate|].
    split; [|discriminate]. intros _.
    rewrite !lookup_insert_ne by discriminate. apply lookup_singleton_eq.
  - eexists. split; [apply new_calls_app, created_calls|].
    split; [apply lookup_insert_eq|].
    split; [rewrite lookup_insert_ne by discriminate; apply lookup_singleton_eq|].
    split; [rewrite !lookup_insert_ne by discriminate;
            apply lookup_singleton_ne; discriminate|].
    split; [discriminate|]. intros _.
    rewrite !lookup_insert_ne by discriminate. apply lookup_singleton_ne. discriminate.
Qed.

Lemma createDetector_BlazePose_runtime_witness :
  exists opts,
    new_calls blazepose_mediapipe (createDetector blazepose_mediapipe).2
    = [EvCreateDetector BlazePose opts]
    /\ opts !! "runtime" = Some (JStr "mediapipe")
    /\ opts !! "modelType" = Some (JStr "full")
    /\ opts !! "solutionPath"
       = Some (JStr "https://cdn.jsdelivr.net/npm/@mediapipe/pose@0.4").
Proof.
  destruct (createDetector_BlazePose_runtime blazepose_mediapipe)
    as (opts & H1 & H2 & H3 & _ & H5 & _).
  - reflexivity.
  - left. reflexivity.
  - exists opts. split; [exact H1|]. split; [exact H2|]. split; [exact H3|].
    apply H5. reflexivity.
Defined.

(** X4: with MoveNet selected, type "multipose" gives [modelType] MULTIPOSE;
    a configuration without a type, or with any type other than
    "lightning", "thunder" and "multipose", gives [modelType: undefined]; a
    configuration without a [customModel] key is not the empty string, so the
    options then carry a [modelUrl] key that holds [undefined]; any custom
    model other than the empty string is passed on as [modelUrl]. *)
Theorem createDetector_MoveNet_missing_keys (w : World) :
  model (STATE w) = MoveNet ->
  exists mt opts,
    new_calls w (createDetector w).2 = [EvCreateDetector MoveNet opts]
    /\ opts !! "modelType" = Some mt
    /\ (modelConfig (STATE w) !! "type" = Some (JStr "multipose") ->
        mt = JModelType MULTIPOSE)
    /\ (modelConfig (STATE w) !! "type" = None -> mt = JUndefined)
    /\ (forall t, modelConfig (STATE w) !! "type" = Some t ->
        t <> JStr "lightning" -> t <> JStr "thunder" -> t <> JStr "multipose" ->
        mt = JUndefined)
    /\ (modelConfig (STATE w) !! "customModel" = None ->
        opts !! "modelUrl" = Some JUndefined)
    /\ (forall v, modelConfig (STATE w) !! "customModel" = Some v ->
        v <> JStr "" -> opts !! "modelUrl" = Some v).
Proof.
  intros Hm.
  unfold createDetector, getSTATE. unfold mbind at 1, M_bind at 1. cbv beta iota.
  rewrite Hm. unfold createDetector_MoveNet. rewrite Hm.
  set (ty := prop (modelConfig (STATE w)) "type").
  set (cu := prop (modelConfig (STATE w)) "customModel").
  set (mt := if loose_eq_word ty "lightning" then JModelType SINGLEPOSE_LIGHTNING
             else if loose_eq_word ty "thunder" then JModelType SINGLEPOSE_THUNDER
             else if loose_eq_word ty "multipose" then JModelType MULTIPOSE
             else JUndefined).
  exists mt.
  assert (Hne : forall t lit, t <> JStr lit -> loose_eq_word t lit = false).
  { intros t lit Ht. destruct t as [| | |s| |]; try reflexivity.
    cbn. apply String.eqb_neq. congruence. }
  assert (Hmt : (modelConfig (STATE w) !! "type" = Some (JStr "multipose") ->
                 mt = JModelType MULTIPOSE)
                /\ (modelConfig (STATE w) !! "type" = None -> mt = JUndefined)
                /\ (forall t, modelConfig (STATE w) !! "type" = Some t ->
                    t <> JStr "lightning" -> t <> JStr "thunder" ->
                    t <> JStr "multipose" -> mt = JUndefined)).
  { subst mt ty. split; [unfold prop; intros ->; reflexivity|].
    split; [unfold prop; intros ->; reflexivity|].
    intros t Ht H1 H2 H3. rewrite (prop_lookup _ _ _ Ht).
    rewrite (Hne t _ H1), (Hne t _ H2), (Hne t _ H3). reflexivity. }
  destruct Hmt as (Hmt1 & Hmt2 & Hmt3).
  destruct (strict_ne_str cu "") eqn:Hcu.
  - exists {[ "modelType" := mt; "modelUrl" := cu ]}.
    split; [apply new_calls_app, created_calls|].
    split; [apply lookup_insert_eq|].
    split; [exact Hmt1|]. split; [exact Hmt2|]. split; [exact Hmt3|].
    rewrite lookup_insert_ne by discriminate. rewrite lookup_singleton_eq.
    subst cu. unfold prop. split.
    + intros ->. reflexivity.
    + intros v -> _. reflexivity.
  - exists {[ "modelType" := mt ]}.
    split; [apply new_calls_app, created_calls|].
    split; [apply lookup_singleton_eq|].
    split; [exact Hmt1|]. split; [exact Hmt2|]. split; [exact Hmt3|].
    subst cu. unfold prop in Hcu. split.
    + intros Hn. rewrite Hn in Hcu. discriminate.
    + intros v Hv Hne'. rewrite Hv in Hcu. cbn in Hcu.
      destruct v; try discriminate.
      apply negb_false_iff, String.eqb_eq in Hcu. congruence.
Qed.

Lemma createDetector_MoveNet_missing_keys_witness :
  exists opts,
    new_calls movenet_bare (createDetector movenet_bare).2
    = [EvCreateDetector MoveNet opts]
    /\ opts !! "modelType" = Some JUndefined
    /\ opts !! "modelUrl" = Some JUndefined.
Proof.
  destruct (createDetector_MoveNet_missing_keys movenet_bare)
    as (mt & opts & H1 & H2 & _ & H4 & _ & H5 & _).
  - reflexivity.
  - exists opts. split; [exact H1|]. split.
    + rewrite H2, H4; reflexivity.
    + apply H5. reflexivity.
Defined.

(** ** Reconciliation *)

(** As [flat], with the fields named. *)
Ltac flatn w :=
  destruct w as [st det cam raf wcam srch rdy pend nfid alv nh ibx tr]; wsimpl.

Lemma construct_clears_flags w :
  wp (constructDetector;; clearChangeFlags)
     (fun _ w' => isModelChanged (STATE w') = false
                  /\ isFlagChanged (STATE w') = false
                  /\ isBackendChanged (STATE w') = false)
     (fun _ _ => False) (fun _ => True) w.
Proof.
  unfold constructDetector, clearChangeFlags.
  apply wp_bind, wp_try, wp_bind, wp_createDetector.
  - intros name _. flat w. wp_go. repeat split; reflexivity.
  - intros _ opts. apply wp_posedetection_createDetector; [intros _; exact I|].
    intros r rest _. flat w. destruct (r_error r); wp_go; repeat split; reflexivity.
Qed.

(** X5: whenever [checkGuiUpdate] returns, [isModelChanged], [isFlagChanged]
    and [isBackendChanged] are all clear, whatever the panel did in the
    meantime; so the test of [renderPrediction] on line 192 always passes and
    a tick whose reconciliation returns always renders. *)
Theorem checkGuiUpdate_clears_detector_flags (w w' : World) :
  checkGuiUpdate w = (Done tt, w') ->
  isModelChanged (STATE w') = false
  /\ isFlagChanged (STATE w') = false
  /\ isBackendChanged (STATE w') = false
  /\ renderUnlessReplacing w' = renderResult w'.
Proof.
  intros Hrun.
  enough (wp checkGuiUpdate
            (fun _ w' => isModelChanged (STATE w') = false
                         /\ isFlagChanged (STATE w') = false
                         /\ isBackendChanged (STATE w') = false)
            (fun _ _ => True) (fun _ => True) w) as H.
  { unfold wp in H. rewrite Hrun in H. destruct H as (H1 & H2 & H3).
    repeat (split; [assumption|]).
    unfold renderUnlessReplacing, getSTATE. unfold mbind, M_bind.
    rewrite H1. reflexivity. }
  unfold checkGuiUpdate. apply wp_bind.
  apply (wp_mono reconcileCamera (fun _ _ => True) _ (fun _ _ => True) _
           (fun _ => True) _ w); [| |auto|auto].
  { unfold wp. destruct (reconcileCamera w) as [[?|?|] ?]; exact I. }
  intros [] w1 _. flatn w1.
  unfold reconcileDetector, cancelAnimationFrame, detector_dispose,
    setBackendAndEnvFlags.
  wp_go.
  destruct (isModelChanged st || isFlagChanged st || isBackendChanged st)
    eqn:Htrig; wp_go.
  - destruct det as [h|]; wp_go;
      destruct (isFlagChanged st || isBackendChanged st); wp_go.
    all: try (apply wp_await; wsimpl; [intros _; exact I|];
              intros r rest _; destruct (r_error r); wp_go; [exact I|]).
    all: eapply wp_mono; [apply construct_clears_flags | auto | intros ? ? [] | auto].
  - apply orb_false_iff in Htrig as [Htrig H3].
    apply orb_false_iff in Htrig as [H1 H2]. auto.
Qed.

Lemma checkGuiUpdate_clears_detector_flags_witness :
  exists w',
    checkGuiUpdate backend_changed = (Done tt, w')
    /\ isModelChanged (STATE w') = false
    /\ renderUnlessReplacing w' = renderResult w'.
Proof.
  exists (checkGuiUpdate backend_changed).2.
  assert (Hrun : checkGuiUpdate backend_changed
                 = (Done tt, (checkGuiUpdate backend_changed).2))
    by (vm_compute; reflexivity).
  destruct (checkGuiUpdate_clears_detector_flags backend_changed _ Hrun)
    as (H1 & _ & _ & H4).
  split; [exact Hrun|]. split; [exact H1 | exact H4].
Defined.

(** X6: a model selected on the panel while the factory is awaited is lost to
    the reconciliation: the detector has been constructed for the model of
    before, the flags are cleared all the same, and with them clear the next
    reconciliation does nothing, although [STATE.model] is the new
    selection. *)
Theorem selection_during_construction_is_dropped (w : World) (rf : Response)
    (rest : list Response) (m' : SupportedModels) :
  isModelChanged (STATE w) = true ->
  isFlagChanged (STATE w) = false -> isBackendChanged (STATE w) = false ->
  (forall name, model (STATE w) <> OtherModel name) ->
  inbox w = rf :: rest -> r_error rf = None -> r_panel rf = [SelectModel m'] ->
  exists opts w',
    reconcileDetector w = (Done tt, w')
    /\ last (new_calls w w') = Some (EvCreateDetector (model (STATE w)) opts)
    /\ detector w' = Some (nextHandle w)
    /\ model (STATE w') = m'
    /\ isModelChanged (STATE w') = false
    /\ reconcileDetector w' = (Done tt, w').
Proof.
  intros Hg Hf Hb Hm Hi He Hp.
  destruct (wp_done reconcileDetector
    (fun _ w' => (exists opts,
        last (new_calls w w') = Some (EvCreateDetector (model (STATE w)) opts))
      /\ detector w' = Some (nextHandle w)
      /\ model (STATE w') = m'
      /\ isModelChanged (STATE w') = false
      /\ isFlagChanged (STATE w') = false
      /\ isBackendChanged (STATE w') = false) w)
    as ([] & w' & Hrun & [opts H1] & H2 & H3 & H4 & H5 & H6).
  - flatn w. subst.
    unfold reconcileDetector, cancelAnimationFrame, detector_dispose.
    wp_go. rewrite Hg, Hf, Hb. wsimpl. wp_go.
    destruct det as [h|]; wp_go; rewrite Hf, Hb; wsimpl; wp_go.
    all: unfold constructDetector, clearChangeFlags.
    all: apply wp_bind, wp_try, wp_bind, wp_createDetector; wsimpl;
      [intros name Hn; destruct (Hm name Hn)|].
    all: intros _ opts; apply wp_posedetection_createDetector; wsimpl; [discriminate|].
    all: intros r rest' [= <- <-]; rewrite He, Hp; wp_go.
    all: split; [exists opts; erewrite new_calls_app by (calls_simpl; reflexivity);
                 reflexivity|].
    all: repeat split; reflexivity.
  - exists opts, w'. repeat (split; [assumption|]).
    unfold reconcileDetector, getSTATE. unfold mbind at 1, M_bind at 1.
    rewrite H4, H5, H6. reflexivity.
Qed.

Lemma selection_during_construction_is_dropped_witness :
  exists opts w',
    reconcileDetector
      (running (set_isModelChanged true (movenet_state "lightning" ""))
         [resolved [SelectModel PoseNet] None])
    = (Done tt, w')
    /\ last (new_calls
               (running (set_isModelChanged true (movenet_state "lightning" ""))
                  [resolved [SelectModel PoseNet] None]) w')
       = Some (EvCreateDetector MoveNet opts)
    /\ model (STATE w') = PoseNet
    /\ reconcileDetector w' = (Done tt, w').
Proof.
  destruct (selection_during_construction_is_dropped
              (running (set_isModelChanged true (movenet_state "lightning" ""))
                 [resolved [SelectModel PoseNet] None])
              (resolved [SelectModel PoseNet] None) [] PoseNet)
    as (opts & w' & H1 & H2 & _ & H4 & _ & H6); try reflexivity.
  - intros name. discriminate.
  - exists opts, w'. split; [exact H1|]. split; [exact H2|]. split; assumption.
Defined.

(** X7: when the target frame rate or the size has changed, the capture is
    set up again with the settings as they stand when the step starts; once
    it resolves the camera is the new one and both flags are clear, also for
    a setting the panel changed while the set-up was awaited; the detector is
    not touched. *)
Theorem reconcileCamera_replaces_camera (w : World) (r : Response)
    (rest : list Response) :
  isTargetFPSChanged (STATE w) || isSizeOptionChanged (STATE w) = true ->
  inbox w = r :: rest -> r_error r = None ->
  exists w',
    reconcileCamera w = (Done tt, w')
    /\ new_calls w w' = [EvSetupCamera (STATE_camera (STATE w))]
    /\ camera w' = Some (r_camera r)
    /\ isTargetFPSChanged (STATE w') = false
    /\ isSizeOptionChanged (STATE w') = false
    /\ STATE_camera (STATE w') = STATE_camera (applyPanels (STATE w) (r_panel r))
    /\ detector w' = detector w
    /\ alive w' = alive w.
Proof.
  intros Hc Hi He.
  destruct (wp_done reconcileCamera
    (fun _ w' => new_calls w w' = [EvSetupCamera (STATE_camera (STATE w))]
      /\ camera w' = Some (r_camera r)
      /\ isTargetFPSChanged (STATE w') = false
      /\ isSizeOptionChanged (STATE w') = false
      /\ STATE_camera (STATE w') = STATE_camera (applyPanels (STATE w) (r_panel r))
      /\ detector w' = detector w
      /\ alive w' = alive w) w) as ([] & w' & Hrun & H); [|exists w'; tauto].
  flatn w. subst. unfold reconcileCamera, Camera_setupCamera.
  wp_go. rewrite Hc. wp_go.
  apply wp_await; wsimpl; [discriminate|].
  intros r' rest' [= <- <-]. rewrite He. wp_go.
  split; [apply new_calls_app; calls_simpl; reflexivity|].
  repeat split; reflexivity.
Qed.

Lemma reconcileCamera_replaces_camera_witness :
  exists w',
    reconcileCamera (size_changed [resolved [SetSizeOption "360 X 270"] None])
    = (Done tt, w')
    /\ isSizeOptionChanged (STATE w') = false
    /\ sizeOption (STATE_camera (STATE w')) = "360 X 270"
    /\ new_calls (size_changed [resolved [SetSizeOption "360 X 270"] None]) w'
       = [EvSetupCamera {| targetFPS := 60; sizeOption := "640 X 480" |}].
Proof.
  destruct (reconcileCamera_replaces_camera
              (size_changed [resolved [SetSizeOption "360 X 270"] None])
              (resolved [SetSizeOption "360 X 270"] None) [])
    as (w' & H1 & H2 & _ & _ & H5 & H6 & _); try reflexivity.
  exists w'. split; [exact H1|]. split; [exact H5|].
  split; [rewrite H6; reflexivity | exact H2].
Defined.

(** ** Ticks and the frame request *)

Lemma Kept_refl w : Kept w w.
Proof. repeat split; auto. Qed.

Lemma Kept_trans w1 w2 w3 : Kept w1 w2 -> Kept w2 w3 -> Kept w1 w3.
Proof.
  intros (H1 & H2 & H3) (H4 & H5 & H6). repeat split; [congruence|auto|auto].
Qed.

Lemma Escaped_trans w1 w2 w3 : Kept w1 w2 -> Escaped w2 w3 -> Escaped w1 w3.
Proof.
  intros HK [HK' He]. split; [eapply Kept_trans; eassumption|].
  intros Hc. apply He, HK, Hc.
Qed.

Lemma wp_Kept_bind {A B : Type} (m : M A) (f : A -> M B) w :
  wp m (fun _ => Kept w) (fun _ => Escaped w) (Kept w) w ->
  (forall a w1, wp (f a) (fun _ => Kept w1) (fun _ => Escaped w1) (Kept w1) w1) ->
  wp (m ≫= f) (fun _ => Kept w) (fun _ => Escaped w) (Kept w) w.
Proof.
  intros Hm Hf. apply wp_bind.
  eapply wp_mono; [exact Hm| |auto|auto].
  intros a w1 HK. cbv beta in HK. eapply wp_mono; [apply Hf| | |]; cbv beta.
  - intros _ w2. apply Kept_trans, HK.
  - intros _ w2. apply Escaped_trans, HK.
  - intros w2. apply Kept_trans, HK.
Qed.

Ltac kept_solve :=
  unfold Escaped, Kept, escaped, requests, calls; wsimpl;
  rewrite ?fmap_app, ?List.filter_app, ?length_app;
  cbn [fmap list_fmap List.filter is_request length fst snd];
  rewrite ?last_snoc;
  repeat match goal with
         | |- _ /\ _ => split
         | |- _ -> _ => intros ?
         end;
  subst; rewrite ?cancelled_None;
  try solve [ lia | reflexivity | eauto | eexists; split; reflexivity
            | exfalso; eapply is_Some_None; eassumption ].

Lemma reconcileCamera_kept w :
  wp reconcileCamera (fun _ => Kept w) (fun _ => Escaped w) (Kept w) w.
Proof.
  flatn w. unfold reconcileCamera, Camera_setupCamera. wp_go.
  destruct (isTargetFPSChanged st || isSizeOptionChanged st); wp_go; [|kept_solve].
  apply wp_await; wsimpl; [intros _; kept_solve|].
  intros r rest _. destruct (r_error r); wp_go; kept_solve.
Qed.

Lemma constructDetector_kept w :
  wp (constructDetector;; clearChangeFlags)
     (fun _ => Kept w) (fun _ => Escaped w) (Kept w) w.
Proof.
  unfold constructDetector, clearChangeFlags.
  apply wp_bind, wp_try, wp_bind, wp_createDetector.
  - intros name _. flatn w. wp_go. kept_solve.
  - intros _ opts. apply wp_posedetection_createDetector.
    + intros _. flatn w. unfold called. kept_solve.
    + intros r rest _. flatn w. unfold allocated, resume, called.
      destruct (r_error r); wp_go; kept_solve.
Qed.

Lemma wp_Kept_from {A : Type} (m : M A) w0 w :
  Kept w0 w ->
  wp m (fun _ => Kept w) (fun _ => Escaped w) (Kept w) w ->
  wp m (fun _ => Kept w0) (fun _ => Escaped w0) (Kept w0) w.
Proof.
  intros HK Hm. eapply wp_mono; [exact Hm| | |]; cbv beta.
  - intros _ w2. apply Kept_trans, HK.
  - intros _ w2. apply Escaped_trans, HK.
  - intros w2. apply Kept_trans, HK.
Qed.

Lemma reconcileDetector_kept w :
  wp reconcileDetector (fun _ => Kept w) (fun _ => Escaped w) (Kept w) w.
Proof.
  flatn w.
  unfold reconcileDetector, cancelAnimationFrame, detector_dispose,
    setBackendAndEnvFlags.
  wp_go.
  destruct (isModelChanged st || isFlagChanged st || isBackendChanged st);
    wp_go; [|kept_solve].
  destruct det as [h|]; wp_go;
    destruct (isFlagChanged st || isBackendChanged st); wp_go.
  all: try (apply wp_await; wsimpl; [intros _; kept_solve; destruct raf; reflexivity|];
            intros r rest _; destruct (r_error r); wp_go;
            [kept_solve; destruct raf; reflexivity|]).
  all: apply wp_Kept_from; [kept_solve; destruct raf; reflexivity|].
  all: apply constructDetector_kept.
Qed.

Lemma checkGuiUpdate_kept w :
  wp checkGuiUpdate (fun _ => Kept w) (fun _ => Escaped w) (Kept w) w.
Proof.
  apply wp_Kept_bind; [apply reconcileCamera_kept|].
  intros _ w1. apply reconcileDetector_kept.
Qed.

Lemma awaitVideoReady_kept w :
  wp awaitVideoReady (fun _ => Kept w) (fun _ => Escaped w) (Kept w) w.
Proof.
  flatn w. unfold awaitVideoReady, the_camera. wp_go.
  destruct cam as [c|]; wp_go; [|kept_solve].
  destruct (Nat.ltb rdy 2); wp_go; [|kept_solve].
  apply wp_suspend; wsimpl; [intros _; kept_solve|].
  intros r rest _. wp_go. kept_solve.
Qed.

Lemma estimate_kept w :
  wp estimate (fun _ => Kept w) (fun _ => Escaped w) (Kept w) w.
Proof.
  flatn w. unfold estimate, the_camera, detector_estimatePoses, detector_dispose.
  wp_go. destruct det as [h|]; wp_go; [|kept_solve].
  destruct cam as [c|]; wp_go.
  - apply wp_await; wsimpl; [intros _; kept_solve|].
    intros r rest _. destruct (r_error r); wp_go; kept_solve.
  - kept_solve.
Qed.

Lemma draw_kept poses w :
  wp (draw poses) (fun _ => Kept w) (fun _ => Escaped w) (Kept w) w.
Proof.
  flatn w. unfold draw, the_camera. wp_go.
  destruct wcam as [c0|]; wp_go; (destruct cam as [c|]; wp_go; [|kept_solve]).
  all: destruct (overlay_wanted poses st); wp_go; kept_solve.
Qed.

Lemma renderResult_kept w :
  wp renderResult (fun _ => Kept w) (fun _ => Escaped w) (Kept w) w.
Proof.
  unfold renderResult.
  apply wp_Kept_bind; [apply awaitVideoReady_kept|].
  intros _ w1. apply wp_Kept_bind; [apply estimate_kept|].
  intros poses w2. apply draw_kept.
Qed.

Lemma renderUnlessReplacing_kept w :
  wp renderUnlessReplacing (fun _ => Kept w) (fun _ => Escaped w) (Kept w) w.
Proof.
  unfold renderUnlessReplacing. apply wp_bind, wp_getSTATE.
  destruct (negb (isModelChanged (STATE w)));
    [apply renderResult_kept | apply wp_ret, Kept_refl].
Qed.

(** What a tick does to the frame request: a tick that returns has requested
    one frame, as its last call, and that one is registered and remembered in
    [rafId]; a tick that ends with an error or does not end has requested
    none. *)
Lemma renderPrediction_frames w :
  wp renderPrediction
     (fun _ w' => requests w' = S (requests w)
                  /\ (exists id, last (calls w') = Some (EvRequestAnimationFrame id)
                                 /\ pendingFrame w' = Some id
                                 /\ rafId w' = Some id))
     (fun _ => Escaped w) (Kept w) w.
Proof.
  unfold renderPrediction. apply wp_bind.
  eapply wp_mono; [apply checkGuiUpdate_kept| |auto|auto].
  intros [] w1 HK1. cbv beta in HK1. apply wp_bind.
  eapply wp_mono; [apply renderUnlessReplacing_kept| | |]; cbv beta.
  - intros [] w2 HK2. destruct (Kept_trans _ _ _ HK1 HK2) as (Hr & _).
    clear HK1 HK2. flatn w2. unfold scheduleNext, requestAnimationFrame. wp_go.
    split; [|eexists; kept_solve].
    rewrite <- Hr. kept_solve.
  - intros _ w2. apply Escaped_trans, HK1.
  - intros w2. apply Kept_trans, HK1.
Qed.

(** X8: a tick requests the next frame exactly when it returns: then once,
    as its last call, and the callback is registered and remembered in
    [rafId]; a tick that ends with an error, or that does not end, has
    requested none and registers none. *)
Theorem tick_requests_frame_iff_it_returns (w : World) :
  match (renderPrediction w).1 with
  | Done _ =>
      requests (renderPrediction w).2 = S (requests w)
      /\ exists id,
           last (calls (renderPrediction w).2) = Some (EvRequestAnimationFrame id)
           /\ pendingFrame (renderPrediction w).2 = Some id
           /\ rafId (renderPrediction w).2 = Some id
  | _ =>
      requests (renderPrediction w).2 = requests w
      /\ (pendingFrame w = None -> pendingFrame (renderPrediction w).2 = None)
  end.
Proof.
  pose proof (renderPrediction_frames w) as H. unfold wp in H.
  destruct (renderPrediction w) as [[[]|e|] w']; cbn [fst snd].
  - exact H.
  - destruct H as [(H1 & H2 & _) _]. split; assumption.
  - destruct H as (H1 & H2 & _). split; assumption.
Qed.

(** X9: with a camera, the only errors that leave a tick are those of the two
    awaited calls outside every [try], [Camera.setupCamera] and
    [setBackendAndEnvFlags]: the call made last before the error is one of
    them.  The errors of the factory and of [estimatePoses] never leave it. *)
Theorem only_setup_errors_escape_a_tick (w w' : World) (c : Camera) (e : Error) :
  camera w = Some c ->
  renderPrediction w = (Thrown e, w') ->
  exists ev,
    last (calls w') = Some ev /\ escapes_from ev = true
    /\ forall m opts h v o,
         ev <> EvCreateDetector m opts /\ ev <> EvEstimatePoses h v o.
Proof.
  intros Hc Hrun. pose proof (renderPrediction_frames w) as H. unfold wp in H.
  rewrite Hrun in H. destruct H as [_ He].
  destruct He as (ev & Hl & Hev); [rewrite Hc; eauto|].
  exists ev. split; [exact Hl|]. split; [exact Hev|].
  intros m opts h v o. split; intros ->; discriminate.
Qed.

Lemma only_setup_errors_escape_a_tick_witness :
  exists ev,
    last (calls (renderPrediction (size_changed [rejected "NotReadableError"])).2)
    = Some ev
    /\ escapes_from ev = true.
Proof.
  destruct (only_setup_errors_escape_a_tick
              (size_changed [rejected "NotReadableError"])
              (renderPrediction (size_changed [rejected "NotReadableError"])).2
              sample_camera "NotReadableError") as (ev & H1 & H2 & _).
  - vm_compute. reflexivity.
  - vm_compute. reflexivity.
  - exists ev. split; assumption.
Defined.

Lemma eventLoop_unscheduled k w :
  pendingFrame w = None -> eventLoop k w = (Done tt, w).
Proof.
  intros Hp. destruct k as [|k]; [reflexivity|].
  cbn [eventLoop]. unfold mbind, M_bind, get. rewrite Hp. reflexivity.
Qed.

(** X10: a tick that does not return ends the loop.  Started from an
    animation frame (none registered any more), a tick that ends with an
    error or never ends leaves no frame registered, so however many frames
    follow, nothing more is run; a rejection is not alerted but left
    unhandled. *)
Theorem loop_stops_after_unfinished_tick (w : World) (k : nat) :
  pendingFrame w = None ->
  (renderPrediction w).1 <> Done tt ->
  (spawn renderPrediction;; eventLoop k) w = spawn renderPrediction w
  /\ (spawn renderPrediction w).1 = Done tt
  /\ requests (spawn renderPrediction w).2 = requests w
  /\ calls (spawn renderPrediction w).2
     = calls (renderPrediction w).2
       ++ match (renderPrediction w).1 with
          | Thrown e => [EvUnhandledRejection e]
          | _ => []
          end.
Proof.
  intros Hp Hnd. pose proof (renderPrediction_frames w) as H. unfold wp in H.
  unfold mbind, M_bind, spawn.
  destruct (renderPrediction w) as [[[]|e|] w'] eqn:Hrun; cbn [fst snd] in *.
  - congruence.
  - destruct H as [(H1 & H2 & _) _]. specialize (H2 Hp).
    unfold emit, modify. cbv beta iota.
    rewrite eventLoop_unscheduled by (flatn w'; exact H2).
    cbn [fst snd]. repeat split; [|flatn w'; kept_solve].
    flatn w'. revert H1. kept_solve.
  - destruct H as (H1 & H2 & _). specialize (H2 Hp).
    rewrite eventLoop_unscheduled by exact H2. cbn [fst snd].
    rewrite app_nil_r. repeat split. exact H1.
Qed.

Lemma loop_stops_after_unfinished_tick_witness :
  (spawn renderPrediction;; eventLoop 5) (size_changed [rejected "NotReadableError"])
  = spawn renderPrediction (size_changed [rejected "NotReadableError"])
  /\ calls (spawn renderPrediction (size_changed [rejected "NotReadableError"])).2
     = [EvSetupCamera {| targetFPS := 60; sizeOption := "640 X 480" |};
        EvUnhandledRejection "NotReadableError"].
Proof.
  destruct (loop_stops_after_unfinished_tick
              (size_changed [rejected "NotReadableError"]) 5 eq_refl)
    as (H1 & _ & _ & H4).
  - vm_compute. discriminate.
  - split; [exact H1|]. rewrite H4. vm_compute. reflexivity.
Defined.

(** X11: the loop requests at most one frame per animation frame it is given:
    after [k] frames at most [k] further requests have been made. *)
Theorem eventLoop_requests_at_most_one_frame_per_tick (k : nat) (w : World) :
  requests (eventLoop k w).2 <= requests w + k.
Proof.
  apply (wp_final (eventLoop k) (fun w' => requests w' <= requests w + k)).
  assert (Hgen : forall n, requests w <= n ->
    wp (eventLoop k) (fun _ w' => requests w' <= n + k)
       (fun _ w' => requests w' <= n + k) (fun w' => requests w' <= n + k) w);
    [|apply Hgen; lia].
  revert w. induction k as [|k IH]; intros w n Hn; cbn [eventLoop].
  - apply wp_ret. lia.
  - apply wp_bind, wp_get. destruct (pendingFrame w) as [id|]; [|apply wp_ret; lia].
    apply wp_bind, wp_suspend; [intros _; lia|].
    intros r rest _. apply wp_bind, wp_modify, wp_bind, wp_spawn.
    assert (Hw1 : requests (set_pendingFrame None (resume r rest w)) = requests w)
      by (flatn w; reflexivity).
    pose proof (renderPrediction_frames (set_pendingFrame None (resume r rest w)))
      as H.
    assert (Hstep : forall w2, requests w2 <= S n ->
      wp (eventLoop k) (fun _ w' => requests w' <= n + S k)
         (fun _ w' => requests w' <= n + S k) (fun w' => requests w' <= n + S k) w2).
    { intros w2 H2. eapply wp_mono; [apply (IH w2 (S n) H2)|..]; cbv beta; intros; lia. }
    eapply wp_mono; [exact H|..]; cbv beta.
    + intros [] w2 [H2 _]. apply Hstep. lia.
    + intros e w2 [(H2 & _) _]. apply Hstep.
      assert (requests (set_trace (trace w2 ++ [(EvUnhandledRejection e, observe w2)]) w2)
              = requests w2) as -> by (flatn w2; kept_solve).
      lia.
    + intros w2 (H2 & _). apply Hstep. lia.
Qed.

(** ** Failures outside every handler *)

Lemma wp_thrown {A : Type} (m : M A) (T : Error -> World -> Prop) w :
  wp m (fun _ _ => False) T (fun _ => False) w ->
  exists e w', m w = (Thrown e, w') /\ T e w'.
Proof.
  unfold wp. destruct (m w) as [[a|e|] w']; try tauto. eauto.
Qed.

Lemma wp_pending {A : Type} (m : M A) (N : World -> Prop) w :
  wp m (fun _ _ => False) (fun _ _ => False) N w ->
  exists w', m w = (Pending, w') /\ N w'.
Proof.
  unfold wp. destruct (m w) as [[a|e|] w']; try tauto. eauto.
Qed.

(** X12: when [setBackendAndEnvFlags] rejects in a reconciliation, the step
    ends with that error after the cancellation and the disposal: the factory
    is not called, the script still refers to the detector it has disposed,
    and the gate stays set. *)
Theorem backend_failure_leaves_disposed_detector (w : World) (h : Handle)
    (r : Response) (rest : list Response) (e : Error) :
  isFlagChanged (STATE w) || isBackendChanged (STATE w) = true ->
  detector w = Some h -> inbox w = r :: rest -> r_error r = Some e ->
  exists w',
    reconcileDetector w = (Thrown e, w')
    /\ new_calls w w'
       = [EvCancelAnimationFrame (rafId w); EvDispose h;
          EvSetBackendAndEnvFlags (flags (STATE w)) (backend (STATE w))]
    /\ detector w' = Some h
    /\ alive w' = alive w ∖ {[h]}
    /\ isModelChanged (STATE w') = true
    /\ pendingFrame w' = cancelled (rafId w) (pendingFrame w).
Proof.
  intros Hf Hd Hi He.
  destruct (wp_thrown reconcileDetector
    (fun e' w' => e' = e
      /\ new_calls w w'
         = [EvCancelAnimationFrame (rafId w); EvDispose h;
            EvSetBackendAndEnvFlags (flags (STATE w)) (backend (STATE w))]
      /\ detector w' = Some h
      /\ alive w' = alive w ∖ {[h]}
      /\ isModelChanged (STATE w') = true
      /\ pendingFrame w' = cancelled (rafId w) (pendingFrame w)) w)
    as (e' & w' & Hrun & -> & H); [|exists w'; split; assumption].
  flatn w. subst.
  unfold reconcileDetector, cancelAnimationFrame, detector_dispose,
    setBackendAndEnvFlags.
  wp_go. rewrite <- orb_assoc, Hf, orb_true_r. wp_go. rewrite Hf. wp_go.
  apply wp_await; wsimpl; [discriminate|].
  intros r' rest' [= <- <-]. rewrite He. wsimpl.
  split; [reflexivity|].
  split; [apply new_calls_app; calls_simpl; reflexivity|].
  repeat split; try reflexivity.
  apply applyPanels_gate. reflexivity.
Qed.

Lemma backend_failure_leaves_disposed_detector_witness :
  exists w',
    reconcileDetector
      (running (set_isBackendChanged true (movenet_state "lightning" ""))
         [rejected "backend not registered"])
    = (Thrown "backend not registered", w')
    /\ detector w' = Some 0 /\ alive w' = ({[0]} : gset Handle) ∖ {[0]}
    /\ isModelChanged (STATE w') = true.
Proof.
  destruct (backend_failure_leaves_disposed_detector
              (running (set_isBackendChanged true (movenet_state "lightning" ""))
                 [rejected "backend not registered"])
              0 (rejected "backend not registered") [] "backend not registered")
    as (w' & H1 & _ & H3 & H4 & H5 & _); try reflexivity.
  exists w'. split; [exact H1|]. split; [exact H3|]. split; [exact H4 | exact H5].
Defined.

(** X13: when [Camera.setupCamera] rejects in a reconciliation, the step ends
    with that error at once: the camera of before stays, the two capture
    flags are not cleared, and the detector axis is not reached. *)
Theorem camera_failure_keeps_camera_and_flags (w : World) (r : Response)
    (rest : list Response) (e : Error) :
  isTargetFPSChanged (STATE w) || isSizeOptionChanged (STATE w) = true ->
  inbox w = r :: rest -> r_error r = Some e ->
  exists w',
    checkGuiUpdate w = (Thrown e, w')
    /\ new_calls w w' = [EvSetupCamera (STATE_camera (STATE w))]
    /\ camera w' = camera w
    /\ STATE w' = applyPanels (STATE w) (r_panel r)
    /\ (r_panel r = [] ->
        isTargetFPSChanged (STATE w') || isSizeOptionChanged (STATE w') = true)
    /\ detector w' = detector w
    /\ alive w' = alive w.
Proof.
  intros Hc Hi He.
  destruct (wp_thrown checkGuiUpdate
    (fun e' w' => e' = e
      /\ new_calls w w' = [EvSetupCamera (STATE_camera (STATE w))]
      /\ camera w' = camera w
      /\ STATE w' = applyPanels (STATE w) (r_panel r)
      /\ (r_panel r = [] ->
          isTargetFPSChanged (STATE w') || isSizeOptionChanged (STATE w') = true)
      /\ detector w' = detector w
      /\ alive w' = alive w) w)
    as (e' & w' & Hrun & -> & H); [|exists w'; split; assumption].
  flatn w. subst. unfold checkGuiUpdate, reconcileCamera, Camera_setupCamera.
  wp_go. rewrite Hc. wp_go.
  apply wp_await; wsimpl; [discriminate|].
  intros r' rest' [= <- <-]. rewrite He. wsimpl.
  split; [reflexivity|].
  split; [apply new_calls_app; calls_simpl; reflexivity|].
  repeat split; try reflexivity.
  intros ->. exact Hc.
Qed.

Lemma camera_failure_keeps_camera_and_flags_witness :
  exists w',
    checkGuiUpdate (size_changed [rejected "NotReadableError"])
    = (Thrown "NotReadableError", w')
    /\ camera w' = Some sample_camera
    /\ isSizeOptionChanged (STATE w') = true
    /\ detector w' = Some 0.
Proof.
  destruct (camera_failure_keeps_camera_and_flags
              (size_changed [rejected "NotReadableError"])
              (rejected "NotReadableError") [] "NotReadableError")
    as (w' & H1 & _ & H3 & H4 & _ & H6 & _); try reflexivity.
  exists w'. split; [exact H1|]. split; [exact H3|].
  split; [rewrite H4; reflexivity | exact H6].
Defined.

(** X14: an unknown model at a reconciliation: [createDetector] returns
    without a value, so after the cancellation and the disposal no factory is
    called, nothing is awaited and nothing is alerted; the reference is left
    undefined and the flags are cleared. *)
Theorem unknown_model_leaves_no_detector (w : World) (name : string) :
  isModelChanged (STATE w) = true ->
  isFlagChanged (STATE w) = false -> isBackendChanged (STATE w) = false ->
  model (STATE w) = OtherModel name ->
  exists w',
    reconcileDetector w = (Done tt, w')
    /\ new_calls w w'
       = EvCancelAnimationFrame (rafId w)
         :: match detector w with Some h => [EvDispose h] | None => [] end
    /\ detector w' = None
    /\ inbox w' = inbox w
    /\ isModelChanged (STATE w') = false
    /\ model (STATE w') = OtherModel name.
Proof.
  intros Hg Hf Hb Hm.
  destruct (wp_done reconcileDetector
    (fun _ w' => new_calls w w'
         = EvCancelAnimationFrame (rafId w)
           :: match detector w with Some h => [EvDispose h] | None => [] end
      /\ detector w' = None
      /\ inbox w' = inbox w
      /\ isModelChanged (STATE w') = false
      /\ model (STATE w') = OtherModel name) w)
    as ([] & w' & Hrun & H); [|exists w'; split; assumption].
  flatn w. subst. unfold reconcileDetector, cancelAnimationFrame, detector_dispose.
  wp_go. rewrite Hg, Hf, Hb. wsimpl. wp_go.
  destruct det as [h|]; wp_go; rewrite Hf, Hb; wsimpl; wp_go.
  all: unfold constructDetector, clearChangeFlags.
  all: apply wp_bind, wp_try, wp_bind, wp_createDetector; wsimpl;
    [|intros Hn; destruct (Hn name Hm)].
  all: intros _ _; wp_go.
  all: split; [apply new_calls_app; calls_simpl; reflexivity|].
  all: repeat split; try reflexivity; exact Hm.
Qed.

Lemma unknown_model_leaves_no_detector_witness :
  exists w',
    reconcileDetector unknown_selected = (Done tt, w')
    /\ new_calls unknown_selected w' = [EvCancelAnimationFrame None; EvDispose 0]
    /\ detector w' = None.
Proof.
  destruct (unknown_model_leaves_no_detector unknown_selected "handpose")
    as (w' & H1 & H2 & H3 & _); try reflexivity.
  exists w'. split; [exact H1|]. split; [exact H2 | exact H3].
Defined.

(** ** Startup *)

Lemma spawn_returns (m : M unit) w : (spawn m w).1 = Done tt.
Proof.
  unfold spawn. destruct (m w) as [[[]|e|] w']; reflexivity.
Qed.

(** X15: without a [model] parameter in the query string the script alerts
    and does nothing else: the panel is not set up, nothing is awaited, no
    detector is constructed and the loop never starts, whatever the number of
    frames that pass. *)
Theorem startup_without_model_parameter (st : State) (search : gmap string string)
    (events : list Response) (frames : nat) :
  search !! "model" = None ->
  main frames (boot st search events)
  = (Done tt,
     set_trace [(EvAlert "Cannot find model in the query string.",
                 observe (boot st search events))]
       (boot st search events)).
Proof.
  intros Hs. unfold main, app, boot, alert, emit, modify, spawn, get, mbind, M_bind.
  wsimpl. rewrite Hs.
  rewrite bool_decide_eq_false_2 by (intros [x Hx]; discriminate). wsimpl.
  apply eventLoop_unscheduled. reflexivity.
Qed.

Lemma startup_without_model_parameter_witness :
  calls (main 3 (boot (movenet_state "lightning" "") ∅ reselection)).2
  = [EvAlert "Cannot find model in the query string."]
  /\ inbox (main 3 (boot (movenet_state "lightning" "") ∅ reselection)).2
     = reselection.
Proof.
  rewrite (startup_without_model_parameter (movenet_state "lightning" "") ∅
             reselection 3) by reflexivity.
  split; reflexivity.
Defined.

(** X16: the construction of the detector at startup stands in no [try]:
    when the factory rejects there, nothing is alerted, the error surfaces as
    the unhandled rejection of [app], the reference stays undefined and the
    loop never starts.  The settings each call is given are those the panel
    has left when the call is made. *)
Theorem startup_factory_failure_is_not_caught (st : State)
    (search : gmap string string) (r0 r1 r2 r3 : Response) (rest : list Response)
    (e : Error) (frames : nat) :
  is_Some (search !! "model") ->
  r_error r0 = None -> r_error r1 = None -> r_error r2 = None ->
  r_error r3 = Some e ->
  (forall name,
     model (applyPanels (applyPanels (applyPanels st (r_panel r0)) (r_panel r1))
              (r_panel r2)) <> OtherModel name) ->
  exists opts,
    calls (main frames (boot st search (r0 :: r1 :: r2 :: r3 :: rest))).2
    = [EvSetupDatGui;
       EvSetupCamera (STATE_camera (applyPanels st (r_panel r0)));
       EvSetBackendAndEnvFlags
         (flags (applyPanels (applyPanels st (r_panel r0)) (r_panel r1)))
         (backend (applyPanels (applyPanels st (r_panel r0)) (r_panel r1)));
       EvCreateDetector
         (model (applyPanels (applyPanels (applyPanels st (r_panel r0)) (r_panel r1))
                   (r_panel r2)))
         opts;
       EvUnhandledRejection e]
    /\ detector (main frames (boot st search (r0 :: r1 :: r2 :: r3 :: rest))).2 = None
    /\ alive (main frames (boot st search (r0 :: r1 :: r2 :: r3 :: rest))).2 = ∅
    /\ pendingFrame (main frames (boot st search (r0 :: r1 :: r2 :: r3 :: rest))).2
       = None.
Proof.
  intros Hq H0 H1 H2 H3 Hm.
  apply (wp_final (main frames)
    (fun w => exists opts,
       calls w
       = [EvSetupDatGui;
          EvSetupCamera (STATE_camera (applyPanels st (r_panel r0)));
          EvSetBackendAndEnvFlags
            (flags (applyPanels (applyPanels st (r_panel r0)) (r_panel r1)))
            (backend (applyPanels (applyPanels st (r_panel r0)) (r_panel r1)));
          EvCreateDetector
            (model (applyPanels (applyPanels (applyPanels st (r_panel r0)) (r_panel r1))
                      (r_panel r2)))
            opts;
          EvUnhandledRejection e]
       /\ detector w = None /\ alive w = ∅ /\ pendingFrame w = None)).
  unfold main, boot, app, setupDatGui, Camera_setupCamera, setBackendAndEnvFlags.
  wp_go. rewrite bool_decide_eq_true_2 by exact Hq. wsimpl. wp_go.
  apply wp_await; wsimpl; [discriminate|]. intros r rest' [= <- <-]. rewrite H0.
  wp_go. apply wp_await; wsimpl; [discriminate|]. intros r rest' [= <- <-].
  rewrite H1. wp_go.
  apply wp_await; wsimpl; [discriminate|]. intros r rest' [= <- <-].
  rewrite H2. wp_go.
  apply wp_createDetector; wsimpl; [intros name Hn; destruct (Hm name Hn)|].
  intros _ opts. apply wp_posedetection_createDetector; wsimpl; [discriminate|].
  intros r rest' [= <- <-]. rewrite H3. unfold called, resume. wsimpl.
  destruct frames as [|k]; cbn [eventLoop]; wp_go.
  all: exists opts; repeat split; reflexivity.
Qed.

Lemma startup_factory_failure_is_not_caught_witness :
  exists opts,
    calls (main 3 (boot (movenet_state "lightning" "") query
                     [resolved [] None; resolved [] None; resolved [] None;
                      rejected "404"])).2
    = [EvSetupDatGui;
       EvSetupCamera {| targetFPS := 60; sizeOption := "640 X 480" |};
       EvSetBackendAndEnvFlags ∅ "tfjs-webgl";
       EvCreateDetector MoveNet opts;
       EvUnhandledRejection "404"].
Proof.
  destruct (startup_factory_failure_is_not_caught (movenet_state "lightning" "")
              query (resolved [] None) (resolved [] None) (resolved [] None)
              (rejected "404") [] "404" 3) as (opts & H & _); try reflexivity.
  - vm_compute. eauto.
  - intros name. vm_compute. discriminate.
  - exists opts. exact H.
Defined.

(** X17: the order of a startup that succeeds: the panel, the camera, backend
    and flags, the factory; each is called with the settings the panel has
    left when the call is made.  Then the first tick is started with the new
    camera and the new detector, the only one alive. *)
Theorem startup_sequence (w : World) (r0 r1 r2 r3 : Response)
    (rest : list Response) :
  is_Some (location_search w !! "model") ->
  inbox w = r0 :: r1 :: r2 :: r3 :: rest ->
  r_error r0 = None -> r_error r1 = None -> r_error r2 = None ->
  r_error r3 = None ->
  (forall name,
     model (applyPanels (applyPanels (applyPanels (STATE w) (r_panel r0))
                           (r_panel r1)) (r_panel r2)) <> OtherModel name) ->
  exists opts w4,
    app w = spawn renderPrediction w4
    /\ new_calls w w4
       = [EvSetupDatGui;
          EvSetupCamera (STATE_camera (applyPanels (STATE w) (r_panel r0)));
          EvSetBackendAndEnvFlags
            (flags (applyPanels (applyPanels (STATE w) (r_panel r0)) (r_panel r1)))
            (backend (applyPanels (applyPanels (STATE w) (r_panel r0)) (r_panel r1)));
          EvCreateDetector
            (model (applyPanels (applyPanels (applyPanels (STATE w) (r_panel r0))
                                   (r_panel r1)) (r_panel r2)))
            opts]
    /\ camera w4 = Some (r_camera r1)
    /\ detector w4 = Some (nextHandle w)
    /\ alive w4 = {[nextHandle w]} ∪ alive w
    /\ inbox w4 = rest
    /\ STATE w4
       = applyPanels (applyPanels (applyPanels (applyPanels (STATE w) (r_panel r0))
                                     (r_panel r1)) (r_panel r2)) (r_panel r3).
Proof.
  intros Hq Hi H0 H1 H2 H3 Hm.
  enough (wp app
    (fun a w' => exists opts w4,
       (Done a, w') = spawn renderPrediction w4
       /\ new_calls w w4
          = [EvSetupDatGui;
             EvSetupCamera (STATE_camera (applyPanels (STATE w) (r_panel r0)));
             EvSetBackendAndEnvFlags
               (flags (applyPanels (applyPanels (STATE w) (r_panel r0)) (r_panel r1)))
               (backend (applyPanels (applyPanels (STATE w) (r_panel r0)) (r_panel r1)));
             EvCreateDetector
               (model (applyPanels (applyPanels (applyPanels (STATE w) (r_panel r0))
                                      (r_panel r1)) (r_panel r2)))
               opts]
       /\ camera w4 = Some (r_camera r1)
       /\ detector w4 = Some (nextHandle w)
       /\ alive w4 = {[nextHandle w]} ∪ alive w
       /\ inbox w4 = rest
       /\ STATE w4
          = applyPanels (applyPanels (applyPanels (applyPanels (STATE w) (r_panel r0))
                                        (r_panel r1)) (r_panel r2)) (r_panel r3))
    (fun _ _ => False) (fun _ => False) w) as Hwp.
  { apply wp_done in Hwp as (a & w' & Hrun & opts & w4 & Heq & H).
    exists opts, w4. split; [congruence | exact H]. }
  flatn w. subst.
  unfold app, setupDatGui, Camera_setupCamera, setBackendAndEnvFlags.
  wp_go. rewrite bool_decide_eq_true_2 by exact Hq. wsimpl. wp_go.
  apply wp_await; wsimpl; [discriminate|]. intros r rest' [= <- <-]. rewrite H0.
  wp_go. apply wp_await; wsimpl; [discriminate|]. intros r rest' [= <- <-].
  rewrite H1. wp_go.
  apply wp_await; wsimpl; [discriminate|]. intros r rest' [= <- <-].
  rewrite H2. wp_go.
  apply wp_createDetector; wsimpl; [intros name Hn; destruct (Hm name Hn)|].
  intros _ opts. apply wp_posedetection_createDetector; wsimpl; [discriminate|].
  intros r rest' [= <- <-]. rewrite H3. unfold called, resume, allocated. wsimpl.
  apply wp_bind, wp_modify. wsimpl.
  match goal with
  | |- wp (spawn renderPrediction) _ _ _ ?w4 =>
      pose proof (spawn_returns renderPrediction w4) as Hsp;
      unfold wp; destruct (spawn renderPrediction w4) as [[[]|e|] w'] eqn:Hrun;
      cbn [fst] in Hsp; try discriminate;
      exists opts, w4
  end.
  split; [symmetry; exact Hrun|].
  split; [apply new_calls_app; calls_simpl; reflexivity|].
  repeat split; reflexivity.
Qed.

Lemma startup_sequence_witness :
  exists opts w4,
    app (boot (movenet_state "lightning" "") query
           [resolved [SetSizeOption "360 X 270"] None; resolved [] None;
            resolved [] None; resolved [] None])
    = spawn renderPrediction w4
    /\ new_calls (boot (movenet_state "lightning" "") query
           [resolved [SetSizeOption "360 X 270"] None; resolved [] None;
            resolved [] None; resolved [] None]) w4
       = [EvSetupDatGui;
          EvSetupCamera {| targetFPS := 60; sizeOption := "360 X 270" |};
          EvSetBackendAndEnvFlags ∅ "tfjs-webgl";
          EvCreateDetector MoveNet opts]
    /\ detector w4 = Some 0.
Proof.
  destruct (startup_sequence
              (boot (movenet_state "lightning" "") query
                 [resolved [SetSizeOption "360 X 270"] None; resolved [] None;
                  resolved [] None; resolved [] None])
              (resolved [SetSizeOption "360 X 270"] None) (resolved [] None)
              (resolved [] None) (resolved [] None) [])
    as (opts & w4 & H1 & H2 & _ & H4 & _); try reflexivity.
  - vm_compute. eauto.
  - intros name. vm_compute. discriminate.
  - exists opts, w4. split; [exact H1|]. split; [exact H2 | exact H4].
Defined.

(** ** Ticks that render *)

Lemma quiet_flags s :
  quiet s = true ->
  isModelChanged s = false /\ isFlagChanged s = false /\ isBackendChanged s = false
  /\ isTargetFPSChanged s = false /\ isSizeOptionChanged s = false.
Proof.
  unfold quiet. rewrite negb_true_iff. intros H.
  repeat (apply orb_false_iff in H; destruct H as [H ?]). tauto.
Qed.

(** X18: a tick with no change to reconcile and no detector makes no
    inference and awaits nothing: it draws the frame and the indicators,
    requests the next frame, and leaves the settings as they are. *)
Theorem tick_without_detector (w : World) (c : Camera) :
  quiet (STATE w) = true -> camera w = Some c -> detector w = None ->
  2 <= readyState w ->
  exists w',
    renderPrediction w = (Done tt, w')
    /\ new_calls w w'
       = [EvDrawCtx; EvDrawIndicators; EvRequestAnimationFrame (nextFrameId w)]
    /\ inbox w' = inbox w
    /\ STATE w' = STATE w
    /\ detector w' = None
    /\ pendingFrame w' = Some (nextFrameId w).
Proof.
  intros Hq Hc Hd Hr. apply quiet_flags in Hq as (Hg & Hf & Hb & Ht & Hs).
  destruct (wp_done renderPrediction
    (fun _ w' => new_calls w w'
         = [EvDrawCtx; EvDrawIndicators; EvRequestAnimationFrame (nextFrameId w)]
      /\ inbox w' = inbox w
      /\ STATE w' = STATE w
      /\ detector w' = None
      /\ pendingFrame w' = Some (nextFrameId w)) w)
    as ([] & w' & Hrun & H); [|exists w'; split; assumption].
  flatn w. subst. apply Nat.ltb_ge in Hr.
  unfold renderPrediction, checkGuiUpdate, reconcileCamera, reconcileDetector,
    renderUnlessReplacing, renderResult, awaitVideoReady, estimate, draw,
    the_camera, scheduleNext, requestAnimationFrame.
  wp_go. rewrite ?Ht, ?Hs. wsimpl. wp_go. rewrite ?Hg, ?Hf, ?Hb. wsimpl. wp_go.
  rewrite ?Hg. wsimpl. wp_go. rewrite ?Hr. wsimpl. wp_go.
  destruct wcam as [c0|]; wp_go.
  all: split; [apply new_calls_app; calls_simpl; reflexivity|].
  all: repeat split; reflexivity.
Qed.

Lemma tick_without_detector_witness :
  exists w',
    renderPrediction
      (set_detector None (running (movenet_state "lightning" "") [resolved [] (Some [7])]))
    = (Done tt, w')
    /\ new_calls
         (set_detector None
            (running (movenet_state "lightning" "") [resolved [] (Some [7])])) w'
       = [EvDrawCtx; EvDrawIndicators; EvRequestAnimationFrame 0]
    /\ inbox w' = [resolved [] (Some [7])].
Proof.
  destruct (tick_without_detector
              (set_detector None
                 (running (movenet_state "lightning" "") [resolved [] (Some [7])]))
              sample_camera) as (w' & H1 & H2 & H3 & _); try reflexivity.
  - vm_compute. lia.
  - exists w'. split; [exact H1|]. split; [exact H2 | exact H3].
Defined.

(** X19: a tick with no change to reconcile, a detector and a ready video:
    one inference on the detector, with the options of the settings as the
    tick starts; then the frame, the overlay if the result holds a pose and
    the panel has not raised the gate meanwhile, the indicators, and the
    request of the next frame.  The detector stays; [window.cam] is set if it
    was not. *)
Theorem tick_estimates_draws_and_schedules (w : World) (c : Camera) (h : Handle)
    (r : Response) (rest : list Response) :
  quiet (STATE w) = true -> camera w = Some c -> detector w = Some h ->
  2 <= readyState w -> inbox w = r :: rest -> r_error r = None ->
  exists w',
    renderPrediction w = (Done tt, w')
    /\ new_calls w w'
       = [EvEstimatePoses h c (estimateConfig (STATE w)); EvDrawCtx]
         ++ (if overlay_wanted (r_poses r) (applyPanels (STATE w) (r_panel r))
             then [EvDrawResults (default [] (r_poses r)); EvDrawIdeal] else [])
         ++ [EvDrawIndicators; EvRequestAnimationFrame (nextFrameId w)]
    /\ detector w' = Some h
    /\ alive w' = alive w
    /\ STATE w' = applyPanels (STATE w) (r_panel r)
    /\ window_cam w' = Some (default c (window_cam w))
    /\ inbox w' = rest.
Proof.
  intros Hq Hc Hd Hr Hi He. apply quiet_flags in Hq as (Hg & Hf & Hb & Ht & Hs).
  destruct (wp_done renderPrediction
    (fun _ w' => new_calls w w'
         = [EvEstimatePoses h c (estimateConfig (STATE w)); EvDrawCtx]
           ++ (if overlay_wanted (r_poses r) (applyPanels (STATE w) (r_panel r))
               then [EvDrawResults (default [] (r_poses r)); EvDrawIdeal] else [])
           ++ [EvDrawIndicators; EvRequestAnimationFrame (nextFrameId w)]
      /\ detector w' = Some h
      /\ alive w' = alive w
      /\ STATE w' = applyPanels (STATE w) (r_panel r)
      /\ window_cam w' = Some (default c (window_cam w))
      /\ inbox w' = rest) w)
    as ([] & w' & Hrun & H); [|exists w'; split; assumption].
  flatn w. subst. apply Nat.ltb_ge in Hr.
  unfold renderPrediction, checkGuiUpdate, reconcileCamera, reconcileDetector,
    renderUnlessReplacing, renderResult, awaitVideoReady, estimate, draw,
    the_camera, scheduleNext, requestAnimationFrame, detector_estimatePoses.
  wp_go. rewrite ?Ht, ?Hs. wsimpl. wp_go. rewrite ?Hg, ?Hf, ?Hb. wsimpl. wp_go.
  rewrite ?Hg. wsimpl. wp_go. rewrite ?Hr. wsimpl. wp_go.
  apply wp_await; wsimpl; [discriminate|].
  intros r' rest' [= <- <-]. rewrite He. wp_go.
  destruct wcam as [c0|]; wp_go.
  all: destruct (overlay_wanted (r_poses r) (applyPanels st (r_panel r))); wp_go.
  all: split; [apply new_calls_app; calls_simpl; reflexivity|].
  all: repeat split; reflexivity.
Qed.

Lemma tick_estimates_draws_and_schedules_witness :
  exists w',
    renderPrediction (running (movenet_state "lightning" "") [resolved [] (Some [7])])
    = (Done tt, w')
    /\ new_calls (running (movenet_state "lightning" "") [resolved [] (Some [7])]) w'
       = [EvEstimatePoses 0 sample_camera
            {[ "maxPoses" := JInt 1; "flipHorizontal" := JBool false ]};
          EvDrawCtx; EvDrawResults [7]; EvDrawIdeal; EvDrawIndicators;
          EvRequestAnimationFrame 0].
Proof.
  destruct (tick_estimates_draws_and_schedules
              (running (movenet_state "lightning" "") [resolved [] (Some [7])])
              sample_camera 0 (resolved [] (Some [7])) [])
    as (w' & H1 & H2 & _); try reflexivity.
  - vm_compute. lia.
  - exists w'. split; [exact H1|]. rewrite H2. vm_compute. reflexivity.
Defined.

(** X20: while the video has no frame yet the render step waits before it
    makes any call: as long as the event is not delivered the tick stays
    suspended, having done nothing and requested no frame. *)
Theorem tick_waits_for_video (w : World) (c : Camera) :
  quiet (STATE w) = true -> camera w = Some c -> readyState w < 2 ->
  inbox w = [] ->
  renderPrediction w = (Pending, w).
Proof.
  intros Hq Hc Hr Hi. apply quiet_flags in Hq as (Hg & Hf & Hb & Ht & Hs).
  destruct (wp_pending renderPrediction (fun w' => w' = w) w)
    as (w' & Hrun & ->); [|exact Hrun].
  flatn w. subst. apply Nat.ltb_lt in Hr.
  unfold renderPrediction, checkGuiUpdate, reconcileCamera, reconcileDetector,
    renderUnlessReplacing, renderResult, awaitVideoReady, the_camera.
  wp_go. rewrite ?Ht, ?Hs. wsimpl. wp_go. rewrite ?Hg, ?Hf, ?Hb. wsimpl. wp_go.
  rewrite ?Hg. wsimpl. wp_go. rewrite ?Hr. wsimpl. wp_go.
  apply wp_suspend; wsimpl; [reflexivity | discriminate].
Qed.

Lemma tick_waits_for_video_witness :
  renderPrediction (set_readyState 1 (running (movenet_state "lightning" "") []))
  = (Pending, set_readyState 1 (running (movenet_state "lightning" "") [])).
Proof.
  apply (tick_waits_for_video
           (set_readyState 1 (running (movenet_state "lightning" "") []))
           sample_camera); try reflexivity.
  vm_compute. lia.
Defined.

(** X21: the gate is tested before the wait for the video and not again
    after it: a model selected on the panel during that wait does not stop
    the inference, which runs on the detector of before, still alive; only
    the overlay is left out, whatever the result. *)
Theorem gate_not_tested_after_video_wait (w : World) (c : Camera) (h : Handle)
    (r0 r1 : Response) (rest : list Response) (m : SupportedModels) :
  quiet (STATE w) = true -> camera w = Some c -> detector w = Some h ->
  readyState w < 2 -> inbox w = r0 :: r1 :: rest ->
  r_panel r0 = [SelectModel m] -> r_error r1 = None ->
  exists w',
    renderPrediction w = (Done tt, w')
    /\ new_calls w w'
       = [EvEstimatePoses h c (estimateConfig (STATE w));
          EvDrawCtx; EvDrawIndicators; EvRequestAnimationFrame (nextFrameId w)]
    /\ Forall (fun i => snap_gate i.2 = true) (new_instants w w')
    /\ detector w' = Some h
    /\ alive w' = alive w
    /\ isModelChanged (STATE w') = true.
Proof.
  intros Hq Hc Hd Hr Hi Hp He. apply quiet_flags in Hq as (Hg & Hf & Hb & Ht & Hs).
  destruct (wp_done renderPrediction
    (fun _ w' => new_calls w w'
         = [EvEstimatePoses h c (estimateConfig (STATE w));
            EvDrawCtx; EvDrawIndicators; EvRequestAnimationFrame (nextFrameId w)]
      /\ Forall (fun i => snap_gate i.2 = true) (new_instants w w')
      /\ detector w' = Some h
      /\ alive w' = alive w
      /\ isModelChanged (STATE w') = true) w)
    as ([] & w' & Hrun & H); [|exists w'; split; assumption].
  flatn w. subst. apply Nat.ltb_lt in Hr.
  unfold renderPrediction, checkGuiUpdate, reconcileCamera, reconcileDetector,
    renderUnlessReplacing, renderResult, awaitVideoReady, estimate, draw,
    the_camera, scheduleNext, requestAnimationFrame, detector_estimatePoses.
  wp_go. rewrite ?Ht, ?Hs. wsimpl. wp_go. rewrite ?Hg, ?Hf, ?Hb. wsimpl. wp_go.
  rewrite ?Hg. wsimpl. wp_go. rewrite ?Hr. wsimpl. wp_go.
  apply wp_suspend; wsimpl; [discriminate|].
  intros r' rest' [= <- <-]. rewrite Hp. wp_go.
  apply wp_await; wsimpl; [discriminate|].
  intros r' rest' [= <- <-]. rewrite He. wp_go.
  assert (Hgate : isModelChanged
            (applyPanels (applyPanels st [SelectModel m]) (r_panel r1)) = true)
    by (apply applyPanels_gate; reflexivity).
  assert (Hov : overlay_wanted (r_poses r1)
            (applyPanels (applyPanels st [SelectModel m]) (r_panel r1)) = false).
  { unfold overlay_wanted. rewrite Hgate. destruct (r_poses r1); [|reflexivity].
    apply andb_false_r. }
  destruct wcam as [c0|]; wp_go; rewrite Hov; wp_go.
  all: split; [apply new_calls_app; calls_simpl; reflexivity|].
  all: split; [erewrite new_instants_app by (wsimpl; rewrite <- ?app_assoc; reflexivity);
               cbn [app]; repeat constructor; cbn [snd snap_gate]; try exact Hgate;
               try reflexivity|].
  all: repeat split; try reflexivity; exact Hgate.
Qed.

Lemma gate_not_tested_after_video_wait_witness :
  exists w',
    renderPrediction
      (set_readyState 0
         (running (movenet_state "lightning" "")
            [resolved [SelectModel PoseNet] None; resolved [] (Some [7])]))
    = (Done tt, w')
    /\ new_calls
         (set_readyState 0
            (running (movenet_state "lightning" "")
               [resolved [SelectModel PoseNet] None; resolved [] (Some [7])])) w'
       = [EvEstimatePoses 0 sample_camera
            {[ "maxPoses" := JInt 1; "flipHorizontal" := JBool false ]};
          EvDrawCtx; EvDrawIndicators; EvRequestAnimationFrame 0]
    /\ model (STATE w') = PoseNet.
Proof.
  destruct (gate_not_tested_after_video_wait
              (set_readyState 0
                 (running (movenet_state "lightning" "")
                    [resolved [SelectModel PoseNet] None; resolved [] (Some [7])]))
              sample_camera 0
              (resolved [SelectModel PoseNet] None) (resolved [] (Some [7])) []
              PoseNet)
    as (w' & H1 & H2 & _); try reflexivity.
  - vm_compute. lia.
  - exists w'. split; [exact H1|]. split; [rewrite H2; vm_compute; reflexivity|].
    revert H1. vm_compute. intros [= <-]. reflexivity.
Defined.

(** ** More on the Stats Aggregator *)

Section StatsMore.
Import Stats.

(** X22: inside a reporting interval, as the test of line 128 has it, the
    aggregator reports nothing and needs no panel: each inference adds its
    duration to the sum and one to the count, and the start of the interval
    stays. *)
Theorem stats_accumulate_inside_interval (v : Vars)
    (pre : list (JSNumber * JSNumber)) :
  Forall (fun se => fills (lastPanelUpdate v) se.2 = false) pre ->
  exists v',
    inferences pre v = (replicate (length pre) (Done None), v')
    /\ inferenceTimeSum v' = foldl add (inferenceTimeSum v) (durations pre)
    /\ numInferences v'
       = Nat.iter (length pre) (fun c => (c + 1)%float) (numInferences v)
    /\ lastPanelUpdate v' = lastPanelUpdate v.
Proof.
  intros Hin.
  destruct (inferences_accumulate pre v Hin) as (v' & H1 & H2 & H3 & H4 & _).
  exists v'. repeat (split; [assumption|]). assumption.
Qed.

Lemma stats_accumulate_inside_interval_witness :
  exists v',
    inferences [(0.5, 400); (450, 1000.2)]%float
      {| stats := None; startInferenceTime := nan; numInferences := 0%float;
         inferenceTimeSum := 0%float; lastPanelUpdate := 0.3%float |}
    = ([Done None; Done None], v')
    /\ inferenceTimeSum v' = (0 + (400 - 0.5) + (1000.2 - 450))%float
    /\ numInferences v' = 2%float.
Proof.
  destruct (stats_accumulate_inside_interval
              {| stats := None; startInferenceTime := nan; numInferences := 0%float;
                 inferenceTimeSum := 0%float; lastPanelUpdate := 0.3%float |}
              [(0.5, 400); (450, 1000.2)]%float)
    as (v' & H1 & H2 & H3 & _).
  - repeat constructor.
  - exists v'. split; [exact H1|]. split; [exact H2 | exact H3].
Defined.

(** X23: without a panel, the inference that fills the interval throws after
    the sum and the count have been reset and before the interval is
    restarted: its sample and those before it are lost, and since the start
    of the interval has not moved, every later inference that fills it
    throws again. *)
Theorem stats_without_panel_keeps_throwing (v : Vars) (s e : JSNumber) :
  stats v = None ->
  fills (lastPanelUpdate v) e = true ->
  exists v',
    endEstimatePosesStats e (beginEstimatePosesStats s v)
    = (Thrown "TypeError: stats is undefined", v')
    /\ inferenceTimeSum v' = 0%float
    /\ numInferences v' = 0%float
    /\ lastPanelUpdate v' = lastPanelUpdate v
    /\ stats v' = None
    /\ forall later,
         Forall (fun se => fills (lastPanelUpdate v) se.2 = true) later ->
         (inferences later v').1
         = replicate (length later) (Thrown "TypeError: stats is undefined")
         /\ lastPanelUpdate (inferences later v').2 = lastPanelUpdate v.
Proof.
  intros Hst Hout.
  assert (Hstep : forall u s' e',
    stats u = None -> fills (lastPanelUpdate u) e' = true ->
    endEstimatePosesStats e' (beginEstimatePosesStats s' u)
    = (Thrown "TypeError: stats is undefined",
       {| stats := None; startInferenceTime := s'; numInferences := 0%float;
          inferenceTimeSum := 0%float; lastPanelUpdate := lastPanelUpdate u |})).
  { intros u s' e' Hu Hf.
    unfold endEstimatePosesStats, beginEstimatePosesStats, recordInference.
    cbn [stats startInferenceTime numInferences inferenceTimeSum lastPanelUpdate].
    unfold fills in Hf. rewrite Hf, Hu. reflexivity. }
  rewrite (Hstep v s e Hst Hout). eexists. split; [reflexivity|].
  cbn [stats startInferenceTime numInferences inferenceTimeSum lastPanelUpdate].
  repeat (split; [reflexivity|]).
  intros later. generalize s. clear Hout.
  induction later as [|[s' e'] later IH]; intros s0 Hin.
  - split; reflexivity.
  - inversion Hin as [|? ? Hf Hin']; subst. cbn [snd] in Hf. cbn [inferences].
    rewrite Hstep by (try reflexivity; exact Hf).
    cbn [lastPanelUpdate].
    specialize (IH s' Hin').
    destruct (inferences later _) as [os v'']. cbn [fst snd] in *.
    destruct IH as [-> ->]. split; reflexivity.
Qed.

Lemma stats_without_panel_keeps_throwing_witness :
  exists v',
    endEstimatePosesStats 1500%float (beginEstimatePosesStats 1400%float initial)
    = (Thrown "TypeError: stats is undefined", v')
    /\ (inferences [(1550, 1600); (1700, 1800)]%float v').1
       = [Thrown "TypeError: stats is undefined";
          Thrown "TypeError: stats is undefined"].
Proof.
  destruct (stats_without_panel_keeps_throwing initial 1400%float 1500%float)
    as (v' & H1 & _ & _ & _ & _ & H6).
  - reflexivity.
  - reflexivity.
  - exists v'. split; [exact H1|].
    apply (H6 [(1550, 1600); (1700, 1800)]%float). repeat constructor.
Defined.

Lemma sub_nan x : (x - nan)%float = nan.
Proof.
  apply Prim2SF_inj. rewrite sub_spec. change (Prim2SF nan) with S754_nan.
  destruct (Prim2SF x); reflexivity.
Qed.

Lemma add_nan x : (x + nan)%float = nan.
Proof.
  apply Prim2SF_inj. rewrite add_spec. change (Prim2SF nan) with S754_nan.
  destruct (Prim2SF x); reflexivity.
Qed.

Lemma nan_div x : (nan / x)%float = nan.
Proof.
  apply Prim2SF_inj. rewrite div_spec. change (Prim2SF nan) with S754_nan.
  reflexivity.
Qed.

(** X24: an inference whose end is recorded without its start having ever
    been taken subtracts an undefined time: the sum is NaN, whatever it was
    and whatever is added through the interval, and the rate reported at its
    end is NaN. *)
Theorem stats_end_without_begin_reports_NaN (panel : nat) (v : Vars)
    (pre : list JSNumber) (e : JSNumber) :
  stats v = Some panel ->
  startInferenceTime v = nan ->
  Forall (fun t => fills (lastPanelUpdate v) t = false) pre ->
  fills (lastPanelUpdate v) e = true ->
  (endEstimatePosesStats e
     (foldl (fun u t => (endEstimatePosesStats t u).2) v pre)).1
  = Done (Some (nan, 120%Z)).
Proof.
  intros Hst Hstart Hin Hout.
  assert (Hrun : forall pre u,
    stats u = Some panel -> startInferenceTime u = nan ->
    lastPanelUpdate u = lastPanelUpdate v ->
    Forall (fun t => fills (lastPanelUpdate v) t = false) pre ->
    stats (foldl (fun u t => (endEstimatePosesStats t u).2) u pre) = Some panel
    /\ startInferenceTime (foldl (fun u t => (endEstimatePosesStats t u).2) u pre)
       = nan
    /\ lastPanelUpdate (foldl (fun u t => (endEstimatePosesStats t u).2) u pre)
       = lastPanelUpdate v).
  { clear pre Hin. induction pre as [|t pre IH]; intros u H1 H2 H3 Hin.
    - cbn. auto.
    - inversion Hin as [|? ? Ht Hin']; subst. cbn [foldl]. apply IH; [| | |exact Hin'].
      all: unfold endEstimatePosesStats, recordInference;
        cbn [stats startInferenceTime numInferences inferenceTimeSum lastPanelUpdate];
        unfold fills in Ht; rewrite H3, Ht;
        cbn [snd stats startInferenceTime lastPanelUpdate];
        solve [assumption | reflexivity]. }
  destruct (Hrun pre v Hst Hstart eq_refl Hin) as (H1 & H2 & H3).
  unfold endEstimatePosesStats at 1, recordInference, averageInferenceTime.
  cbn [stats startInferenceTime numInferences inferenceTimeSum lastPanelUpdate].
  unfold fills in Hout. rewrite H1, H2, H3, Hout, sub_nan, add_nan, nan_div.
  reflexivity.
Qed.

Lemma stats_end_without_begin_reports_NaN_witness :
  (endEstimatePosesStats 1000.3%float
     (foldl (fun u t => (endEstimatePosesStats t u).2)
        {| stats := Some 1; startInferenceTime := nan; numInferences := 0%float;
           inferenceTimeSum := 0%float; lastPanelUpdate := 0.3%float |}
        [300; 700]%float)).1
  = Done (Some (nan, 120%Z)).
Proof.
  apply (stats_end_without_begin_reports_NaN 1
           {| stats := Some 1; startInferenceTime := nan; numInferences := 0%float;
              inferenceTimeSum := 0%float; lastPanelUpdate := 0.3%float |}
           [300; 700]%float 1000.3%float).
  - reflexivity.
  - reflexivity.
  - repeat constructor.
  - reflexivity.
Defined.

(** X25: after a report at time [e] the interval starts at [e]: the
    inferences that do not fill it, as the test of line 128 has it, report
    nothing, and the count then counts exactly those inferences. *)
Theorem stats_reports_are_an_interval_apart (v v1 : Vars) (s e : JSNumber)
    (rep : Report) (next : list (JSNumber * JSNumber)) :
  endEstimatePosesStats e (beginEstimatePosesStats s v) = (Done (Some rep), v1) ->
  Forall (fun se => fills e se.2 = false) next ->
  (inferences next v1).1 = replicate (length next) (Done None)
  /\ lastPanelUpdate (inferences next v1).2 = e
  /\ numInferences (inferences next v1).2 = count (length next).
Proof.
  intros Hrep Hin.
  assert (Hv1 : lastPanelUpdate v1 = e /\ numInferences v1 = 0%float).
  { revert Hrep. unfold endEstimatePosesStats, beginEstimatePosesStats, recordInference.
    cbn [stats startInferenceTime numInferences inferenceTimeSum lastPanelUpdate].
    destruct (1000 <=? e - lastPanelUpdate v)%float; [|discriminate].
    destruct (stats v); [|discriminate].
    intros [= _ <-]. split; reflexivity. }
  destruct Hv1 as (Hl & Hn).
  destruct (inferences_accumulate next v1) as (v' & H1 & _ & H4 & H5 & _).
  { rewrite Hl. exact Hin. }
  rewrite H1. cbn [fst snd]. rewrite H5, H4, Hn, Hl. repeat split.
Qed.

Lemma stats_reports_are_an_interval_apart_witness :
  (inferences [(1010, 1300); (1310, 2000.2)]%float
     (endEstimatePosesStats 1000.3%float
        (beginEstimatePosesStats 900%float
           {| stats := Some 1; startInferenceTime := nan; numInferences := 0%float;
              inferenceTimeSum := 0%float; lastPanelUpdate := 0.3%float |})).2).1
  = [Done None; Done None].
Proof.
  destruct (stats_reports_are_an_interval_apart
              {| stats := Some 1; startInferenceTime := nan; numInferences := 0%float;
                 inferenceTimeSum := 0%float; lastPanelUpdate := 0.3%float |}
              (endEstimatePosesStats 1000.3%float
                 (beginEstimatePosesStats 900%float
                    {| stats := Some 1; startInferenceTime := nan;
                       numInferences := 0%float; inferenceTimeSum := 0%float;
                       lastPanelUpdate := 0.3%float |})).2
              900%float 1000.3%float
              ((1000 / ((0 + (1000.3 - 900)) / (0 + 1)))%float, 120%Z)
              [(1010, 1300); (1310, 2000.2)]%float) as (H1 & _).
  - reflexivity.
  - repeat constructor.
  - exact H1.
Defined.

Lemma finite_cases e :
  is_finite e = true ->
  (exists s, Prim2SF e = S754_zero s) \/ (exists s m x, Prim2SF e = S754_finite s m x).
Proof.
  unfold is_finite, is_nan, is_infinity. rewrite !eqb_spec, abs_spec.
  change (Prim2SF infinity) with (S754_infinity false).
  destruct (Prim2SF e) as [s|s| |s m x]; [eauto|destruct s; discriminate|discriminate|].
  right. eauto.
Qed.

Lemma sub_self e : is_finite e = true -> (e - e)%float = 0%float.
Proof.
  intros He. apply Prim2SF_inj. rewrite sub_spec.
  change (Prim2SF 0) with (S754_zero false).
  destruct (finite_cases e He) as [[s ->]|(s & m & x & ->)].
  - destruct s; reflexivity.
  - unfold SF64sub, SFsub. rewrite Z.sub_diag. reflexivity.
Qed.

Lemma zero_div_count n : (0 / count (S n))%float = 0%float.
Proof.
  apply Prim2SF_inj. rewrite div_spec. pose proof (count_at_least_one n) as H.
  change (Prim2SF 0) with (S754_zero false).
  destruct (Prim2SF (count (S n))) as [s|[|]| |[|] m e]; cbn in H; try tauto;
    reflexivity.
Qed.

(** X26: an interval whose inferences all took no time ends in the report of
    an infinite rate: each duration is 0, so is the sum, the average is 0 and
    [1000 / 0] is [Infinity]. *)
Theorem stats_zero_durations_report_infinity (panel : nat) (v : Vars)
    (pre : list JSNumber) (e : JSNumber) :
  stats v = Some panel ->
  inferenceTimeSum v = 0%float ->
  numInferences v = 0%float ->
  Forall (fun t => is_finite t = true /\ fills (lastPanelUpdate v) t = false) pre ->
  is_finite e = true ->
  fills (lastPanelUpdate v) e = true ->
  (inferences (map (fun t => (t, t)) (pre ++ [e])) v).1
  = replicate (length pre) (Done None) ++ [Done (Some (infinity, 120%Z))].
Proof.
  intros Hst Hsum Hn Hin He Hout.
  rewrite map_app, inferences_app.
  destruct (inferences_accumulate (map (fun t => (t, t)) pre) v)
    as (v1 & Hrun & Hs1 & Hn1 & Hl1 & Hst1).
  { clear -Hin. induction Hin as [|t pre [_ Ht] _ IH]; cbn; constructor; assumption. }
  rewrite Hrun, length_map. cbn [map inferences].
  unfold endEstimatePosesStats, beginEstimatePosesStats, recordInference,
    averageInferenceTime.
  cbn [stats startInferenceTime numInferences inferenceTimeSum lastPanelUpdate].
  unfold fills in Hout. rewrite Hl1, Hout, Hst1, Hst, Hs1, Hn1, Hsum, Hn.
  rewrite length_map.
  assert (Hzero : foldl add 0%float (durations (map (fun t => (t, t)) pre)) = 0%float).
  { clear -Hin. induction Hin as [|t pre [Ht _] _ IH]; [reflexivity|].
    cbn [map durations foldl fst snd]. rewrite (sub_self t Ht).
    change (0 + 0)%float with 0%float. exact IH. }
  rewrite Hzero, (sub_self e He).
  change (0 + 0)%float with 0%float.
  change (Nat.iter (length pre) (fun c => (c + 1)%float) 0%float + 1)%float
    with (count (S (length pre))).
  rewrite zero_div_count. reflexivity.
Qed.

Lemma stats_zero_durations_report_infinity_witness :
  (inferences [(300, 300); (1000.3, 1000.3)]%float
     {| stats := Some 1; startInferenceTime := nan; numInferences := 0%float;
        inferenceTimeSum := 0%float; lastPanelUpdate := 0.3%float |}).1
  = [Done None; Done (Some (infinity, 120%Z))].
Proof.
  apply (stats_zero_durations_report_infinity 1
           {| stats := Some 1; startInferenceTime := nan; numInferences := 0%float;
              inferenceTimeSum := 0%float; lastPanelUpdate := 0.3%float |}
           [300]%float 1000.3%float).
  - reflexivity.
  - reflexivity.
  - reflexivity.
  - repeat constructor.
  - reflexivity.
  - reflexivity.
Defined.
End StatsMore.
